(** * Open-Catalyst-Dataset: the adsorption sampler of [ocdata]

    A shallow embedding of [ocdata/adsorptions.py] and of the [Combined]
    class of [ocdata/combined.py], and the properties proved about them.

    - Python floats are IEEE 754 binary64 values: [spec_float] of the
      Standard Library with precision 53 and maximal exponent 1024, so that
      comparisons with NaN behave as they do in the program.
    - Exceptions are values of [exn]; a function that can raise returns a
      [Result].  Functions that read pickle files or draw random numbers run
      in the monad [IO], which threads a [World].
    - pymatgen, ASE, catkit and numpy are outside the repository: what the
      program calls from them is a field of the class [Libs].  The module
      [ocdata.constants] is a field of the class [Constants]. *)

From Stdlib Require Import ZArith Bool Lia.
From Stdlib Require Import Floats.SpecFloat.
From stdpp Require Import base option list strings gmap pretty.

Set Default Proof Using "Type".

(** ** Floating point *)

Module Float.

Definition float : Type := spec_float.

Definition prec : Z := 53.
Definition emax : Z := 1024.

Definition add : float -> float -> float := SFadd prec emax.
Definition sub : float -> float -> float := SFsub prec emax.
Definition mul : float -> float -> float := SFmul prec emax.
Definition div : float -> float -> float := SFdiv prec emax.
Definition neg : float -> float := SFopp.

Definition ltb : float -> float -> bool := SFltb.
Definition leb : float -> float -> bool := SFleb.
Definition eqb : float -> float -> bool := SFeqb.
(** Python's [a > b] on floats. *)
Definition gtb (a b : float) : bool := SFltb b a.

Definition is_nan (x : float) : bool :=
  match x with S754_nan => true | _ => false end.

(** An integer literal as a float (exact below 2^53). *)
Definition of_Z (z : Z) : float := binary_normalize prec emax z 0 false.

(** The literals of the program. *)
Definition zero : float := S754_zero false.
Definition one : float := of_Z 1.
Definition two : float := of_Z 2.
Definition minus_one : float := of_Z (-1).
Definition hundred : float := of_Z 100.
(** [0.8] is the double 0x3FE999999999999A. *)
Definition zero_point_eight : float := S754_finite false 7205759403792794 (-53).

End Float.

Abbreviation float := Float.float.

#[global] Arguments Float.add : simpl never.
#[global] Arguments Float.sub : simpl never.
#[global] Arguments Float.mul : simpl never.
#[global] Arguments Float.div : simpl never.
#[global] Arguments Float.of_Z : simpl never.

Definition vec3 : Type := float * float * float.

Definition vx (v : vec3) : float := v.1.1.
Definition vy (v : vec3) : float := v.1.2.
Definition vz (v : vec3) : float := v.2.
Definition vneg (v : vec3) : vec3 := (Float.neg (vx v), Float.neg (vy v), Float.neg (vz v)).

(** ** Python: exceptions, results, builtins *)

Inductive exn : Type :=
| ValueError (msg : string)
| IndexError (msg : string)
| KeyError (msg : string)
| TypeError (msg : string)
| RuntimeError (msg : string)
| NameError (name : string)
| AttributeError (name : string)
| ZeroDivisionError (msg : string)
| OverflowError (msg : string)
| AssertionError
| FileNotFoundError (path : string)
| UnpicklingError (path : string).

Inductive Result (A : Type) : Type :=
| Ok (a : A)
| Raise (e : exn).
Arguments Ok {A} a.
Arguments Raise {A} e.

#[global] Instance Result_ret : MRet Result := fun A a => Ok a.
#[global] Instance Result_bind : MBind Result := fun A B f m =>
  match m with
  | Ok a => f a
  | Raise e => Raise e
  end.

(** [try: body except <handler>]: the handler sees the exception and either
    handles it or raises again. *)
Definition try_except {A} (body : Result A) (handler : exn -> Result A) : Result A :=
  match body with
  | Ok a => Ok a
  | Raise e => handler e
  end.

(** [str(i)] of an integer. *)
Definition str (i : Z) : string := pretty i.

(** [max(iterable)] and [min(iterable)]: the first item is the candidate and
    a later item replaces it when it compares greater (smaller); an empty
    iterable raises [ValueError]. *)
Definition py_max (l : list float) : Result float :=
  match l with
  | [] => Raise (ValueError "max() arg is an empty sequence")
  | x :: l' => Ok (foldl (fun m item => if Float.gtb item m then item else m) x l')
  end.

Definition py_min (l : list float) : Result float :=
  match l with
  | [] => Raise (ValueError "min() arg is an empty sequence")
  | x :: l' => Ok (foldl (fun m item => if Float.ltb item m then item else m) x l')
  end.

(** [max(a, b)] on two integers: [b] only when it is greater. *)
Definition py_max2 (a b : Z) : Z := if (a <? b)%Z then b else a.

(** [for x in l: body] where the body can raise. *)
Fixpoint for_each {A B} (f : A -> Result B) (l : list A) : Result (list B) :=
  match l with
  | [] => Ok []
  | x :: l' => y ← f x; ys ← for_each f l'; Ok (y :: ys)
  end.

(** [l[i]] on a list. *)
Definition getitem {A} (l : list A) (i : nat) : Result A :=
  match l !! i with
  | Some x => Ok x
  | None => Raise (IndexError "list index out of range")
  end.

(** [[x for x in l if p(x)]] where [p] can raise. *)
Fixpoint filter_result {A} (p : A -> Result bool) (l : list A) : Result (list A) :=
  match l with
  | [] => Ok []
  | x :: l' =>
      b ← p x;
      ys ← filter_result p l';
      Ok (if (b : bool) then x :: ys else ys)
  end.

(** A loop whose body returns [False] from the function when a check fails:
    [true] when every item passes, [false] at the first that does not. *)
Fixpoint all_result {A} (f : A -> Result bool) (l : list A) : Result bool :=
  match l with
  | [] => Ok true
  | x :: l' => b ← f x; if (b : bool) then all_result f l' else Ok false
  end.

(** [enumerate(l)]. *)
Definition enumerate {A} (l : list A) : list (nat * A) := zip (seq 0 (length l)) l.

(** [sum(l)] of floats, starting from [0] and adding from the left. *)
Definition py_sum (l : list float) : float := foldl Float.add Float.zero l.

(** [math.isclose(a, b)] with the default [rel_tol=1e-09] and [abs_tol=0.0]. *)
Definition rel_tol : float := Float.div Float.one (Float.of_Z 1000000000).

Definition is_inf (x : float) : bool :=
  match x with S754_infinity _ => true | _ => false end.

Definition math_isclose (a b : float) : bool :=
  if Float.eqb a b then true
  else if is_inf a || is_inf b then false
  else
    let diff := SFabs (Float.sub b a) in
    Float.leb diff (SFabs (Float.mul rel_tol b))
    || Float.leb diff (SFabs (Float.mul rel_tol a))
    || Float.leb diff Float.zero.

(** A [set] of floats: members are compared with [==]. *)
Definition set_add (x : float) (s : list float) : list float :=
  if existsb (Float.eqb x) s then s else s ++ [x].

(** ** ASE, catkit and pymatgen objects *)

Definition cell3 : Type := vec3 * vec3 * vec3.

Record Atom : Type := mkAtom {
  symbol : string;
  position : vec3;
  tag : Z }.

(** [ase.Atoms], and [catkit.Gratoms], its subclass with a graph. *)
Record Atoms : Type := mkAtoms {
  atoms : list Atom;
  cell : cell3;
  pbc : bool * bool * bool;
  constraints : list (list bool);
  edges : list (list Z);
  surface_atoms : list nat }.

Definition len (a : Atoms) : nat := length (atoms a).

Definition get_tags (a : Atoms) : list Z := tag <$> atoms a.

Definition with_atoms (a : Atoms) (l : list Atom) : Atoms :=
  mkAtoms l (cell a) (pbc a) (constraints a) (edges a) (surface_atoms a).

Definition with_cell (a : Atoms) (c : cell3) : Atoms :=
  mkAtoms (atoms a) c (pbc a) (constraints a) (edges a) (surface_atoms a).

(** [atoms.set_tags(tags)]: a list of another length is refused. *)
Definition set_tags (a : Atoms) (tags : list Z) : Result Atoms :=
  if decide (length tags = len a)
  then Ok (with_atoms a (zip_with (fun at_ t => mkAtom (symbol at_) (position at_) t) (atoms a) tags))
  else Raise (ValueError "Array has wrong length").

(** [catkit.Gratoms(atoms, edges=...)]. *)
Definition Gratoms (a : Atoms) (e : list (list Z)) : Atoms :=
  mkAtoms (atoms a) (cell a) (pbc a) (constraints a) e (surface_atoms a).

Definition set_surface_atoms (a : Atoms) (l : list nat) : Atoms :=
  mkAtoms (atoms a) (cell a) (pbc a) (constraints a) (edges a) l.

Definition set_pbc (a : Atoms) (p : bool * bool * bool) : Atoms :=
  mkAtoms (atoms a) (cell a) p (constraints a) (edges a) (surface_atoms a).

(** [atoms.constraints += [FixAtoms(mask=mask)]]. *)
Definition add_constraint (a : Atoms) (mask : list bool) : Atoms :=
  mkAtoms (atoms a) (cell a) (pbc a) (constraints a ++ [mask]) (edges a) (surface_atoms a).

(** [pymatgen] sites and structures; a [Slab] is a structure with a shift. *)
Record Site : Type := mkSite {
  species_string : string;
  species_weight : float;
  coords : vec3;
  frac_coords : vec3 }.

Record Structure : Type := mkStructure {
  lattice : cell3;
  structure_sites : list Site }.

Record Slab : Type := mkSlab {
  slab_structure : Structure;
  slab_shift : float }.

Definition millers_t : Type := Z * Z * Z.

(** One entry of an enumeration of surfaces: structure, Miller indices,
    shift and the "top" flag. *)
Definition SurfaceInfo : Type := Structure * millers_t * float * bool.

(** One entry of the bulk inverted index: bulk, MPID, sampling string and
    the index of the bulk in the flattened array. *)
Definition BulkEntry : Type := Atoms * string * string * Z.

(** One entry of the adsorbate inverted index: atoms, SMILES, bond indices. *)
Definition AdsorbateEntry : Type := Atoms * string * list nat.

(** ** The world: pickle files, the random generator, the log *)

Inductive Pickle : Type :=
| PklBulks (inv_index : gmap Z (list BulkEntry))
| PklAdsorbates (inv_index : gmap nat AdsorbateEntry)
| PklSurfaces (surfaces_info : list SurfaceInfo).

Inductive Event : Type :=
| EvCall (name : string)
| EvOpen (path : string)
| EvRandom (n : nat).

Record World : Type := mkWorld {
  files : gmap string Pickle;
  rng : nat -> nat;
  draws : nat;
  log : list Event }.

(** An exception keeps the effects that came before it: a computation
    returns its result, or the exception, and the world it leaves. *)
Definition IO (A : Type) : Type := World -> Result A * World.

#[global] Instance IO_ret : MRet IO := fun A a w => (Ok a, w).
#[global] Instance IO_bind : MBind IO := fun A B f m w =>
  match m w with
  | (Ok a, w') => f a w'
  | (Raise e, w') => (Raise e, w')
  end.

Definition liftR {A} (r : Result A) : IO A := fun w => (r, w).

Definition raise {A} (e : exn) : IO A := fun w => (Raise e, w).

Definition emit (ev : Event) : IO unit := fun w =>
  (Ok tt, mkWorld (files w) (rng w) (draws w) (log w ++ [ev])).

(** A call of a function of the module, recorded in the log. *)
Definition call {A} (name : string) (body : IO A) : IO A :=
  _ ← emit (EvCall name); body.

(** [with open(path, 'rb') as f: pickle.load(f)]. *)
Definition read_file (path : string) : IO Pickle := fun w =>
  match files w !! path with
  | Some p => (Ok p, w)
  | None => (Raise (FileNotFoundError path), w)
  end.

Definition pickle_load (path : string) : IO Pickle :=
  _ ← emit (EvOpen path); read_file path.

(** [np.random.choice(n)] for an integer [n]: one of [0 .. n-1], taken from
    the next draw of the generator; [n = 0] is refused before any draw.  The
    draws are the values of numpy's generator, each as likely as each other;
    taken modulo [n], they give each of [0 .. n-1] as often as each other,
    which is how the choice is uniform. *)
Definition np_random_choice (n : nat) : IO nat := fun w =>
  if decide (n = 0)
  then (Raise (ValueError "a must be greater than 0 unless no samples are taken"), w)
  else (Ok (rng w (draws w) `mod` n),
        mkWorld (files w) (rng w) (S (draws w)) (log w ++ [EvRandom n])).

(** [try: ... except ...] around a block that runs in [IO]. *)
Definition try_except_io {A} (body : IO A) (handler : exn -> IO A) : IO A := fun w =>
  match body w with
  | (Ok a, w') => (Ok a, w')
  | (Raise e, w') => handler e w'
  end.

(** [assert cond]. *)
Definition assert (cond : bool) : IO unit :=
  if cond then mret tt else raise AssertionError.

(** ** The libraries and the constants *)

(** [ocdata.constants]. *)
Class Constants : Type := {
  COVALENT_RADIUS : gmap string float;
  MAX_MILLER : Z;
  MIN_XY : float }.

(** What the program calls from pymatgen, ASE, catkit, numpy and [math].

    [AseAtomsAdaptor.get_structure] and [Atoms.get_scaled_positions] invert
    the cell, and raise [LinAlgError] when it is singular.  They are taken
    here on cells that can be inverted, as the cells of the slabs that
    pymatgen generates are: the properties below that go through them are
    stated of the calls that return. *)
Class Libs : Type := {
  (* pymatgen.io.ase.AseAtomsAdaptor *)
  AseAtomsAdaptor_get_structure : Atoms -> Structure;
  AseAtomsAdaptor_get_atoms : Structure -> Atoms;
  (* pymatgen.analysis.local_env.VoronoiNN: [get_cn(struct, n, use_weights=True)]
     for a tolerance, and the site indices of [get_nn_info(struct, n)] with
     [allow_pathological=True, tol=0.2, cutoff=10] *)
  VoronoiNN_get_cn : float -> Structure -> nat -> Result float;
  VoronoiNN_get_nn_info : Structure -> nat -> Result (list nat);
  (* pymatgen.core.lattice.Lattice *)
  Lattice_get_fractional_coords : cell3 -> vec3 -> vec3;
  (* pymatgen.symmetry.analyzer.SpacegroupAnalyzer *)
  get_symmetrized_structure : Structure -> Structure * list (list nat);
  get_conventional_standard_structure : Structure -> Structure;
  get_symmetry_operations : Structure -> list (list (list float));
  (* pymatgen.core.surface *)
  get_symmetrically_distinct_miller_indices : Structure -> Z -> list millers_t;
  SlabGenerator_get_slabs : Structure -> millers_t -> list Slab;
  (* ase.Atoms *)
  Atoms_wrap : Atoms -> Atoms;
  Atoms_rotate_180_x : Atoms -> Atoms;
  Atoms_repeat : Atoms -> Z * Z * Z -> Atoms;
  Atoms_get_scaled_positions : Atoms -> list vec3;
  Atoms_get_distance_mic : Atoms -> nat -> nat -> Result float;
  (* ase.neighborlist *)
  natural_cutoffs : Atoms -> list float;
  NeighborList_update : list float -> Atoms -> list (list nat);
  get_connectivity_matrix : list (list nat) -> list (list Z);
  (* catkit.gen.adsorption.Builder(slab).add_adsorbate(ads, bonds, index=-1) *)
  Builder_add_adsorbate : Atoms -> Atoms -> list nat -> Result (list Atoms);
  (* numpy *)
  np_linalg_norm : vec3 -> float;
  np_cross : vec3 -> vec3 -> vec3;
  np_average : list vec3 -> list float -> Result vec3;
  (* the index [np.random.choice(a, p=p)] picks for a draw of the generator *)
  np_choice_index : list float -> nat -> Result nat;
  np_choice_index_bound : forall p r i, np_choice_index p r = Ok i -> i < length p;
  (* one scaled position for each atom *)
  Atoms_get_scaled_positions_length :
    forall a, length (Atoms_get_scaled_positions a) = len a;
  (* builtins and math *)
  math_ceil : float -> Result Z;
  py_round : float -> Z -> float }.

(** [np.random.choice(a, p=p)]: [a] and [p] of one size, [a] not empty, and
    the element at the index numpy picks for the draw. *)
Definition np_random_choice_p `{libs : !Libs} {A} (a : list A) (p : list float) : IO A := fun w =>
  if decide (length a = 0)
  then (Raise (ValueError "'a' cannot be empty unless no samples are taken"), w)
  else if decide (length a = length p) then
    match np_choice_index p (rng w (draws w)) with
    | Ok i =>
        match a !! i with
        | Some x => (Ok x, mkWorld (files w) (rng w) (S (draws w)) (log w ++ [EvRandom (length a)]))
        | None => (Raise (IndexError "index out of bounds"), w)
        end
    | Raise e => (Raise e, w)
    end
  else (Raise (ValueError "'a' and 'p' must have same size"), w).

(** ** adsorptions.py *)

Module adsorptions.
Section adsorptions.

Context `{constants : !Constants, libs : !Libs}.

(** The default of [n_cat_elems_weights]: [{1: 0.05, 2: 0.65, 3: 0.3}]. *)
Definition default_weights : list (Z * float) :=
  [(1%Z, Float.div (Float.of_Z 5) (Float.of_Z 100));
   (2%Z, Float.div (Float.of_Z 65) (Float.of_Z 100));
   (3%Z, Float.div (Float.of_Z 3) (Float.of_Z 10))].

(** A dictionary is given as the list of its items, in insertion order. *)
Definition choose_n_elems (n_cat_elems_weights : option (list (Z * float))) : IO (Z * string) :=
  let n_cat_elems_weights := default default_weights n_cat_elems_weights in
  let n_elems := n_cat_elems_weights.*1 in
  let weights := n_cat_elems_weights.*2 in
  _ ← assert (math_isclose (py_sum weights) Float.one);
  n_elem ← np_random_choice_p n_elems weights;
  let sampling_string := str n_elem +:+ "/" +:+ str (Z.of_nat (length n_elems)) in
  mret (n_elem, sampling_string).

(** What [choose_bulk_pkl] does with the object it unpickled: it asks for
    its keys.  A list has none.  A dictionary of adsorbates has keys, and the
    function fails further on, when it unpacks the entry, in a way that
    depends on the sizes of what the entry holds; the model stops it here. *)
Definition as_bulks (p : Pickle) : IO (gmap Z (list BulkEntry)) :=
  match p with
  | PklBulks inv_index => mret inv_index
  | PklSurfaces _ => raise (AttributeError "'list' object has no attribute 'keys'")
  | PklAdsorbates _ => raise (ValueError "not enough values to unpack")
  end.

(** The two other readers take the length of the object and index it with
    the draw.  On a file of another kind the code fails after the draw, at a
    point that depends on the content of the file; the model raises at once,
    and no property below is about such a file. *)
Definition as_adsorbates (p : Pickle) : IO (gmap nat AdsorbateEntry) :=
  match p with
  | PklAdsorbates inv_index => mret inv_index
  | _ => raise (TypeError "not an inverted index of adsorbates")
  end.

Definition as_surfaces (p : Pickle) : IO (list SurfaceInfo) :=
  match p with
  | PklSurfaces surfaces_info => mret surfaces_info
  | _ => raise (TypeError "not a list of surfaces")
  end.

(** [d[k]] on a dictionary. *)
Definition dict_getitem {K} `{Countable K} {V} (d : gmap K V) (k : K) (shown : string) : Result V :=
  match d !! k with
  | Some v => Ok v
  | None => Raise (KeyError shown)
  end.

(** The message of the handler of [choose_bulk_pkl] has two conversion
    specifiers and is given three values, so formatting it raises. *)
Definition format_no_such_material (n_elems : Z) (bulk_database : string) : Result string :=
  Raise (TypeError "not all arguments converted during string formatting").

(** The [try] block of [choose_bulk_pkl] and its [except IndexError]. *)
Definition choose_bulk_pkl_try (inv_index : gmap Z (list BulkEntry)) (n_elems : Z)
  : IO (Atoms * string * Z * string) :=
  entries ← liftR (dict_getitem inv_index n_elems (str n_elems));
  let total_elements_for_key := length entries in
  row_bulk_index ← np_random_choice total_elements_for_key;
  '(bulk, mpid, sampling_string, index_in_flattened_array) ←
     liftR (getitem entries row_bulk_index);
  mret (bulk, mpid, index_in_flattened_array, sampling_string).

Definition choose_bulk_pkl_except (bulk_database : string) (n_elems : Z) (e : exn)
  : IO (Atoms * string * Z * string) :=
  match e with
  | IndexError _ =>
      msg ← liftR (format_no_such_material n_elems bulk_database);
      raise (ValueError msg)
  | _ => raise e
  end.

Definition choose_bulk_pkl (bulk_database : string) (n_elems : Z)
  : IO (Atoms * string * Z * string) :=
  p ← pickle_load bulk_database;
  inv_index ← as_bulks p;
  _ ← assert (bool_decide (is_Some (inv_index !! n_elems)));
  try_except_io (choose_bulk_pkl_try inv_index n_elems)
    (choose_bulk_pkl_except bulk_database n_elems).

Definition precomputed_path : string :=
  "/private/home/sidgoyal/Open-Catalyst-Dataset/ocdata/precomputed_structure_info/".

Definition read_from_precomputed_enumerations (index : Z) : IO (list SurfaceInfo) :=
  p ← pickle_load (precomputed_path +:+ str index +:+ ".pkl");
  as_surfaces p.

Definition standardize_bulk (atoms : Atoms) : Structure :=
  let struct := AseAtomsAdaptor_get_structure atoms in
  get_conventional_standard_structure struct.

Fixpoint any_z_xform_is_minus_one (operations : list (list (list float))) : Result bool :=
  match operations with
  | [] => Ok false
  | xform_matrix :: rest =>
      row ← getitem xform_matrix 2;
      z_xform ← getitem row 2;
      if Float.eqb z_xform Float.minus_one then Ok true
      else any_z_xform_is_minus_one rest
  end.

Definition is_structure_invertible (structure : Structure) : Result bool :=
  any_z_xform_is_minus_one (get_symmetry_operations structure).

Definition flip_struct (struct : Structure) : Structure :=
  let atoms := AseAtomsAdaptor_get_atoms struct in
  let atoms := Atoms_wrap atoms in
  let atoms := Atoms_rotate_180_x atoms in
  let atoms :=
    let '(c0, c1, c2) := cell atoms in
    if Float.ltb (vz c2) Float.zero then with_cell atoms (c0, c1, vneg c2) else atoms in
  let atoms :=
    let '(c0, c1, c2) := cell atoms in
    if Float.ltb (vz (np_cross c0 c1)) Float.zero then with_cell atoms (c0, vneg c1, c2) else atoms in
  let atoms := Atoms_wrap atoms in
  AseAtomsAdaptor_get_structure atoms.

(** The slabs of one Miller index, tops first, then the flipped ones. *)
Definition slabs_info_of (bulk_struct : Structure) (millers : millers_t)
  : Result (list SurfaceInfo) :=
  let slabs := SlabGenerator_get_slabs bulk_struct millers in
  not_invertible ← filter_result
      (fun slab => b ← is_structure_invertible (slab_structure slab); Ok (negb b)) slabs;
  let flipped_slabs_info :=
    (fun slab => (flip_struct (slab_structure slab), millers, slab_shift slab, false)) <$> not_invertible in
  let slabs_info :=
    (fun slab => (slab_structure slab, millers, slab_shift slab, true)) <$> slabs in
  Ok (slabs_info ++ flipped_slabs_info).

Definition enumerate_surfaces (bulk_atoms : Atoms) (max_miller : Z) : Result (list SurfaceInfo) :=
  let bulk_struct := standardize_bulk bulk_atoms in
  all ← for_each (slabs_info_of bulk_struct)
           (get_symmetrically_distinct_miller_indices bulk_struct MAX_MILLER);
  Ok (mjoin (all : list (list SurfaceInfo))).

Definition tile_atoms (atoms : Atoms) : Result Atoms :=
  let '(c0, c1, _) := cell atoms in
  let x_length := np_linalg_norm c0 in
  let y_length := np_linalg_norm c1 in
  nx ← math_ceil (Float.div MIN_XY x_length);
  ny ← math_ceil (Float.div MIN_XY y_length);
  let n_xyz := (nx, ny, 1%Z) in
  Ok (Atoms_repeat atoms n_xyz).

Definition calculate_center_of_mass (struct : Structure) : Result vec3 :=
  let weights := species_weight <$> structure_sites struct in
  np_average (frac_coords <$> structure_sites struct) weights.

(** [VoronoiNN(tol=0.1)]. *)
Definition tol_0_1 : float := Float.div Float.one (Float.of_Z 10).

(** [bulk_cn_dict[key].add(cn)] on a [defaultdict(set)]. *)
Definition cn_dict_add (d : gmap string (list float)) (key : string) (cn : float)
  : gmap string (list float) :=
  <[key := set_add cn (default [] (d !! key))]> d.

Fixpoint bulk_cn_loop (sym_struct : Structure) (equivalent_indices : list (list nat))
    (bulk_cn_dict : gmap string (list float)) : Result (gmap string (list float)) :=
  match equivalent_indices with
  | [] => Ok bulk_cn_dict
  | idx :: rest =>
      idx0 ← getitem idx 0;
      site ← getitem (structure_sites sym_struct) idx0;
      cn ← VoronoiNN_get_cn tol_0_1 sym_struct idx0;
      let cn := py_round cn 5 in
      bulk_cn_loop sym_struct rest (cn_dict_add bulk_cn_dict (species_string site) cn)
  end.

Definition calculate_coordination_of_bulk_atoms (bulk_atoms : Atoms)
  : Result (gmap string (list float)) :=
  let bulk_struct := AseAtomsAdaptor_get_structure bulk_atoms in
  let '(sym_struct, equivalent_indices) := get_symmetrized_structure bulk_struct in
  bulk_cn_loop sym_struct equivalent_indices ∅.

(** The body of the loop of [_find_surface_atoms_with_voronoi]. *)
Definition voronoi_tag (surface_struct : Structure) (center_of_mass : vec3)
    (bulk_cn_dict : gmap string (list float)) (idx : nat) (site : Site) : Result Z :=
  if Float.gtb (vz (frac_coords site)) (vz center_of_mass) then
    try_except
      (cn ← VoronoiNN_get_cn tol_0_1 surface_struct idx;
       let cn := py_round cn 5 in
       min_cn ← py_min (default [] (bulk_cn_dict !! species_string site));
       Ok (if Float.ltb cn min_cn then 1 else 0)%Z)
      (fun e =>
         match e with
         | RuntimeError _ => Ok 1%Z
         | _ => Raise e
         end)
  else Ok 0%Z.

Definition _find_surface_atoms_with_voronoi (bulk_atoms surface_atoms : Atoms)
  : Result (list Z) :=
  let surface_struct := AseAtomsAdaptor_get_structure surface_atoms in
  center_of_mass ← calculate_center_of_mass surface_struct;
  bulk_cn_dict ← calculate_coordination_of_bulk_atoms bulk_atoms;
  for_each (fun '(idx, site) => voronoi_tag surface_struct center_of_mass bulk_cn_dict idx site)
    (enumerate (structure_sites surface_struct)).

Definition _find_surface_atoms_by_height (surface_atoms : Atoms) : Result (list Z) :=
  let '(_, _, c2) := cell surface_atoms in
  let unit_cell_height := np_linalg_norm c2 in
  let scaled_positions := Atoms_get_scaled_positions surface_atoms in
  scaled_max_height ← py_max (vz <$> scaled_positions);
  let scaled_threshold :=
    Float.sub scaled_max_height (Float.div Float.two unit_cell_height) in
  Ok ((fun scaled_position =>
         if Float.ltb (vz scaled_position) scaled_threshold then 0 else 1)%Z
        <$> scaled_positions).

Definition tag_surface_atoms (bulk_atoms surface_atoms : Atoms) : Result Atoms :=
  voronoi_tags ← _find_surface_atoms_with_voronoi bulk_atoms surface_atoms;
  height_tags ← _find_surface_atoms_by_height surface_atoms;
  let tags := zip_with py_max2 voronoi_tags height_tags in
  set_tags surface_atoms tags.

Definition choose_surface_pkl (bulk_atoms : Atoms) (index_in_bulk_atoms : Z)
  : IO (Atoms * millers_t * float * bool * string) :=
  surfaces_info ← call "read_from_precomputed_enumerations"
                    (read_from_precomputed_enumerations index_in_bulk_atoms);
  let total_surfaces_possible := length surfaces_info in
  index_surfaces_info ← np_random_choice total_surfaces_possible;
  '(surface_struct, millers, shift, top) ← liftR (getitem surfaces_info index_surfaces_info);
  let unit_surface_atoms := AseAtomsAdaptor_get_atoms surface_struct in
  surface_atoms ← call "tile_atoms" (liftR (tile_atoms unit_surface_atoms));
  surface_atoms ← call "tag_surface_atoms" (liftR (tag_surface_atoms bulk_atoms surface_atoms));
  let surface_sampling_string :=
    str (Z.of_nat index_surfaces_info) +:+ "/" +:+ str (Z.of_nat total_surfaces_possible) in
  mret (surface_atoms, millers, shift, top, surface_sampling_string).

(** [choose_surface] enumerates the surfaces itself, and then stops at
    [random.choice]: the module does not import [random]. *)
Definition choose_surface (bulk_atoms : Atoms) : IO (Atoms * millers_t * float * bool) :=
  surfaces_info ← call "enumerate_surfaces" (liftR (enumerate_surfaces bulk_atoms MAX_MILLER));
  raise (NameError "random").

Definition choose_adsorbate_pkl (adsorbate_database : string)
  : IO (Atoms * string * list nat * string) :=
  p ← pickle_load adsorbate_database;
  inv_index ← as_adsorbates p;
  element ← np_random_choice (size inv_index);
  let adsorbate_sampling_string :=
    str (Z.of_nat element) +:+ "/" +:+ str (Z.of_nat (size inv_index)) in
  '(atoms, smiles, bond_indices) ← liftR (dict_getitem inv_index element (str (Z.of_nat element)));
  mret (atoms, smiles, bond_indices, adsorbate_sampling_string).

Definition get_connectivity (adsorbate : Atoms) : list (list Z) :=
  let cutoff := natural_cutoffs adsorbate in
  let neighborList := NeighborList_update cutoff adsorbate in
  get_connectivity_matrix neighborList.

Definition convert_adsorbate_atoms_to_gratoms (adsorbate : Atoms) : Result Atoms :=
  let connectivity := get_connectivity adsorbate in
  let adsorbate_gratoms := Gratoms adsorbate connectivity in
  set_tags adsorbate_gratoms (replicate (len adsorbate_gratoms) 2%Z).

(** [[atom.index for atom in adslab if atom.tag == 2]]. *)
Definition adsorbate_indices_of (adslab : Atoms) : list nat :=
  (filter (fun '(_, atom) => tag atom = 2%Z) (enumerate (atoms adslab))).*1.

(** [np.any((coord < 0) | (coord > 1))]. *)
Definition outside_unit_cell (coord : vec3) : bool :=
  (Float.ltb (vx coord) Float.zero || Float.gtb (vx coord) Float.one)
  || (Float.ltb (vy coord) Float.zero || Float.gtb (vy coord) Float.one)
  || (Float.ltb (vz coord) Float.zero || Float.gtb (vz coord) Float.one).

Definition cov_bond_thres_of (ads_elem nn_elem : string) : Result float :=
  r_ads ← dict_getitem COVALENT_RADIUS ads_elem ads_elem;
  r_nn ← dict_getitem COVALENT_RADIUS nn_elem nn_elem;
  Ok (Float.div (Float.mul Float.zero_point_eight (Float.add r_ads r_nn)) Float.hundred).

(** The body of the inner loop of [is_config_reasonable]: [false] stands
    for [return False]. *)
Definition neighbor_far_enough (adslab : Atoms) (structure : Structure) (idx nn : nat)
  : Result bool :=
  site ← getitem (structure_sites structure) idx;
  let ads_elem := species_string site in
  nn_site ← getitem (structure_sites structure) nn;
  let nn_elem := species_string nn_site in
  cov_bond_thres ← cov_bond_thres_of ads_elem nn_elem;
  actual_dist ← Atoms_get_distance_mic adslab idx nn;
  Ok (negb (Float.ltb actual_dist cov_bond_thres)).

(** The body of the outer loop. *)
Definition adsorbate_atom_reasonable (adslab : Atoms) (structure : Structure)
    (adsorbate_indices : list nat) (idx : nat) : Result bool :=
  let slab_lattice := lattice structure in
  site ← getitem (structure_sites structure) idx;
  let coord := Lattice_get_fractional_coords slab_lattice (coords site) in
  if outside_unit_cell coord then Ok false
  else
    nearneighbors ← VoronoiNN_get_nn_info structure idx;
    let slab_nn := filter (fun nn => nn ∉ adsorbate_indices) nearneighbors in
    all_result (neighbor_far_enough adslab structure idx) slab_nn.

Definition is_config_reasonable (adslab : Atoms) : Result bool :=
  let adsorbate_indices := adsorbate_indices_of adslab in
  let structure := AseAtomsAdaptor_get_structure adslab in
  all_result (adsorbate_atom_reasonable adslab structure adsorbate_indices) adsorbate_indices.

Definition add_adsorbate_onto_surface (surface adsorbate : Atoms) (bond_indices : list nat)
  : IO (Atoms * string) :=
  let surface_gratoms := Gratoms surface [] in
  let surface_atom_indices :=
    (filter (fun '(_, atom) => tag atom = 1%Z) (enumerate (atoms surface))).*1 in
  let surface_gratoms := set_surface_atoms surface_gratoms surface_atom_indices in
  let surface_gratoms := set_pbc surface_gratoms (true, true, false) in
  adsorbate_gratoms ← liftR (convert_adsorbate_atoms_to_gratoms adsorbate);
  adsorbed_surfaces ← liftR (Builder_add_adsorbate surface_gratoms adsorbate_gratoms bond_indices);
  reasonable_adsorbed_surfaces ←
    liftR (filter_result
             (fun surface => b ← is_config_reasonable surface; Ok (bool_decide (b = true)))
             adsorbed_surfaces);
  reasonable_adsorbed_surface_index ← np_random_choice (length reasonable_adsorbed_surfaces);
  adsorbed_surface ← liftR (getitem reasonable_adsorbed_surfaces reasonable_adsorbed_surface_index);
  let adsorbed_surface_sampling_string :=
    str (Z.of_nat reasonable_adsorbed_surface_index) +:+ "/"
    +:+ str (Z.of_nat (length reasonable_adsorbed_surfaces)) in
  mret (adsorbed_surface, adsorbed_surface_sampling_string).

Definition constrain_surface (atoms_ : Atoms) : Atoms :=
  let mask := (fun atom => bool_decide (tag atom = 0%Z)) <$> atoms atoms_ in
  add_constraint atoms_ mask.

Definition find_sites (surface adsorbed_surface : Atoms) (bond_indices : list nat)
  : Result (list vec3) :=
  for_each
    (fun idx =>
       let binding_atom_index := len surface + idx in
       atom ← getitem (atoms adsorbed_surface) binding_atom_index;
       let '(x, y, z) := position atom in
       Ok (py_round x 2, py_round y 2, py_round z 2))
    bond_indices.

Record adsorbed_bulk_dict_t : Type := mk_adsorbed_bulk_dict {
  adsorbed_bulk_atomsobject : Atoms;
  adsorbed_bulk_metadata : string * millers_t * float * bool * string * list vec3;
  adsorbed_bulk_samplingstr : string }.

Record bulk_dict_t : Type := mk_bulk_dict {
  bulk_atomsobject : Atoms;
  bulk_metadata : string * millers_t * float * bool;
  bulk_samplingstr : string }.

Definition sample_structures (bulk_database adsorbate_database : string)
    (n_cat_elems_weights : option (list (Z * float)))
  : IO (adsorbed_bulk_dict_t * bulk_dict_t) :=
  '(n_elems, elem_sampling_str) ← call "choose_n_elems" (choose_n_elems n_cat_elems_weights);
  '(bulk, mpid, index_of_bulk_atoms, bulk_sampling_str) ←
     call "choose_bulk_pkl" (choose_bulk_pkl bulk_database n_elems);
  '(surface, millers, shift, top, surface_sampling_str) ←
     call "choose_surface_pkl" (choose_surface_pkl bulk index_of_bulk_atoms);
  '(adsorbate, smiles, bond_indices, adsorbate_sampling_str) ←
     call "choose_adsorbate_pkl" (choose_adsorbate_pkl adsorbate_database);
  '(adsorbed_surface, adsorbed_surface_sampling_str) ←
     call "add_adsorbate_onto_surface" (add_adsorbate_onto_surface surface adsorbate bond_indices);
  adsorbed_surface ← call "constrain_surface" (mret (constrain_surface adsorbed_surface));
  surface ← call "constrain_surface" (mret (constrain_surface surface));
  let shift := py_round shift 3 in
  sites ← call "find_sites" (liftR (find_sites surface adsorbed_surface bond_indices));
  let ads_sampling_str := adsorbate_sampling_str +:+ "_" +:+ adsorbed_surface_sampling_str in
  let bulk_sampling_str :=
    elem_sampling_str +:+ "_" +:+ bulk_sampling_str +:+ "_" +:+ surface_sampling_str in
  let adsorbed_bulk_dict :=
    mk_adsorbed_bulk_dict adsorbed_surface (mpid, millers, shift, top, smiles, sites)
      (bulk_sampling_str +:+ "_" +:+ ads_sampling_str) in
  let bulk_dict := mk_bulk_dict surface (mpid, millers, shift, top) bulk_sampling_str in
  mret (adsorbed_bulk_dict, bulk_dict).

End adsorptions.
End adsorptions.

(** ** combined.py *)

Module combined.
Section combined.

Context `{constants : !Constants, libs : !Libs}.

(** [constrain_surface] of [ocdata.surfaces]. *)
Variable surfaces_constrain_surface : Atoms -> Atoms.

(** The attributes that [Combined] reads of its adsorbate and surface. *)
Record Adsorbate : Type := mkAdsorbate {
  adsorbate_atoms : Atoms;
  adsorbate_bond_indices : list nat }.

Record Surface : Type := mkSurface {
  surface_surface_atoms : Atoms;
  surface_constrained_surface : Atoms }.

(** An attribute is [None] until it is set. *)
Record Combined : Type := mkCombined {
  adsorbate : Adsorbate;
  surface : Surface;
  adsorbed_surface_atoms : option Atoms;
  adsorbed_surface_sampling_str : option string;
  constrained_adsorbed_surface : option Atoms;
  sites : option (list vec3) }.

Definition get_connectivity (self : Combined) (adsorbate : Atoms) : list (list Z) :=
  let cutoff := natural_cutoffs adsorbate in
  let neighborList := NeighborList_update cutoff adsorbate in
  get_connectivity_matrix neighborList.

Definition convert_adsorbate_atoms_to_gratoms (self : Combined) (adsorbate : Atoms)
  : Result Atoms :=
  let connectivity := get_connectivity self adsorbate in
  let adsorbate_gratoms := Gratoms adsorbate connectivity in
  set_tags adsorbate_gratoms (replicate (len adsorbate_gratoms) 2%Z).

Definition neighbor_far_enough (adslab : Atoms) (structure : Structure) (idx nn : nat)
  : Result bool :=
  site ← getitem (structure_sites structure) idx;
  let ads_elem := species_string site in
  nn_site ← getitem (structure_sites structure) nn;
  let nn_elem := species_string nn_site in
  r_ads ← adsorptions.dict_getitem COVALENT_RADIUS ads_elem ads_elem;
  r_nn ← adsorptions.dict_getitem COVALENT_RADIUS nn_elem nn_elem;
  let cov_bond_thres :=
    Float.div (Float.mul Float.zero_point_eight (Float.add r_ads r_nn)) Float.hundred in
  actual_dist ← Atoms_get_distance_mic adslab idx nn;
  Ok (negb (Float.ltb actual_dist cov_bond_thres)).

Definition is_config_reasonable (self : Combined) (adslab : Atoms) : Result bool :=
  let adsorbate_indices :=
    (filter (fun '(_, atom) => tag atom = 2%Z) (enumerate (atoms adslab))).*1 in
  let structure := AseAtomsAdaptor_get_structure adslab in
  let slab_lattice := lattice structure in
  all_result
    (fun idx =>
       site ← getitem (structure_sites structure) idx;
       let coord := Lattice_get_fractional_coords slab_lattice (coords site) in
       if adsorptions.outside_unit_cell coord then Ok false
       else
         nearneighbors ← VoronoiNN_get_nn_info structure idx;
         let slab_nn := filter (fun nn => nn ∉ adsorbate_indices) nearneighbors in
         all_result (neighbor_far_enough adslab structure idx) slab_nn)
    adsorbate_indices.

Definition find_sites (self : Combined) (surface adsorbed_surface : Atoms)
    (bond_indices : list nat) : Result (list vec3) :=
  for_each
    (fun idx =>
       let binding_atom_index := len surface + idx in
       atom ← getitem (atoms adsorbed_surface) binding_atom_index;
       let '(x, y, z) := position atom in
       Ok (py_round x 2, py_round y 2, py_round z 2))
    bond_indices.

(** The method returns nothing: it leaves its results in two attributes. *)
Definition add_adsorbate_onto_surface (self : Combined) (adsorbate surface : Atoms)
    (bond_indices : list nat) : IO Combined :=
  let surface_gratoms := Gratoms surface [] in
  let surface_atom_indices :=
    (filter (fun '(_, atom) => tag atom = 1%Z) (enumerate (atoms surface))).*1 in
  let surface_gratoms := set_surface_atoms surface_gratoms surface_atom_indices in
  let surface_gratoms := set_pbc surface_gratoms (true, true, false) in
  adsorbate_gratoms ← liftR (convert_adsorbate_atoms_to_gratoms self adsorbate);
  adsorbed_surfaces ← liftR (Builder_add_adsorbate surface_gratoms adsorbate_gratoms bond_indices);
  reasonable_adsorbed_surfaces ←
    liftR (filter_result (is_config_reasonable self) adsorbed_surfaces);
  reasonable_adsorbed_surface_index ← np_random_choice (length reasonable_adsorbed_surfaces);
  adsorbed_surface ← liftR (getitem reasonable_adsorbed_surfaces reasonable_adsorbed_surface_index);
  let sampling_str :=
    str (Z.of_nat reasonable_adsorbed_surface_index) +:+ "/"
    +:+ str (Z.of_nat (length reasonable_adsorbed_surfaces)) in
  mret (mkCombined (combined.adsorbate self) (combined.surface self)
          (Some adsorbed_surface) (Some sampling_str)
          (constrained_adsorbed_surface self) (sites self)).

(** Reading an attribute that was never set. *)
Definition getattr {A} (o : option A) (name : string) : Result A :=
  match o with
  | Some a => Ok a
  | None => Raise (AttributeError name)
  end.

(** [Combined(adsorbate, surface)]. *)
Definition __init__ (adsorbate : Adsorbate) (surface : Surface) : IO Combined :=
  let self := mkCombined adsorbate surface None None None None in
  self ← add_adsorbate_onto_surface self (adsorbate_atoms adsorbate)
           (surface_surface_atoms surface) (adsorbate_bond_indices adsorbate);
  adsorbed ← liftR (getattr (adsorbed_surface_atoms self) "adsorbed_surface_atoms");
  let constrained := surfaces_constrain_surface adsorbed in
  the_sites ← liftR (find_sites self (surface_constrained_surface surface) constrained
                       (adsorbate_bond_indices adsorbate));
  mret (mkCombined (combined.adsorbate self) (combined.surface self)
          (adsorbed_surface_atoms self) (adsorbed_surface_sampling_str self)
          (Some constrained) (Some the_sites)).

End combined.
End combined.

(** ** adsorptions.py: the chooser that reads an ASE database

    [choose_bulk] takes its bulks from an ASE database instead of a pickle.
    The rows that [list(db.select(n_elements=n_elems))] gives for a database
    are taken from [select]. *)

(** [np.random.choice(range(n))]: the sequence must not be empty; the
    element at the drawn index of [range(n)] is the index itself. *)
Definition np_random_choice_range (n : nat) : IO nat := fun w =>
  if decide (n = 0)
  then (Raise (ValueError "'a' cannot be empty unless no samples are taken"), w)
  else (Ok (rng w (draws w) `mod` n),
        mkWorld (files w) (rng w) (S (draws w)) (log w ++ [EvRandom n])).

Module ase_db.
Section ase_db.

(** A row of the database: [row.toatoms()] and [row.mpid], an attribute that
    a row need not have. *)
Record Row : Type := mkRow {
  toatoms : Atoms;
  mpid : option string }.

Variable select : string -> Z -> Result (list Row).

Definition row_mpid (row : Row) : Result string :=
  match mpid row with
  | Some m => Ok m
  | None => Raise (AttributeError "mpid")
  end.

(** The [try] block of [choose_bulk] and its [except IndexError]; the
    message is the one of [choose_bulk_pkl], with the same three values for
    two conversion specifiers. *)
Definition choose_bulk_try (rows : list Row) (row_index : nat) : IO (Atoms * string) :=
  row ← liftR (getitem rows row_index);
  let atoms := toatoms row in
  row ← liftR (getitem rows row_index);
  mpid ← liftR (row_mpid row);
  mret (atoms, mpid).

Definition choose_bulk_except (bulk_database : string) (n_elems : Z) (e : exn)
  : IO (Atoms * string) :=
  match e with
  | IndexError _ =>
      msg ← liftR (adsorptions.format_no_such_material n_elems bulk_database);
      raise (ValueError msg)
  | _ => raise e
  end.

Definition choose_bulk (bulk_database : string) (n_elems : Z) : IO (Atoms * string) :=
  _ ← emit (EvOpen bulk_database);
  rows ← liftR (select bulk_database n_elems);
  row_index ← np_random_choice_range (length rows);
  try_except_io (choose_bulk_try rows row_index)
    (choose_bulk_except bulk_database n_elems).

End ase_db.
End ase_db.

(** ** A small world to run the sampler in

    A cubic cell of 10 Angstrom, a column of three copper atoms, and a
    hydrogen atom as the adsorbate.  The libraries are replaced by simple
    functions that compute. *)

Module Example.

Definition fl (num den : Z) : float := Float.div (Float.of_Z num) (Float.of_Z den).

Definition cubic : cell3 :=
  ((Float.of_Z 10, Float.zero, Float.zero),
   (Float.zero, Float.of_Z 10, Float.zero),
   (Float.zero, Float.zero, Float.of_Z 10)).

Definition frac_of (c : cell3) (v : vec3) : vec3 :=
  (Float.div (vx v) (vx c.1.1), Float.div (vy v) (vy c.1.2), Float.div (vz v) (vz c.2)).

Definition sq (x : float) : float := Float.mul x x.

Definition norm (v : vec3) : float :=
  SFsqrt Float.prec Float.emax (Float.add (Float.add (sq (vx v)) (sq (vy v))) (sq (vz v))).

Definition vsub (a b : vec3) : vec3 :=
  (Float.sub (vx a) (vx b), Float.sub (vy a) (vy b), Float.sub (vz a) (vz b)).

Definition to_structure (a : Atoms) : Structure :=
  mkStructure (cell a)
    ((fun at_ => mkSite (symbol at_) Float.one (position at_) (frac_of (cell a) (position at_)))
       <$> atoms a).

Definition to_atoms (s : Structure) : Atoms :=
  mkAtoms ((fun st => mkAtom (species_string st) (coords st) 0) <$> structure_sites s)
    (lattice s) (true, true, true) [] [] [].

(** Six neighbours for every other site at most 2.5 Angstrom away;
    a site of the element [Xx] is pathological. *)
Definition toy_get_cn (tol : float) (s : Structure) (n : nat) : Result float :=
  site ← getitem (structure_sites s) n;
  if bool_decide (species_string site = "Xx") then Raise (RuntimeError "pathological")
  else
    let near := filter
      (fun '(i, other) =>
         i ≠ n ∧ Float.leb (norm (vsub (coords other) (coords site))) (fl 5 2) = true)
      (enumerate (structure_sites s)) in
    Ok (Float.of_Z (6 * Z.of_nat (length near))).

Definition toy_get_nn_info (s : Structure) (n : nat) : Result (list nat) :=
  _ ← getitem (structure_sites s) n;
  Ok (filter (fun i => i ≠ n) (seq 0 (length (structure_sites s)))).

Definition toy_get_distance (a : Atoms) (i j : nat) : Result float :=
  ai ← getitem (atoms a) i;
  aj ← getitem (atoms a) j;
  Ok (norm (vsub (position ai) (position aj))).

Definition toy_average (pts : list vec3) (weights : list float) : Result vec3 :=
  let total := py_sum weights in
  if Float.eqb total Float.zero then Raise (ZeroDivisionError "Weights sum to zero")
  else
    let wsum (proj : vec3 -> float) :=
      py_sum (zip_with (fun p w => Float.mul (proj p) w) pts weights) in
    Ok (Float.div (wsum vx) total, Float.div (wsum vy) total, Float.div (wsum vz) total).

Definition toy_cross (a b : vec3) : vec3 :=
  (Float.sub (Float.mul (vy a) (vz b)) (Float.mul (vz a) (vy b)),
   Float.sub (Float.mul (vz a) (vx b)) (Float.mul (vx a) (vz b)),
   Float.sub (Float.mul (vx a) (vy b)) (Float.mul (vy a) (vx b))).

Definition toy_ceil (x : float) : Result Z :=
  match x with
  | S754_nan => Raise (ValueError "cannot convert float NaN to integer")
  | S754_infinity _ => Raise (OverflowError "cannot convert float infinity to integer")
  | S754_zero _ => Ok 0%Z
  | S754_finite s m e =>
      let z := if s then Z.neg m else Z.pos m in
      Ok (match e with
          | Z.neg k => (- ((- z) / 2 ^ Z.pos k))%Z
          | _ => (z * 2 ^ e)%Z
          end)
  end.

(** [round(x, n)] for a small [x] and [0 <= n]: the nearest multiple of
    [10^-n], ties to even, and the double nearest to it. *)
Definition round_half_even (num den : Z) : Z :=
  let q := (num / den)%Z in
  let r := (num mod den)%Z in
  match (2 * r ?= den)%Z with
  | Lt => q
  | Gt => (q + 1)%Z
  | Eq => if Z.even q then q else (q + 1)%Z
  end.

Definition toy_round (x : float) (n : Z) : float :=
  match x with
  | S754_finite s m e =>
      let z := if s then Z.neg m else Z.pos m in
      let '(num, den) :=
        match e with
        | Z.neg k => ((z * 10 ^ n)%Z, (2 ^ Z.pos k)%Z)
        | _ => ((z * 2 ^ e * 10 ^ n)%Z, 1%Z)
        end in
      Float.div (Float.of_Z (round_half_even num den)) (Float.of_Z (10 ^ n))
  | _ => x
  end.

(** The builder puts the adsorbate above the highest atom of the slab, at
    three heights: 0.5, 1.5 and 6 Angstrom. *)
Definition top_of (slab : Atoms) : vec3 :=
  foldl (fun best at_ => if Float.gtb (vz (position at_)) (vz best) then position at_ else best)
    (Float.zero, Float.zero, Float.zero) (atoms slab).

Definition place (slab ads : Atoms) (height : float) : Atoms :=
  let '(x, y, z) := top_of slab in
  with_atoms slab
    (atoms slab ++
     ((fun at_ => mkAtom (symbol at_) (x, y, Float.add z height) (tag at_)) <$> atoms ads)).

Definition toy_builder (slab ads : Atoms) (bonds : list nat) : Result (list Atoms) :=
  Ok [place slab ads (fl 1 2); place slab ads (fl 3 2); place slab ads (Float.of_Z 6)].

Definition toy_choice_index (p : list float) (r : nat) : Result nat :=
  if decide (length p = 0) then Raise (ValueError "empty") else Ok (r `mod` length p).

Definition toy_scaled_positions (a : Atoms) : list vec3 :=
  (fun at_ => frac_of (cell a) (position at_)) <$> atoms a.

#[export] Instance toy_constants : Constants := {|
  COVALENT_RADIUS := {[ "Cu" := Float.of_Z 132; "H" := Float.of_Z 31 ]};
  MAX_MILLER := 2;
  MIN_XY := Float.of_Z 8 |}.

#[export] Instance toy_libs : Libs := {|
  AseAtomsAdaptor_get_structure := to_structure;
  AseAtomsAdaptor_get_atoms := to_atoms;
  VoronoiNN_get_cn := toy_get_cn;
  VoronoiNN_get_nn_info := toy_get_nn_info;
  Lattice_get_fractional_coords := frac_of;
  get_symmetrized_structure := fun s => (s, [[1; 0; 2]]);
  get_conventional_standard_structure := fun s => s;
  get_symmetry_operations := fun _ => [];
  get_symmetrically_distinct_miller_indices := fun _ m => [(1, 0, 0); (m, m, m)]%Z;
  SlabGenerator_get_slabs := fun s _ => [mkSlab s (fl 1 4)];
  Atoms_wrap := fun a => a;
  Atoms_rotate_180_x := fun a => a;
  Atoms_repeat := fun a _ => a;
  Atoms_get_scaled_positions := toy_scaled_positions;
  Atoms_get_distance_mic := toy_get_distance;
  natural_cutoffs := fun _ => [];
  NeighborList_update := fun _ _ => [];
  get_connectivity_matrix := fun _ => [];
  Builder_add_adsorbate := toy_builder;
  np_linalg_norm := norm;
  np_cross := toy_cross;
  np_average := toy_average;
  np_choice_index := toy_choice_index;
  np_choice_index_bound :=
    ltac:(intros p r i; unfold toy_choice_index; case_decide; [discriminate|];
          intros [= <-]; apply Nat.mod_upper_bound; done);
  Atoms_get_scaled_positions_length :=
    ltac:(intros a; unfold toy_scaled_positions, len; by rewrite length_fmap);
  math_ceil := toy_ceil;
  py_round := toy_round |}.

Definition at_height (el : string) (z : Z) (t : Z) : Atom :=
  mkAtom el (Float.of_Z 5, Float.of_Z 5, Float.of_Z z) t.

Definition plain (l : list Atom) : Atoms := mkAtoms l cubic (true, true, true) [] [] [].

Definition bulk_Cu : Atoms := plain [at_height "Cu" 0 0; at_height "Cu" 2 0; at_height "Cu" 4 0].
Definition slab_Cu : Atoms := plain [at_height "Cu" 1 0; at_height "Cu" 3 0; at_height "Cu" 5 0].
Definition ads_H : Atoms := plain [at_height "H" 0 0].

Definition bulk_db : string := "bulks.pkl".
Definition ads_db : string := "adsorbates.pkl".

Definition toy_files : gmap string Pickle :=
  {[ bulk_db := PklBulks {[ 2%Z := [(bulk_Cu, "mp-30", "0/1", 7%Z)] ]};
     ads_db := PklAdsorbates {[ 0 := (ads_H, "*H", [0]) ]};
     adsorptions.precomputed_path +:+ "7.pkl" :=
       PklSurfaces [(to_structure slab_Cu, (1, 1, 1)%Z, fl 12345 100000, true)] ]}.

Definition world0 : World := mkWorld toy_files (fun _ => 0) 0 [].

Definition weights_2 : option (list (Z * float)) := Some [(2%Z, Float.one)].

Definition ok_value {A} (d : A) (r : Result A) : A :=
  match r with
  | Ok a => a
  | Raise _ => d
  end.

(** The slab with its tags, and the results of the steps of the sampler. *)
Definition tagged_slab : Atoms :=
  Eval vm_compute in ok_value slab_Cu (adsorptions.tag_surface_atoms bulk_Cu slab_Cu).

Definition chosen_surface : Result (Atoms * millers_t * float * bool * string) * World :=
  Eval vm_compute in adsorptions.choose_surface_pkl bulk_Cu 7 world0.

Definition placed : Result (Atoms * string) * World :=
  Eval vm_compute in adsorptions.add_adsorbate_onto_surface tagged_slab ads_H [0] world0.

Definition placed_surface : Atoms :=
  Eval vm_compute in (ok_value (ads_H, EmptyString) placed.1).1.

Definition sampled
  : Result (adsorptions.adsorbed_bulk_dict_t * adsorptions.bulk_dict_t) * World :=
  Eval vm_compute in adsorptions.sample_structures bulk_db ads_db weights_2 world0.

Definition no_dicts : adsorptions.adsorbed_bulk_dict_t * adsorptions.bulk_dict_t :=
  (adsorptions.mk_adsorbed_bulk_dict ads_H
     (EmptyString, (0, 0, 0)%Z, Float.zero, false, EmptyString, []) EmptyString,
   adsorptions.mk_bulk_dict ads_H (EmptyString, (0, 0, 0)%Z, Float.zero, false) EmptyString).

Definition sampled_ad : adsorptions.adsorbed_bulk_dict_t :=
  Eval vm_compute in (ok_value no_dicts sampled.1).1.

Definition sampled_bd : adsorptions.bulk_dict_t :=
  Eval vm_compute in (ok_value no_dicts sampled.1).2.

(** A world whose index of bulks has no material of three elements. *)
Definition empty_db : string := "empty.pkl".

Definition world_empty : World :=
  mkWorld {[ empty_db := PklBulks {[ 3%Z := [] ]} ]} (fun _ => 0) 0 [].

(** More of the small world: a database with one row, a file without
    surfaces, a slab with a hydrogen atom on top, a slab that reaches the top
    of the cell, and libraries that know a mirror plane. *)
Definition toy_select (bulk_database : string) (n_elems : Z) : Result (list ase_db.Row) :=
  if decide (n_elems = 2%Z) then Ok [ase_db.mkRow bulk_Cu (Some "mp-30")] else Ok [].

Definition world_no_surfaces : World :=
  mkWorld {[ adsorptions.precomputed_path +:+ "9.pkl" := PklSurfaces [] ]} (fun _ => 0) 0 [].

Definition enumerated : list SurfaceInfo :=
  Eval vm_compute in ok_value [] (adsorptions.enumerate_surfaces bulk_Cu 5).

Definition identity_matrix : list (list float) :=
  [[Float.one; Float.zero; Float.zero; Float.zero];
   [Float.zero; Float.one; Float.zero; Float.zero];
   [Float.zero; Float.zero; Float.one; Float.zero];
   [Float.zero; Float.zero; Float.zero; Float.one]].

Definition mirror_matrix : list (list float) :=
  [[Float.one; Float.zero; Float.zero; Float.zero];
   [Float.zero; Float.one; Float.zero; Float.zero];
   [Float.zero; Float.zero; Float.minus_one; Float.zero];
   [Float.zero; Float.zero; Float.zero; Float.one]].

Definition mirror_libs : Libs := {|
  AseAtomsAdaptor_get_structure := to_structure;
  AseAtomsAdaptor_get_atoms := to_atoms;
  VoronoiNN_get_cn := toy_get_cn;
  VoronoiNN_get_nn_info := toy_get_nn_info;
  Lattice_get_fractional_coords := frac_of;
  get_symmetrized_structure := fun s => (s, [[1; 0; 2]]);
  get_conventional_standard_structure := fun s => s;
  get_symmetry_operations := fun _ => [identity_matrix; mirror_matrix];
  get_symmetrically_distinct_miller_indices := fun _ m => [(1, 0, 0); (m, m, m)]%Z;
  SlabGenerator_get_slabs := fun s _ => [mkSlab s (fl 1 4)];
  Atoms_wrap := fun a => a;
  Atoms_rotate_180_x := fun a => a;
  Atoms_repeat := fun a _ => a;
  Atoms_get_scaled_positions := toy_scaled_positions;
  Atoms_get_distance_mic := toy_get_distance;
  natural_cutoffs := fun _ => [];
  NeighborList_update := fun _ _ => [];
  get_connectivity_matrix := fun _ => [];
  Builder_add_adsorbate := toy_builder;
  np_linalg_norm := norm;
  np_cross := toy_cross;
  np_average := toy_average;
  np_choice_index := toy_choice_index;
  np_choice_index_bound := @np_choice_index_bound toy_libs;
  Atoms_get_scaled_positions_length := @Atoms_get_scaled_positions_length toy_libs;
  math_ceil := toy_ceil;
  py_round := toy_round |}.

Definition slab_with_H : Atoms :=
  plain [at_height "Cu" 1 0; at_height "Cu" 3 0; at_height "H" 5 0].

Definition com_with_H : vec3 :=
  Eval vm_compute in
    ok_value (Float.zero, Float.zero, Float.zero)
      (adsorptions.calculate_center_of_mass (to_structure slab_with_H)).

Definition ads_H_gratoms : Atoms :=
  Eval vm_compute in ok_value ads_H (adsorptions.convert_adsorbate_atoms_to_gratoms ads_H).

Definition too_close : Atoms := Eval vm_compute in place tagged_slab ads_H_gratoms (fl 1 2).

Definition high_slab : Atoms := plain [at_height "Cu" 9 1].

Definition toy_adsorbate : combined.Adsorbate := combined.mkAdsorbate ads_H [0].

Definition toy_surface : combined.Surface :=
  combined.mkSurface tagged_slab (adsorptions.constrain_surface tagged_slab).

Definition constructed : Result combined.Combined * World :=
  Eval vm_compute in
    combined.__init__ adsorptions.constrain_surface toy_adsorbate toy_surface world0.

Definition constructed_self : combined.Combined :=
  Eval vm_compute in
    ok_value (combined.mkCombined toy_adsorbate toy_surface None None None None) constructed.1.

End Example.

(** ** The vocabulary of the properties *)

(** The key of a float that is not a NaN: floats compare as their keys do
    in the lexicographic order. *)
Definition float_key (x : float) : Z * Z * Z :=
  match x with
  | S754_infinity true => (-2, 0, 0)
  | S754_finite true m e => (-1, - e, Z.neg m)
  | S754_zero _ => (0, 0, 0)
  | S754_nan => (0, 0, 0)
  | S754_finite false m e => (1, e, Z.pos m)
  | S754_infinity false => (2, 0, 0)
  end%Z.

Definition lex_lt (k1 k2 : Z * Z * Z) : Prop :=
  let '(a1, b1, c1) := k1 in
  let '(a2, b2, c2) := k2 in
  (a1 < a2 \/ (a1 = a2 /\ (b1 < b2 \/ (b1 = b2 /\ c1 < c2))))%Z.

Definition lex_le (k1 k2 : Z * Z * Z) : Prop := lex_lt k1 k2 \/ k1 = k2.

Definition no_nan (l : list float) : Prop := forall z, z ∈ l -> Float.is_nan z = false.

(** The world after [k] more draws and the events [evs]. *)
Definition advance (w : World) (k : nat) (evs : list Event) : World :=
mkWorld (files w) (rng w) (k + draws w) (log w ++ evs).

(** No two members of a set are equal for [==]. *)
Definition distinct_members (s : list float) : Prop :=
  forall i j x y, i < j -> s !! i = Some x -> s !! j = Some y -> Float.eqb x y = false.

(** An event is a draw of the random generator. *)
Definition is_draw (ev : Event) : bool :=
  match ev with
  | EvRandom _ => true
  | _ => false
  end.

(** The world in which the next draw of the generator gives [r]. *)
Definition with_draw (w : World) (r : nat) : World :=
mkWorld (files w) (fun d => if decide (d = draws w) then r else rng w d) (draws w) (log w).

(** The number of values [r] below [N] of the next draw for which [picks r]
    holds.  The values of the generator being equally likely, this number
    over [N] is the probability of [picks]. *)
Definition count_draws (picks : nat -> bool) (N : nat) : nat :=
length (List.filter picks (seq 0 N)).

Section Vocabulary.

Context `{constants : !Constants, libs : !Libs}.

(** [c] is the rounded coordination number of the first site of a class
  of symmetrically equivalent sites of the bulk, a site of element [el]. *)
Definition cn_of_distinct_site (bulk_atoms : Atoms) (el : string) (c : float) : Prop :=
let '(sym_struct, equivalent_indices) :=
  get_symmetrized_structure (AseAtomsAdaptor_get_structure bulk_atoms) in
exists idx idx0 site cn,
  idx ∈ equivalent_indices
  /\ idx !! 0 = Some idx0
  /\ structure_sites sym_struct !! idx0 = Some site
  /\ species_string site = el
  /\ VoronoiNN_get_cn adsorptions.tol_0_1 sym_struct idx0 = Ok cn
  /\ c = py_round cn 5.

(** A dictionary records these numbers: its sets hold nothing else, and
  each of the numbers is in the set of its element, itself or as a
  member that [==] finds equal. *)
Definition records (bulk_atoms : Atoms) (bulk_cn_dict : gmap string (list float)) : Prop :=
(forall el c, c ∈ default [] (bulk_cn_dict !! el) -> cn_of_distinct_site bulk_atoms el c)
/\ (forall el c, cn_of_distinct_site bulk_atoms el c ->
      exists c', c' ∈ default [] (bulk_cn_dict !! el) /\ (c' = c \/ Float.eqb c c' = true)).

(** What makes a site above the centre of mass a surface site: computing
  its coordination raises [RuntimeError], or its rounded coordination
  number is below the smallest one in the set of its element. *)
Definition under_coordinated (surface_struct : Structure)
  (bulk_cn_dict : gmap string (list float)) (idx : nat) (site : Site) : Prop :=
(exists msg, VoronoiNN_get_cn adsorptions.tol_0_1 surface_struct idx = Raise (RuntimeError msg))
\/ (exists cn min_cn,
      VoronoiNN_get_cn adsorptions.tol_0_1 surface_struct idx = Ok cn
      /\ py_min (default [] (bulk_cn_dict !! species_string site)) = Ok min_cn
      /\ Float.ltb (py_round cn 5) min_cn = true).

(** A coordinate within [0, 1] the way the program tests it: not below 0
  and not above 1.  For a number this is [0 <= x <= 1]. *)
Definition within_0_1 (x : float) : Prop :=
Float.ltb x Float.zero = false
/\ Float.gtb x Float.one = false
/\ (Float.is_nan x = false -> Float.leb Float.zero x = true /\ Float.leb x Float.one = true).

(** A distance that is at least a threshold: it is not below it, which
  for two numbers is [thres <= dist]. *)
Definition at_least (dist thres : float) : Prop :=
Float.ltb dist thres = false
/\ (Float.is_nan dist = false -> Float.is_nan thres = false -> Float.leb thres dist = true).

(** 0.8 times the sum of the two covalent radii, over 100. *)
Definition bond_threshold (r_ads r_nn : float) : float :=
Float.div (Float.mul Float.zero_point_eight (Float.add r_ads r_nn)) Float.hundred.

Definition is_adsorbate_atom (adslab : Atoms) (idx : nat) : Prop :=
exists atom, atoms adslab !! idx = Some atom /\ tag atom = 2%Z.

(** The geometry that the claim describes. *)
Definition reasonable (adslab : Atoms) : Prop :=
let structure := AseAtomsAdaptor_get_structure adslab in
forall idx, is_adsorbate_atom adslab idx ->
  exists site nearneighbors,
    structure_sites structure !! idx = Some site
    /\ (let coord := Lattice_get_fractional_coords (lattice structure) (coords site) in
        within_0_1 (vx coord) /\ within_0_1 (vy coord) /\ within_0_1 (vz coord))
    /\ VoronoiNN_get_nn_info structure idx = Ok nearneighbors
    /\ forall nn, nn ∈ nearneighbors -> ~ is_adsorbate_atom adslab nn ->
         exists nn_site r_ads r_nn actual_dist,
           structure_sites structure !! nn = Some nn_site
           /\ COVALENT_RADIUS !! species_string site = Some r_ads
           /\ COVALENT_RADIUS !! species_string nn_site = Some r_nn
           /\ Atoms_get_distance_mic adslab idx nn = Ok actual_dist
           /\ at_least actual_dist (bond_threshold r_ads r_nn).

(** The slab that [add_adsorbate_onto_surface] hands to the builder. *)
Definition surface_gratoms_of (surface : Atoms) : Atoms :=
set_pbc
  (set_surface_atoms (Gratoms surface [])
     (filter (fun '(_, atom) => tag atom = 1%Z) (enumerate (atoms surface))).*1)
  (true, true, false).


(** The attributes that [add_adsorbate_onto_surface] sets. *)
Definition with_adsorbed (self : combined.Combined) (adsorbed : Atoms) (s : string)
: combined.Combined :=
combined.mkCombined (combined.adsorbate self) (combined.surface self)
  (Some adsorbed) (Some s)
  (combined.constrained_adsorbed_surface self) (combined.sites self).

(** With [r] as the next draw, [choose_surface_pkl] returns with the
    sampling string [s]. *)
Definition draw_returns_surface (bulk_atoms : Atoms) (index : Z) (w : World) (s : string)
  (r : nat) : bool :=
match (adsorptions.choose_surface_pkl bulk_atoms index (with_draw w r)).1 with
| Ok (_, _, _, _, s') => bool_decide (s' = s)
| Raise _ => false
end.

End Vocabulary.

(** * Properties *)

(** ** Comparisons of floats *)

Module FloatFacts.

Lemma compare_antisym (x y : float) :
  SFcompare y x = CompOpp <$> SFcompare x y.
Proof.
  destruct x as [sx|sx| |sx mx ex], y as [sy|sy| |sy my ey]; simpl;
    try reflexivity; try (destruct sx; reflexivity); try (destruct sy; reflexivity);
    try (destruct sx, sy; reflexivity).
  destruct sx, sy; simpl; try reflexivity.
  - rewrite (Z.compare_antisym ey ex).
    destruct (ey ?= ex)%Z; simpl; try reflexivity.
    rewrite (Pos.compare_cont_antisym mx my Eq). simpl. reflexivity.
  - rewrite (Z.compare_antisym ey ex).
    destruct (ey ?= ex)%Z; simpl; try reflexivity.
    rewrite (Pos.compare_cont_antisym mx my Eq). simpl.
    by destruct (Pos.compare_cont Eq mx my).
Qed.

Lemma compare_nan (x y : float) :
  Float.is_nan x = false -> Float.is_nan y = false -> is_Some (SFcompare x y).
Proof.
  destruct x as [sx|sx| |sx mx ex], y as [sy|sy| |sy my ey]; simpl;
    intros; try discriminate; eauto.
Qed.

(** [y <= x] excludes [x < y], with or without NaN. *)
Lemma leb_not_ltb (x y : float) : Float.leb y x = true -> Float.ltb x y = false.
Proof.
  unfold Float.leb, Float.ltb, SFleb, SFltb. rewrite (compare_antisym y x).
  destruct (SFcompare y x) as [[]|]; simpl; congruence.
Qed.

(** On numbers, "not [x < y]" is [y <= x]. *)
Lemma not_ltb_leb (x y : float) :
  Float.is_nan x = false -> Float.is_nan y = false ->
  Float.ltb x y = false -> Float.leb y x = true.
Proof.
  intros Hx Hy. unfold Float.leb, Float.ltb, SFleb, SFltb.
  rewrite (compare_antisym x y).
  destruct (compare_nan x y Hx Hy) as [c ->]. destruct c; simpl; congruence.
Qed.

Lemma ltb_leb_iff (x y : float) :
  Float.is_nan x = false -> Float.is_nan y = false ->
  Float.ltb x y = false <-> Float.leb y x = true.
Proof. split; [by apply not_ltb_leb | apply leb_not_ltb]. Qed.

Lemma ltb_not_nan (x y : float) :
  Float.ltb x y = true -> Float.is_nan x = false /\ Float.is_nan y = false.
Proof.
  unfold Float.ltb, SFltb.
  destruct x as [sx|sx| |sx mx ex], y as [sy|sy| |sy my ey]; simpl; intros; try discriminate; done.
Qed.

End FloatFacts.

(** ** Results, loops and the world *)

Lemma bind_Ok {A B} (m : Result A) (f : A -> Result B) (b : B) :
  m ≫= f = Ok b <-> exists a, m = Ok a /\ f a = Ok b.
Proof.
  destruct m as [a|e]; simpl; split.
  - intros Hf. by exists a.
  - by intros (a' & [= <-] & Hf).
  - discriminate.
  - by intros (a' & [=] & _).
Qed.

Section Results.

Context {A B : Type}.

Lemma getitem_Ok (l : list A) (i : nat) (x : A) :
  getitem l i = Ok x <-> l !! i = Some x.
Proof. unfold getitem. destruct (l !! i); split; congruence. Qed.

Lemma getitem_not_IndexError_in_range (l : list A) (i : nat) :
  i < length l -> exists x, getitem l i = Ok x.
Proof.
  intros Hi. destruct (lookup_lt_is_Some_2 l i Hi) as [x Hx].
  exists x. by apply getitem_Ok.
Qed.

Lemma for_each_Ok (f : A -> Result B) (l : list A) (ys : list B) :
  for_each f l = Ok ys <-> Forall2 (fun x y => f x = Ok y) l ys.
Proof.
  revert ys. induction l as [|x l IH]; intros ys.
  - simpl. split.
    + intros [= <-]. constructor.
    + intros H. by inversion H.
  - cbn [for_each]. rewrite bind_Ok. split.
    + intros (y & Hy & Hrest). apply bind_Ok in Hrest as (ys' & Hys' & [= <-]).
      constructor; [done | by apply IH].
    + intros H. inversion H as [|? y ? ys' Hy Hys']; subst.
      exists y. split; [done|]. apply bind_Ok. exists ys'. split; [by apply IH | done].
Qed.

Lemma all_result_true (f : A -> Result bool) (l : list A) :
  all_result f l = Ok true <-> Forall (fun x => f x = Ok true) l.
Proof.
  induction l as [|x l IH].
  - simpl. split; [constructor | done].
  - cbn [all_result]. rewrite bind_Ok. split.
    + intros ([] & Hx & Hrest); [|discriminate]. constructor; [done | by apply IH].
    + intros H. inversion H; subst. exists true. split; [done | by apply IH].
Qed.

Lemma filter_result_Ok (p : A -> Result bool) (l l' : list A) :
  filter_result p l = Ok l' ->
  forall x, x ∈ l' -> x ∈ l /\ p x = Ok true.
Proof.
  revert l'. induction l as [|x l IH]; intros l'.
  - simpl. intros [= <-] y Hy. by apply elem_of_nil in Hy.
  - cbn [filter_result]. rewrite bind_Ok. intros (b & Hb & Hrest).
    apply bind_Ok in Hrest as (ys & Hys & [= <-]).
    intros y Hy. destruct b.
    + apply elem_of_cons in Hy as [-> | Hy].
      * split; [left | done].
      * destruct (IH ys Hys y Hy). split; [by right | done].
    + destruct (IH ys Hys y Hy). split; [by right | done].
Qed.

End Results.

Lemma bind_io_Ok {A B} (m : IO A) (f : A -> IO B) w b w' :
  (m ≫= f) w = (Ok b, w') <-> exists a w1, m w = (Ok a, w1) /\ f a w1 = (Ok b, w').
Proof.
  unfold mbind, IO_bind. destruct (m w) as [[a|e] w1]; split.
  - intros Hf. by exists a, w1.
  - by intros (a' & w1' & [= <- <-] & Hf).
  - discriminate.
  - by intros (a' & w1' & [=] & _).
Qed.

Section Worlds.

Context {A : Type}.

Lemma liftR_Ok (r : Result A) w a w' :
  liftR r w = (Ok a, w') <-> r = Ok a /\ w' = w.
Proof. unfold liftR. split; [by intros [= -> ->] | by intros [-> ->]]. Qed.

Lemma mret_io_Ok (x : A) w a w' :
  (mret x : IO A) w = (Ok a, w') <-> a = x /\ w' = w.
Proof. unfold mret, IO_ret. split; [by intros [= -> ->] | by intros [-> ->]]. Qed.

Lemma call_Ok (name : string) (m : IO A) w a w' :
  call name m w = (Ok a, w') <->
  m (mkWorld (files w) (rng w) (draws w) (log w ++ [EvCall name])) = (Ok a, w').
Proof.
  unfold call. rewrite bind_io_Ok. unfold emit. split.
  - intros (u & w1 & Hemit & Hm). by injection Hemit as <- <-.
  - intros Hm. by eexists tt, _.
Qed.

End Worlds.

Lemma np_random_choice_Ok n w i w' :
  np_random_choice n w = (Ok i, w') <->
  n ≠ 0 /\ i = rng w (draws w) `mod` n
  /\ w' = mkWorld (files w) (rng w) (S (draws w)) (log w ++ [EvRandom n]).
Proof.
  unfold np_random_choice. case_decide; split.
  - discriminate.
  - by intros (? & _).
  - by intros [= <- <-].
  - by intros (_ & -> & ->).
Qed.

Lemma np_random_choice_lt n w i w' :
  np_random_choice n w = (Ok i, w') -> i < n.
Proof.
  intros (Hn & -> & _)%np_random_choice_Ok. by apply Nat.mod_upper_bound.
Qed.

(** Each of [0 .. n-1] is the choice for some draw of the generator. *)
Lemma np_random_choice_any n files0 draws0 log0 i :
  i < n ->
  (np_random_choice n (mkWorld files0 (fun _ => i) draws0 log0)).1 = Ok i.
Proof.
  intros Hi. unfold np_random_choice. simpl.
  rewrite decide_False by lia. simpl. by rewrite Nat.mod_small.
Qed.

Lemma assert_Ok cond w u w' :
  assert cond w = (Ok u, w') <-> cond = true /\ w' = w.
Proof.
  unfold assert. destruct cond, u; simpl; split.
  - by intros [= <-].
  - by intros [_ ->].
  - discriminate.
  - by intros [[=] _].
Qed.

Lemma pickle_load_Ok path w p w' :
  pickle_load path w = (Ok p, w') <->
  files w !! path = Some p
  /\ w' = mkWorld (files w) (rng w) (draws w) (log w ++ [EvOpen path]).
Proof.
  unfold pickle_load. rewrite bind_io_Ok. unfold emit, read_file. simpl. split.
  - intros (u & w1 & Hemit & H). injection Hemit as <- <-. simpl in H.
    destruct (files w !! path); [|discriminate]. by injection H as -> <-.
  - intros [H ->]. eexists tt, _. split; [done|]. simpl. by rewrite H.
Qed.

(** The steps of a computation in [IO], taken apart one at a time. *)
Ltac io_step H :=
  first
    [ apply bind_io_Ok in H as (? & ? & ? & H)
    | apply call_Ok in H
    | apply liftR_Ok in H as [H ->]
    | apply mret_io_Ok in H as [-> ->] ].

(** ** The order of floats

    A float that is not a NaN has a key, a triple of integers, and floats
    compare as their keys do in the lexicographic order. *)

Module FloatOrder.

Lemma lex_lt_trans k1 k2 k3 : lex_lt k1 k2 -> lex_lt k2 k3 -> lex_lt k1 k3.
Proof. destruct k1 as [[]], k2 as [[]], k3 as [[]]. unfold lex_lt. lia. Qed.

Lemma lex_le_lt_trans k1 k2 k3 : lex_le k1 k2 -> lex_lt k2 k3 -> lex_lt k1 k3.
Proof. intros [H | ->] H'; [by eapply lex_lt_trans | done]. Qed.

Lemma lex_total k1 k2 : lex_lt k1 k2 \/ lex_le k2 k1.
Proof.
  destruct k1 as [[a1 b1] c1], k2 as [[a2 b2] c2]. unfold lex_le, lex_lt.
  destruct (decide (a1 = a2)) as [->|]; [|lia].
  destruct (decide (b1 = b2)) as [->|]; [|lia].
  destruct (decide (c1 = c2)) as [->|]; [|lia].
  right. by right.
Qed.

Lemma compare_cont_spec (m1 m2 : positive) :
  match Pos.compare_cont Eq m1 m2 with
  | Lt => (Z.pos m1 < Z.pos m2)%Z
  | Eq => m1 = m2
  | Gt => (Z.pos m2 < Z.pos m1)%Z
  end.
Proof.
  change (Pos.compare_cont Eq m1 m2) with (m1 ?= m2)%positive.
  destruct (Pos.compare_spec m1 m2); [done | lia | lia].
Qed.

Lemma ltb_key (x y : float) :
  Float.is_nan x = false -> Float.is_nan y = false ->
  Float.ltb x y = true <-> lex_lt (float_key x) (float_key y).
Proof.
  unfold Float.ltb, SFltb.
  destruct x as [sx|sx| |sx mx ex], y as [sy|sy| |sy my ey]; simpl;
    intros; try discriminate;
    repeat match goal with s : bool |- _ => destruct s end; simpl;
    try (split; [done | lia]); try (split; [lia | done]); try (split; [intros _; lia | done]).
  - pose proof (compare_cont_spec mx my).
    destruct (Z.compare_spec ex ey) as [->| |];
      [destruct (Pos.compare_cont Eq mx my)|..]; simpl;
      split; intros; try done; try lia; subst; lia.
  - pose proof (compare_cont_spec mx my).
    destruct (Z.compare_spec ex ey) as [->| |];
      [destruct (Pos.compare_cont Eq mx my)|..]; simpl;
      split; intros; try done; try lia; subst; lia.
Qed.

Lemma leb_key (x y : float) :
  Float.is_nan x = false -> Float.is_nan y = false ->
  Float.leb x y = true <-> ~ lex_lt (float_key y) (float_key x).
Proof.
  intros Hx Hy. rewrite <- (FloatFacts.ltb_leb_iff y x Hy Hx).
  rewrite <- (ltb_key y x Hy Hx). by destruct (Float.ltb y x).
Qed.

(** On numbers, [<=] is transitive and total. *)
Lemma leb_trans (x y z : float) :
  Float.is_nan x = false -> Float.is_nan y = false -> Float.is_nan z = false ->
  Float.leb x y = true -> Float.leb y z = true -> Float.leb x z = true.
Proof.
  intros Hx Hy Hz. rewrite !leb_key by done. intros Hxy Hyz Hzx.
  destruct (lex_total (float_key y) (float_key x)) as [Hlt|Hle]; [by apply Hxy|].
  apply Hyz. destruct Hle as [Hlt | <-]; [by eapply lex_lt_trans | done].
Qed.

Lemma leb_refl (x : float) : Float.is_nan x = false -> Float.leb x x = true.
Proof.
  intros Hx. apply leb_key; [done..|].
  destruct (float_key x) as [[a b] c]. unfold lex_lt. lia.
Qed.

Lemma ltb_leb (x y : float) : Float.ltb x y = true -> Float.leb x y = true.
Proof.
  unfold Float.ltb, Float.leb, SFltb, SFleb. by destruct (SFcompare x y) as [[]|].
Qed.

End FloatOrder.

(** ** [max] and [min] of a list of floats *)

Section Extremum.

Implicit Types (x m z : float) (l : list float).

Lemma no_nan_cons x l : no_nan (x :: l) <-> Float.is_nan x = false /\ no_nan l.
Proof.
  unfold no_nan. split.
  - intros H. split; [apply H; left | intros z Hz; apply H; by right].
  - intros [Hx Hl] z [-> | Hz]%elem_of_cons; [done | by apply Hl].
Qed.

Lemma foldl_max_elem x l :
  let m := foldl (fun m item => if Float.gtb item m then item else m) x l in
  m ∈ x :: l.
Proof.
  revert x. induction l as [|item l IH]; intros x; simpl; [left|].
  specialize (IH (if Float.gtb item x then item else x)). simpl in IH.
  apply elem_of_cons in IH as [-> | IH]; [|by do 2 right].
  destruct (Float.gtb item x); [right; left | left].
Qed.

Lemma foldl_min_elem x l :
  let m := foldl (fun m item => if Float.ltb item m then item else m) x l in
  m ∈ x :: l.
Proof.
  revert x. induction l as [|item l IH]; intros x; simpl; [left|].
  specialize (IH (if Float.ltb item x then item else x)). simpl in IH.
  apply elem_of_cons in IH as [-> | IH]; [|by do 2 right].
  destruct (Float.ltb item x); [right; left | left].
Qed.

Lemma foldl_max_upper x l :
  no_nan (x :: l) ->
  let m := foldl (fun m item => if Float.gtb item m then item else m) x l in
  forall z, z ∈ x :: l -> Float.leb z m = true.
Proof.
  revert x. induction l as [|item l IH]; intros x Hnan; simpl.
  - intros z ->%list_elem_of_singleton. apply FloatOrder.leb_refl, Hnan. left.
  - apply no_nan_cons in Hnan as [Hx [Hitem Hl]%no_nan_cons].
    set (x' := if Float.gtb item x then item else x).
    assert (Float.is_nan x' = false) as Hx' by (subst x'; by destruct (Float.gtb item x)).
    assert (no_nan (x' :: l)) as Hnan' by by apply no_nan_cons.
    specialize (IH x' Hnan'). simpl in IH.
    pose proof (foldl_max_elem x' l) as Hin. simpl in Hin.
    assert (Float.is_nan (foldl (fun m item => if Float.gtb item m then item else m) x' l) = false)
      as Hm by by apply Hnan'.
    assert (Float.leb x x' = true /\ Float.leb item x' = true) as [Hxx' Hix'].
    { subst x'. unfold Float.gtb. destruct (SFltb x item) eqn:Hlt.
      - split; [by apply FloatOrder.ltb_leb | by apply FloatOrder.leb_refl].
      - split; [by apply FloatOrder.leb_refl | by apply FloatFacts.not_ltb_leb]. }
    intros z [-> | [-> | Hz]%elem_of_cons]%elem_of_cons.
    + eapply FloatOrder.leb_trans; [done | exact Hx' | done | done | apply IH; left].
    + eapply FloatOrder.leb_trans; [done | exact Hx' | done | done | apply IH; left].
    + apply IH. by right.
Qed.

Lemma foldl_min_lower x l :
  no_nan (x :: l) ->
  let m := foldl (fun m item => if Float.ltb item m then item else m) x l in
  forall z, z ∈ x :: l -> Float.leb m z = true.
Proof.
  revert x. induction l as [|item l IH]; intros x Hnan; simpl.
  - intros z ->%list_elem_of_singleton. apply FloatOrder.leb_refl, Hnan. left.
  - apply no_nan_cons in Hnan as [Hx [Hitem Hl]%no_nan_cons].
    set (x' := if Float.ltb item x then item else x).
    assert (Float.is_nan x' = false) as Hx' by (subst x'; by destruct (Float.ltb item x)).
    assert (no_nan (x' :: l)) as Hnan' by by apply no_nan_cons.
    specialize (IH x' Hnan'). simpl in IH.
    pose proof (foldl_min_elem x' l) as Hin. simpl in Hin.
    assert (Float.is_nan (foldl (fun m item => if Float.ltb item m then item else m) x' l) = false)
      as Hm by by apply Hnan'.
    assert (Float.leb x' x = true /\ Float.leb x' item = true) as [Hxx' Hix'].
    { subst x'. destruct (Float.ltb item x) eqn:Hlt.
      - split; [by apply FloatOrder.ltb_leb | by apply FloatOrder.leb_refl].
      - split; [by apply FloatOrder.leb_refl | by apply FloatFacts.not_ltb_leb]. }
    intros z [-> | [-> | Hz]%elem_of_cons]%elem_of_cons.
    + eapply FloatOrder.leb_trans; [done | exact Hx' | done | apply IH; left | done].
    + eapply FloatOrder.leb_trans; [done | exact Hx' | done | apply IH; left | done].
    + apply IH. by right.
Qed.

(** [max(l)] is a member of [l], and an upper bound when no NaN is in it. *)
Lemma py_max_elem l m : py_max l = Ok m -> m ∈ l.
Proof. destruct l as [|x l]; [done|]. intros [= <-]. apply foldl_max_elem. Qed.

Lemma py_max_upper l m : py_max l = Ok m -> no_nan l -> forall z, z ∈ l -> Float.leb z m = true.
Proof. destruct l as [|x l]; [done|]. intros [= <-] Hnan. by apply foldl_max_upper. Qed.

Lemma py_max_nonempty l : l ≠ [] -> exists m, py_max l = Ok m.
Proof. destruct l; [done | by eexists]. Qed.

Lemma py_min_elem l m : py_min l = Ok m -> m ∈ l.
Proof. destruct l as [|x l]; [done|]. intros [= <-]. apply foldl_min_elem. Qed.

Lemma py_min_lower l m : py_min l = Ok m -> no_nan l -> forall z, z ∈ l -> Float.leb m z = true.
Proof. destruct l as [|x l]; [done|]. intros [= <-] Hnan. by apply foldl_min_lower. Qed.

End Extremum.

(** ** Tagging the surface atoms *)

Section Tagging.

Context `{constants : !Constants, libs : !Libs}.

(** C4.  [_find_surface_atoms_by_height] gives one tag to each atom; the
    tag is 1 exactly when the scaled z-coordinate of the atom is not below
    the threshold, the greatest scaled z-coordinate minus 2 divided by the
    length of the third cell vector, and 0 otherwise.  "Not below" is
    "at least" whenever the two numbers are not NaN. *)
Theorem find_surface_atoms_by_height_spec (surface_atoms : Atoms) (tags : list Z) :
  adsorptions._find_surface_atoms_by_height surface_atoms = Ok tags ->
  let zs := vz <$> Atoms_get_scaled_positions surface_atoms in
  let unit_cell_height := np_linalg_norm (cell surface_atoms).2 in
  exists scaled_max_height,
    py_max zs = Ok scaled_max_height
    /\ scaled_max_height ∈ zs
    /\ (no_nan zs -> forall z, z ∈ zs -> Float.leb z scaled_max_height = true)
    /\ length tags = len surface_atoms
    /\ forall i z,
         zs !! i = Some z ->
         let threshold :=
           Float.sub scaled_max_height (Float.div Float.two unit_cell_height) in
         exists t,
           tags !! i = Some t
           /\ (t = 1 \/ t = 0)%Z
           /\ (t = 1%Z <-> Float.ltb z threshold = false)
           /\ (Float.is_nan z = false -> Float.is_nan threshold = false ->
               (t = 1%Z <-> Float.leb threshold z = true)).
Proof.
  unfold adsorptions._find_surface_atoms_by_height.
  destruct (cell surface_atoms) as [[c0 c1] c2]. simpl.
  intros (m & Hmax & [= <-])%bind_Ok.
  exists m. split_and!; [done | by apply py_max_elem | by apply py_max_upper | |].
  - by rewrite length_fmap, Atoms_get_scaled_positions_length.
  - intros i z Hz. rewrite list_lookup_fmap in Hz.
    destruct (Atoms_get_scaled_positions surface_atoms !! i) as [sp|] eqn:Hsp; [|done].
    injection Hz as <-.
    rewrite list_lookup_fmap, Hsp. simpl.
    eexists. split; [done|].
    destruct (Float.ltb (vz sp) _) eqn:Hlt.
    + split_and!; [by right | done | ].
      intros Hz Hthr. split; [done|]. intros Hle%FloatFacts.leb_not_ltb. congruence.
    + split_and!; [by left | done | ].
      intros Hz Hthr. split; [|done]. intros _. by apply FloatFacts.not_ltb_leb.
Qed.

End Tagging.

Lemma enumerate_lookup {A} (l : list A) (i : nat) (x : A) :
  l !! i = Some x -> enumerate l !! i = Some (i, x).
Proof.
  intros Hx. unfold enumerate. apply lookup_zip_Some. split; [|done].
  apply lookup_seq. split; [done|]. by eapply lookup_lt_Some.
Qed.

Lemma enumerate_elem {A} (l : list A) (i : nat) (x : A) :
  (i, x) ∈ enumerate l <-> l !! i = Some x.
Proof.
  unfold enumerate. rewrite list_elem_of_lookup. split.
  - intros (j & (Hseq & Hx)%lookup_zip_Some). apply lookup_seq in Hseq as [-> _]. done.
  - intros Hx. exists i. by apply enumerate_lookup.
Qed.

Lemma length_enumerate {A} (l : list A) : length (enumerate l) = length l.
Proof. unfold enumerate. rewrite length_zip, length_seq. lia. Qed.

Section Voronoi.

Context `{constants : !Constants, libs : !Libs}.

Lemma set_add_elem x s c : c ∈ set_add x s <-> c ∈ s \/ (c = x /\ existsb (Float.eqb x) s = false).
Proof.
  unfold set_add. destruct (existsb (Float.eqb x) s) eqn:Hex.
  - split; [by left | intros [Hin | [_ Hin]]; [done | discriminate]].
  - rewrite elem_of_app, list_elem_of_singleton. split.
    + intros [Hin | ->]; [by left | by right].
    + intros [Hin | [-> _]]; [by left | by right].
Qed.

Lemma set_add_has x s : exists c', c' ∈ set_add x s /\ (c' = x \/ Float.eqb x c' = true).
Proof.
  destruct (existsb (Float.eqb x) s) eqn:Hex.
  - apply existsb_exists in Hex as (c' & Hin & Heq).
    exists c'. split; [|by right]. apply set_add_elem. left. by apply list_elem_of_In.
  - exists x. split; [|by left]. apply set_add_elem. by right.
Qed.

Lemma cn_dict_add_lookup d key cn el :
  default [] (adsorptions.cn_dict_add d key cn !! el)
  = if decide (key = el) then set_add cn (default [] (d !! key)) else default [] (d !! el).
Proof.
  unfold adsorptions.cn_dict_add. rewrite lookup_insert. by case_decide.
Qed.

Lemma bulk_cn_loop_spec sym_struct equivalent_indices d d' :
  adsorptions.bulk_cn_loop sym_struct equivalent_indices d = Ok d' ->
  let visited el c :=
    exists idx idx0 site cn,
      idx ∈ equivalent_indices
      /\ idx !! 0 = Some idx0
      /\ structure_sites sym_struct !! idx0 = Some site
      /\ species_string site = el
      /\ VoronoiNN_get_cn adsorptions.tol_0_1 sym_struct idx0 = Ok cn
      /\ c = py_round cn 5 in
  (forall el c, c ∈ default [] (d' !! el) -> c ∈ default [] (d !! el) \/ visited el c)
  /\ (forall el c, c ∈ default [] (d !! el) -> c ∈ default [] (d' !! el))
  /\ (forall el c, visited el c ->
        exists c', c' ∈ default [] (d' !! el) /\ (c' = c \/ Float.eqb c c' = true)).
Proof.
  revert d. induction equivalent_indices as [|idx rest IH]; intros d.
  - simpl. intros [= <-]. split_and!; [by left | done |].
    intros el c (idx & ? & ? & ? & Hin & _). by apply elem_of_nil in Hin.
  - cbn [adsorptions.bulk_cn_loop].
    intros (idx0 & Hidx0%getitem_Ok & (site & Hsite%getitem_Ok & (cn & Hcn & Hloop)%bind_Ok)%bind_Ok)%bind_Ok.
    destruct (IH _ Hloop) as (Hsound & Hmono & Hcomplete). clear IH.
    split_and!.
    + intros el c [Hin | Hvis]%Hsound.
      * rewrite cn_dict_add_lookup in Hin. case_decide as Hkey; [|by left].
        apply set_add_elem in Hin as [Hin | [-> _]]; [left; by rewrite <- Hkey|].
        right. exists idx, idx0, site, cn. split_and!; try done. left.
      * right. destruct Hvis as (i & i0 & s & n & Hin & Hrest).
        exists i, i0, s, n. split; [by right | done].
    + intros el c Hin. apply Hmono. rewrite cn_dict_add_lookup.
      case_decide as Hkey; [|done]. apply set_add_elem. left. by rewrite Hkey.
    + intros el c (i & i0 & s & n & Hin & Hi0 & Hs & Hel & Hn & ->).
      apply elem_of_cons in Hin as [-> | Hin].
      * assert (i0 = idx0) as -> by congruence.
        assert (s = site) as -> by congruence.
        assert (n = cn) as -> by congruence.
        destruct (set_add_has (py_round cn 5) (default [] (d !! species_string site)))
          as (c' & Hc' & Heq).
        exists c'. split; [|done]. apply Hmono. rewrite cn_dict_add_lookup.
        subst el. by rewrite decide_True.
      * apply Hcomplete. by exists i, i0, s, n.
Qed.

Lemma calculate_coordination_records bulk_atoms bulk_cn_dict :
  adsorptions.calculate_coordination_of_bulk_atoms bulk_atoms = Ok bulk_cn_dict ->
  records bulk_atoms bulk_cn_dict.
Proof.
  unfold adsorptions.calculate_coordination_of_bulk_atoms, records, cn_of_distinct_site.
  destruct (get_symmetrized_structure _) as [sym_struct equivalent_indices].
  intros (Hsound & _ & Hcomplete)%bulk_cn_loop_spec. split; [|done].
  intros el c [Hin | Hvis]%Hsound; [|done].
  rewrite lookup_empty in Hin. by apply elem_of_nil in Hin.
Qed.

End Voronoi.

Section VoronoiTags.

Context `{constants : !Constants, libs : !Libs}.

Lemma py_min_raises l e : py_min l = Raise e -> exists msg, e = ValueError msg.
Proof. destruct l; [|done]. intros [= <-]. by eexists. Qed.

Lemma voronoi_tag_spec surface_struct center_of_mass bulk_cn_dict idx site t :
  adsorptions.voronoi_tag surface_struct center_of_mass bulk_cn_dict idx site = Ok t ->
  (t = 1 \/ t = 0)%Z
  /\ (t = 1%Z <->
      Float.gtb (vz (frac_coords site)) (vz center_of_mass) = true
      /\ under_coordinated surface_struct bulk_cn_dict idx site)
  /\ (Float.leb (vz (frac_coords site)) (vz center_of_mass) = true -> t = 0%Z).
Proof.
  unfold adsorptions.voronoi_tag, under_coordinated.
  destruct (Float.gtb _ _) eqn:Hgt.
  - intros Htry.
    assert (Float.leb (vz (frac_coords site)) (vz center_of_mass) = true -> t = 0%Z) as Hbelow.
    { intros Hle%FloatFacts.leb_not_ltb. unfold Float.gtb in Hgt.
      unfold Float.ltb in Hle. congruence. }
    destruct (VoronoiNN_get_cn adsorptions.tol_0_1 surface_struct idx) as [cn|e] eqn:Hcn;
      simpl in Htry.
    + destruct (py_min _) as [min_cn|e] eqn:Hmin; simpl in Htry.
      * destruct (Float.ltb (py_round cn 5) min_cn) eqn:Hlt; injection Htry as <-.
        -- split_and!; [by left | | done]. split; [|done]. intros _.
           split; [done|]. right. by exists cn, min_cn.
        -- split_and!; [by right | | done]. split; [done|].
           intros [_ [[msg [=]] | (cn' & m' & [= <-] & [= <-] & Hlt')]]. congruence.
      * apply py_min_raises in Hmin as [msg ->]. discriminate.
    + destruct e; try discriminate. injection Htry as <-.
      split_and!; [by left | | done]. split; [|done]. intros _.
      split; [done|]. left. by eexists.
  - intros [= <-]. split_and!; [by right | | done]. split; [done | by intros [[=] _]].
Qed.

(** C3.  [_find_surface_atoms_with_voronoi] gives one tag to each site of
    the surface.  The tag is 1 exactly when the fractional z-coordinate of
    the site is strictly greater than that of the centre of mass and the
    site is under-coordinated: its rounded Voronoi coordination number is
    strictly less than the minimum recorded for its element over the
    symmetrically distinct sites of the bulk, or computing it raises
    [RuntimeError].  A site at or below the centre of mass has tag 0. *)
Theorem find_surface_atoms_with_voronoi_spec (bulk_atoms surface_atoms : Atoms)
    (tags : list Z) :
  adsorptions._find_surface_atoms_with_voronoi bulk_atoms surface_atoms = Ok tags ->
  let surface_struct := AseAtomsAdaptor_get_structure surface_atoms in
  exists center_of_mass bulk_cn_dict,
    adsorptions.calculate_center_of_mass surface_struct = Ok center_of_mass
    /\ adsorptions.calculate_coordination_of_bulk_atoms bulk_atoms = Ok bulk_cn_dict
    /\ records bulk_atoms bulk_cn_dict
    /\ (forall el min_cn,
          py_min (default [] (bulk_cn_dict !! el)) = Ok min_cn ->
          min_cn ∈ default [] (bulk_cn_dict !! el)
          /\ (no_nan (default [] (bulk_cn_dict !! el)) ->
              forall c, c ∈ default [] (bulk_cn_dict !! el) -> Float.leb min_cn c = true))
    /\ length tags = length (structure_sites surface_struct)
    /\ forall idx site,
         structure_sites surface_struct !! idx = Some site ->
         exists t,
           tags !! idx = Some t
           /\ (t = 1 \/ t = 0)%Z
           /\ (t = 1%Z <->
               Float.gtb (vz (frac_coords site)) (vz center_of_mass) = true
               /\ under_coordinated surface_struct bulk_cn_dict idx site)
           /\ (Float.leb (vz (frac_coords site)) (vz center_of_mass) = true -> t = 0%Z).
Proof.
  unfold adsorptions._find_surface_atoms_with_voronoi. simpl.
  intros (com & Hcom & (d & Hd & Hloop%for_each_Ok)%bind_Ok)%bind_Ok.
  exists com, d. split_and!; [done | done | by apply calculate_coordination_records | | |].
  - intros el min_cn Hmin. split; [by apply py_min_elem | by apply py_min_lower].
  - apply Forall2_length in Hloop. by rewrite <- Hloop, length_enumerate.
  - intros idx site Hsite.
    destruct (Forall2_lookup_l _ _ _ idx (idx, site) Hloop (enumerate_lookup _ _ _ Hsite))
      as (t & Ht & Htag).
    exists t. split; [done|]. by apply voronoi_tag_spec in Htag.
Qed.

End VoronoiTags.

(** ** Reasonable configurations *)

Section Reasonable.

Context `{constants : !Constants, libs : !Libs}.

Lemma adsorbate_indices_of_elem adslab idx :
  idx ∈ adsorptions.adsorbate_indices_of adslab <-> is_adsorbate_atom adslab idx.
Proof.
  unfold adsorptions.adsorbate_indices_of, is_adsorbate_atom.
  rewrite list_elem_of_fmap. split.
  - intros ([i atom] & -> & [Htag Hin%enumerate_elem]%list_elem_of_filter). by exists atom.
  - intros (atom & Hatom & Htag). exists (idx, atom). split; [done|].
    apply list_elem_of_filter. split; [done | by apply enumerate_elem].
Qed.

Lemma within_0_1_intro x :
  Float.ltb x Float.zero || Float.gtb x Float.one = false -> within_0_1 x.
Proof.
  intros [Hlo Hhi]%orb_false_elim. split_and!; [done..|].
  intros Hx. split.
  - by apply FloatFacts.not_ltb_leb.
  - by apply FloatFacts.not_ltb_leb.
Qed.

Lemma within_0_1_elim x :
  within_0_1 x -> Float.ltb x Float.zero || Float.gtb x Float.one = false.
Proof. intros (-> & -> & _). done. Qed.

Lemma outside_unit_cell_false coord :
  adsorptions.outside_unit_cell coord = false
  <-> within_0_1 (vx coord) /\ within_0_1 (vy coord) /\ within_0_1 (vz coord).
Proof.
  unfold adsorptions.outside_unit_cell. split.
  - intros [[Hx Hy]%orb_false_elim Hz]%orb_false_elim.
    split_and!; by apply within_0_1_intro.
  - intros (Hx%within_0_1_elim & Hy%within_0_1_elim & Hz%within_0_1_elim).
    by rewrite Hx, Hy, Hz.
Qed.

Lemma at_least_iff dist thres : at_least dist thres <-> Float.ltb dist thres = false.
Proof.
  split; [by intros [? _]|]. intros Hlt. split; [done|].
  intros. by apply FloatFacts.not_ltb_leb.
Qed.

Lemma dict_getitem_Ok {K} `{Countable K} {V} (d : gmap K V) k shown v :
  adsorptions.dict_getitem d k shown = Ok v <-> d !! k = Some v.
Proof. unfold adsorptions.dict_getitem. destruct (d !! k); split; congruence. Qed.

Lemma neighbor_far_enough_true adslab structure idx nn site :
  structure_sites structure !! idx = Some site ->
  adsorptions.neighbor_far_enough adslab structure idx nn = Ok true
  <-> exists nn_site r_ads r_nn actual_dist,
        structure_sites structure !! nn = Some nn_site
        /\ COVALENT_RADIUS !! species_string site = Some r_ads
        /\ COVALENT_RADIUS !! species_string nn_site = Some r_nn
        /\ Atoms_get_distance_mic adslab idx nn = Ok actual_dist
        /\ at_least actual_dist (bond_threshold r_ads r_nn).
Proof.
  intros Hsite. unfold adsorptions.neighbor_far_enough, adsorptions.cov_bond_thres_of.
  rewrite (proj2 (getitem_Ok _ _ _) Hsite). simpl. split.
  - intros (nn_site & Hnn%getitem_Ok & (thres & Hthres & (dist & Hdist & Hfar)%bind_Ok)%bind_Ok)%bind_Ok.
    apply bind_Ok in Hthres as (r_ads & Hads%dict_getitem_Ok & (r_nn & Hrnn%dict_getitem_Ok & [= <-])%bind_Ok).
    exists nn_site, r_ads, r_nn, dist. split_and!; try done.
    apply at_least_iff. injection Hfar as Hfar. by apply negb_true_iff in Hfar.
  - intros (nn_site & r_ads & r_nn & dist & Hnn & Hads & Hrnn & Hdist & Hfar%at_least_iff).
    rewrite (proj2 (getitem_Ok _ _ _) Hnn). simpl.
    rewrite (proj2 (dict_getitem_Ok _ _ _ _) Hads). simpl.
    rewrite (proj2 (dict_getitem_Ok _ _ _ _) Hrnn). simpl.
    rewrite Hdist. simpl. unfold bond_threshold in Hfar. by rewrite Hfar.
Qed.

(** [is_config_reasonable] returns [True] exactly on the reasonable
    configurations. *)
Lemma is_config_reasonable_true adslab :
  adsorptions.is_config_reasonable adslab = Ok true <-> reasonable adslab.
Proof.
  unfold adsorptions.is_config_reasonable, reasonable.
  rewrite all_result_true, Forall_forall.
  set (structure := AseAtomsAdaptor_get_structure adslab).
  split.
  - intros Hall idx Hidx%adsorbate_indices_of_elem.
    specialize (Hall idx Hidx). unfold adsorptions.adsorbate_atom_reasonable in Hall.
    apply bind_Ok in Hall as (site & Hsite%getitem_Ok & Hall).
    destruct (adsorptions.outside_unit_cell _) eqn:Hout; [discriminate|].
    apply bind_Ok in Hall as (nns & Hnns & Hall).
    exists site, nns.
    split; [done|]. split; [by apply outside_unit_cell_false|]. split; [done|].
    intros nn Hnn Hslab. apply all_result_true in Hall.
    rewrite Forall_forall in Hall.
    apply (neighbor_far_enough_true adslab structure idx nn site Hsite).
    apply Hall. apply list_elem_of_filter. split; [|done].
    by rewrite adsorbate_indices_of_elem.
  - intros Hall idx Hidx%adsorbate_indices_of_elem.
    destruct (Hall idx Hidx) as (site & nns & Hsite & Hcoord & Hnns & Hfar).
    unfold adsorptions.adsorbate_atom_reasonable.
    rewrite (proj2 (getitem_Ok _ _ _) Hsite). simpl.
    apply outside_unit_cell_false in Hcoord. fold structure. rewrite Hcoord.
    fold structure in Hnns. rewrite Hnns. simpl.
    apply all_result_true, Forall_forall.
    intros nn [Hslab Hnn]%list_elem_of_filter.
    apply (neighbor_far_enough_true adslab structure idx nn site Hsite).
    apply Hfar; [done|]. by rewrite <- adsorbate_indices_of_elem.
Qed.

(** C1.  A configuration that [add_adsorbate_onto_surface] returns passes
    [is_config_reasonable], and is reasonable: each atom with tag 2 has its
    three fractional coordinates within [0, 1], and its distance to each
    Voronoi neighbour that is not an adsorbate atom is at least 0.8 times
    the sum of the two covalent radii, over 100. *)
Theorem add_adsorbate_onto_surface_reasonable (surface adsorbate : Atoms)
    (bond_indices : list nat) (w w' : World) (adsorbed_surface : Atoms) (s : string) :
  adsorptions.add_adsorbate_onto_surface surface adsorbate bond_indices w
    = (Ok (adsorbed_surface, s), w') ->
  adsorptions.is_config_reasonable adsorbed_surface = Ok true
  /\ reasonable adsorbed_surface.
Proof.
  unfold adsorptions.add_adsorbate_onto_surface. intros Hrun.
  do 5 io_step Hrun.
  repeat match goal with Hl : liftR _ _ = _ |- _ => apply liftR_Ok in Hl as [Hl ->] end.
  apply mret_io_Ok in Hrun as [[= -> ->] ->].
  match goal with Hg : getitem _ _ = Ok _ |- _ => apply getitem_Ok, list_elem_of_lookup_2 in Hg end.
  match goal with Hf : filter_result _ _ = Ok _ |- _ =>
    destruct (filter_result_Ok _ _ _ Hf _ ltac:(eassumption)) as [_ Hp] end.
  apply bind_Ok in Hp as (b & Hb & [= Hdec]).
  apply bool_decide_eq_true in Hdec as ->.
  split; [done | by apply is_config_reasonable_true].
Qed.

End Reasonable.

(** ** The steps of the sampler *)

Lemma advance_advance w k1 evs1 k2 evs2 :
  advance (advance w k1 evs1) k2 evs2 = advance w (k2 + k1) (evs1 ++ evs2).
Proof. unfold advance. simpl. f_equal; [lia | by rewrite app_assoc]. Qed.

Lemma py_max2_max a b : py_max2 a b = Z.max a b.
Proof. unfold py_max2. destruct (Z.ltb_spec a b); lia. Qed.

(** ** Running a computation forwards *)

Lemma bind_io_run {A B} (m : IO A) (f : A -> IO B) w a w1 :
  m w = (Ok a, w1) -> (m ≫= f) w = f a w1.
Proof. intros Hm. unfold mbind, IO_bind. by rewrite Hm. Qed.

Lemma bind_io_raise {A B} (m : IO A) (f : A -> IO B) w e w1 :
  m w = (Raise e, w1) -> (m ≫= f) w = (Raise e, w1).
Proof. intros Hm. unfold mbind, IO_bind. by rewrite Hm. Qed.

Lemma call_run {A} (name : string) (m : IO A) w :
  call name m w = m (advance w 0 [EvCall name]).
Proof. done. Qed.

Lemma pickle_load_run path w p :
  files w !! path = Some p ->
  pickle_load path w = (Ok p, advance w 0 [EvOpen path]).
Proof. intros Hfile. by apply pickle_load_Ok. Qed.

Lemma np_random_choice_run n w :
  n ≠ 0 ->
  np_random_choice n w = (Ok (rng w (draws w) `mod` n), advance w 1 [EvRandom n]).
Proof. intros Hn. by apply np_random_choice_Ok. Qed.

Lemma np_random_choice_zero w :
  np_random_choice 0 w
  = (Raise (ValueError "a must be greater than 0 unless no samples are taken"), w).
Proof. done. Qed.

Lemma length_nonempty {A} (l : list A) : l ≠ [] -> length l ≠ 0.
Proof. by destruct l. Qed.

Lemma string_length_app (s1 s2 : string) :
  String.length (s1 +:+ s2) = String.length s1 + String.length s2.
Proof. induction s1 as [|c s1 IH]; [done|]. simpl. by rewrite IH. Qed.

Lemma string_app_inv_tail (s1 s2 t : string) : s1 +:+ t = s2 +:+ t -> s1 = s2.
Proof.
  revert s2. induction s1 as [|c s1 IH]; intros [|c' s2] Heq.
  - done.
  - apply (f_equal String.length) in Heq.
    rewrite !string_length_app in Heq. simpl in Heq. lia.
  - apply (f_equal String.length) in Heq.
    rewrite !string_length_app in Heq. simpl in Heq. lia.
  - injection Heq as -> Heq. f_equal. by apply IH.
Qed.

(** ** Counting the draws that make a choice *)

Lemma with_draw_rng w r : rng (with_draw w r) (draws (with_draw w r)) = r.
Proof. unfold with_draw. simpl. by rewrite decide_True. Qed.

Lemma count_seq_eq (j n a : nat) :
  length (List.filter (fun i => bool_decide (i = j)) (seq a n))
  = if bool_decide (a <= j < a + n) then 1 else 0.
Proof.
  revert a. induction n as [|n IH]; intros a; simpl.
  - rewrite bool_decide_eq_false_2; [done | lia].
  - case_bool_decide as Haj; simpl; rewrite IH.
    + subst a. rewrite (bool_decide_eq_false_2 (S j <= j < S j + n)) by lia.
      rewrite (bool_decide_eq_true_2 (j <= j < j + S n)) by lia. done.
    + destruct (decide (S a <= j < S a + n)) as [Hin|Hout].
      * rewrite !bool_decide_eq_true_2 by lia. done.
      * rewrite !bool_decide_eq_false_2 by lia. done.
Qed.

Lemma seq_from (a n : nat) : seq a n = List.map (fun i => a + i) (seq 0 n).
Proof.
  revert a. induction n as [|n IH]; intros a; [done|].
  change (seq a (S n)) with (a :: seq (S a) n).
  change (seq 0 (S n)) with (0 :: seq 1 n).
  cbn [List.map]. f_equal; [lia|].
  rewrite <- (List.seq_shift n 0), List.map_map, (IH (S a)).
  apply List.map_ext. intros i. lia.
Qed.

Lemma filter_map_length {A B} (f : A -> B) (p : B -> bool) (l : list A) :
  length (List.filter p (List.map f l)) = length (List.filter (fun x => p (f x)) l).
Proof.
  induction l as [|x l IH]; [done|]. simpl. destruct (p (f x)); simpl; by rewrite IH.
Qed.

(** Of [n] draws in a row, one has the remainder [j]. *)
Lemma count_residue_window (n j s : nat) :
  j < n ->
  length (List.filter (fun r => bool_decide (r `mod` n = j)) (seq (s * n) n)) = 1.
Proof.
  intros Hj. rewrite seq_from, filter_map_length.
  rewrite (List.filter_ext_in _ (fun i => bool_decide (i = j))).
  - rewrite count_seq_eq. rewrite bool_decide_eq_true_2; [done | lia].
  - intros i Hi%List.in_seq.
    assert ((s * n + i) `mod` n = i) as Hmod.
    { rewrite Nat.add_comm, Nat.Div0.mod_add. apply Nat.mod_small. lia. }
    by rewrite Hmod.
Qed.

(** Of [k * n] draws, [k] have the remainder [j]: each of the [n] choices
    is made as often as each other. *)
Lemma count_draws_residue (n j k : nat) :
  j < n -> count_draws (fun r => bool_decide (r `mod` n = j)) (k * n) = k.
Proof.
  intros Hj. unfold count_draws. induction k as [|k IH]; [done|].
  replace (S k * n) with (k * n + n) by lia.
  rewrite List.seq_app, List.filter_app, length_app, IH. simpl.
  rewrite count_residue_window by done. lia.
Qed.

Lemma sampling_string_inj (i j n : nat) :
  str (Z.of_nat i) +:+ "/" +:+ str (Z.of_nat n)
  = str (Z.of_nat j) +:+ "/" +:+ str (Z.of_nat n) -> i = j.
Proof.
  intros Heq%string_app_inv_tail. apply Nat2Z.inj. by apply (inj pretty).
Qed.

Section Steps.

Context `{constants : !Constants, libs : !Libs}.

Lemma np_random_choice_p_Ok {A} (a : list A) (p : list float) w x w' :
  np_random_choice_p a p w = (Ok x, w') ->
  exists i, np_choice_index p (rng w (draws w)) = Ok i
    /\ a !! i = Some x
    /\ length a = length p
    /\ w' = advance w 1 [EvRandom (length a)].
Proof.
  unfold np_random_choice_p. case_decide; [discriminate|]. case_decide; [|discriminate].
  destruct (np_choice_index _ _) as [i|] eqn:Hi; [|discriminate].
  destruct (a !! i) as [y|] eqn:Hy; [|discriminate].
  intros [= <- <-]. by exists i.
Qed.

Lemma choose_n_elems_Ok weights w n_elem s w' :
  adsorptions.choose_n_elems weights w = (Ok (n_elem, s), w') ->
  let items := default adsorptions.default_weights weights in
  exists i,
    items.*1 !! i = Some n_elem
    /\ np_choice_index items.*2 (rng w (draws w)) = Ok i
    /\ s = str n_elem +:+ "/" +:+ str (Z.of_nat (length items))
    /\ w' = advance w 1 [EvRandom (length items)].
Proof.
  unfold adsorptions.choose_n_elems. intros Hrun.
  apply bind_io_Ok in Hrun as ([] & w1 & [_ ->]%assert_Ok & Hrun).
  apply bind_io_Ok in Hrun as (n & w2 & (i & Hi & Hn & Hlen & ->)%np_random_choice_p_Ok & Hrun).
  apply mret_io_Ok in Hrun as [[= -> ->] ->].
  exists i. by rewrite !length_fmap.
Qed.

Lemma choose_bulk_pkl_Ok bulk_database n_elems w bulk mpid index s w' :
  adsorptions.choose_bulk_pkl bulk_database n_elems w = (Ok (bulk, mpid, index, s), w') ->
  exists inv_index entries row,
    files w !! bulk_database = Some (PklBulks inv_index)
    /\ inv_index !! n_elems = Some entries
    /\ row = rng w (draws w) `mod` length entries
    /\ entries !! row = Some (bulk, mpid, s, index)
    /\ w' = advance w 1 [EvOpen bulk_database; EvRandom (length entries)].
Proof.
  unfold adsorptions.choose_bulk_pkl. intros Hrun.
  apply bind_io_Ok in Hrun as (p & w1 & [Hfile ->]%pickle_load_Ok & Hrun).
  apply bind_io_Ok in Hrun as (inv & w2 & Hinv & Hrun).
  destruct p as [inv'| |]; try discriminate. apply mret_io_Ok in Hinv as [-> ->].
  apply bind_io_Ok in Hrun as ([] & w3 & [_ ->]%assert_Ok & Hrun).
  unfold try_except_io in Hrun.
  match type of Hrun with match ?body ?w0 with _ => _ end = _ =>
    destruct (body w0) as [[r|e] w4] eqn:Hbody end.
  - injection Hrun as -> ->. unfold adsorptions.choose_bulk_pkl_try in Hbody.
    apply bind_io_Ok in Hbody as (entries & w5 & [Hentries%dict_getitem_Ok ->]%liftR_Ok & Hbody).
    apply bind_io_Ok in Hbody as (row & w6 & (_ & -> & ->)%np_random_choice_Ok & Hbody).
    apply bind_io_Ok in Hbody as ([[[b m] ss] ix] & w7 & [Hrow%getitem_Ok ->]%liftR_Ok & Hbody).
    apply mret_io_Ok in Hbody as [[= -> -> -> ->] ->].
    exists inv', entries, (rng w (draws w) `mod` length entries).
    split_and!; try done. unfold advance. simpl. by rewrite <- app_assoc.
  - destruct e; try discriminate.
Qed.

Lemma read_from_precomputed_enumerations_Ok index w surfaces_info w' :
  adsorptions.read_from_precomputed_enumerations index w = (Ok surfaces_info, w') ->
  let path := adsorptions.precomputed_path +:+ str index +:+ ".pkl" in
  files w !! path = Some (PklSurfaces surfaces_info)
  /\ w' = advance w 0 [EvOpen path].
Proof.
  unfold adsorptions.read_from_precomputed_enumerations. intros Hrun.
  apply bind_io_Ok in Hrun as (p & w1 & [Hfile ->]%pickle_load_Ok & Hrun).
  destruct p; try discriminate. apply mret_io_Ok in Hrun as [-> ->]. done.
Qed.

Lemma choose_surface_pkl_Ok bulk_atoms index w surface millers shift top s w' :
  adsorptions.choose_surface_pkl bulk_atoms index w
    = (Ok (surface, millers, shift, top, s), w') ->
  let path := adsorptions.precomputed_path +:+ str index +:+ ".pkl" in
  exists surfaces_info i surface_struct tiled,
    files w !! path = Some (PklSurfaces surfaces_info)
    /\ i = rng w (draws w) `mod` length surfaces_info
    /\ i < length surfaces_info
    /\ surfaces_info !! i = Some (surface_struct, millers, shift, top)
    /\ adsorptions.tile_atoms (AseAtomsAdaptor_get_atoms surface_struct) = Ok tiled
    /\ adsorptions.tag_surface_atoms bulk_atoms tiled = Ok surface
    /\ s = str (Z.of_nat i) +:+ "/" +:+ str (Z.of_nat (length surfaces_info))
    /\ w' = advance w 1
              [EvCall "read_from_precomputed_enumerations"; EvOpen path;
               EvRandom (length surfaces_info);
               EvCall "tile_atoms"; EvCall "tag_surface_atoms"].
Proof.
  unfold adsorptions.choose_surface_pkl. intros Hrun.
  apply bind_io_Ok in Hrun as (infos & w1 & Hread%call_Ok & Hrun).
  apply read_from_precomputed_enumerations_Ok in Hread as [Hfile ->]. simpl in Hfile.
  apply bind_io_Ok in Hrun as (i & w2 & Hchoice & Hrun).
  pose proof (np_random_choice_lt _ _ _ _ Hchoice) as Hlt.
  apply np_random_choice_Ok in Hchoice as (_ & -> & ->).
  apply bind_io_Ok in Hrun as ([[[st mi] sh] tp] & w3 & [Hget%getitem_Ok ->]%liftR_Ok & Hrun).
  apply bind_io_Ok in Hrun as (tiled & w4 & [Htile ->]%call_Ok%liftR_Ok & Hrun).
  apply bind_io_Ok in Hrun as (tagged & w5 & [Htag ->]%call_Ok%liftR_Ok & Hrun).
  apply mret_io_Ok in Hrun as [[= -> -> -> -> ->] ->].
  exists infos, (rng w (draws w) `mod` length infos), st, tiled.
  simpl in *. split_and!; try done.
  unfold advance. simpl. by rewrite <- !app_assoc.
Qed.

Lemma choose_adsorbate_pkl_Ok adsorbate_database w atoms_ smiles bond_indices s w' :
  adsorptions.choose_adsorbate_pkl adsorbate_database w
    = (Ok (atoms_, smiles, bond_indices, s), w') ->
  exists inv_index element,
    files w !! adsorbate_database = Some (PklAdsorbates inv_index)
    /\ element = rng w (draws w) `mod` size inv_index
    /\ element < size inv_index
    /\ inv_index !! element = Some (atoms_, smiles, bond_indices)
    /\ s = str (Z.of_nat element) +:+ "/" +:+ str (Z.of_nat (size inv_index))
    /\ w' = advance w 1 [EvOpen adsorbate_database; EvRandom (size inv_index)].
Proof.
  unfold adsorptions.choose_adsorbate_pkl. intros Hrun.
  apply bind_io_Ok in Hrun as (p & w1 & [Hfile ->]%pickle_load_Ok & Hrun).
  apply bind_io_Ok in Hrun as (inv & w2 & Hinv & Hrun).
  destruct p as [|inv'|]; try discriminate. apply mret_io_Ok in Hinv as [-> ->].
  apply bind_io_Ok in Hrun as (i & w3 & Hchoice & Hrun).
  pose proof (np_random_choice_lt _ _ _ _ Hchoice) as Hlt.
  apply np_random_choice_Ok in Hchoice as (_ & -> & ->).
  apply bind_io_Ok in Hrun as ([[a sm] bi] & w4 & [Hget%dict_getitem_Ok ->]%liftR_Ok & Hrun).
  apply mret_io_Ok in Hrun as [[= -> -> -> ->] ->].
  exists inv', (rng w (draws w) `mod` size inv'). simpl in *.
  split_and!; try done. unfold advance. simpl. by rewrite <- app_assoc.
Qed.

Lemma add_adsorbate_onto_surface_Ok surface adsorbate bond_indices w adsorbed s w' :
  adsorptions.add_adsorbate_onto_surface surface adsorbate bond_indices w
    = (Ok (adsorbed, s), w') ->
  exists adsorbate_gratoms adsorbed_surfaces reasonable_adsorbed_surfaces i,
    adsorptions.convert_adsorbate_atoms_to_gratoms adsorbate = Ok adsorbate_gratoms
    /\ Builder_add_adsorbate (surface_gratoms_of surface) adsorbate_gratoms bond_indices
       = Ok adsorbed_surfaces
    /\ filter_result
         (fun surface => b ← adsorptions.is_config_reasonable surface; Ok (bool_decide (b = true)))
         adsorbed_surfaces = Ok reasonable_adsorbed_surfaces
    /\ i = rng w (draws w) `mod` length reasonable_adsorbed_surfaces
    /\ i < length reasonable_adsorbed_surfaces
    /\ reasonable_adsorbed_surfaces !! i = Some adsorbed
    /\ s = str (Z.of_nat i) +:+ "/" +:+ str (Z.of_nat (length reasonable_adsorbed_surfaces))
    /\ w' = advance w 1 [EvRandom (length reasonable_adsorbed_surfaces)].
Proof.
  unfold adsorptions.add_adsorbate_onto_surface. intros Hrun.
  apply bind_io_Ok in Hrun as (ag & w1 & [Hconv ->]%liftR_Ok & Hrun).
  apply bind_io_Ok in Hrun as (cfgs & w2 & [Hbuild ->]%liftR_Ok & Hrun).
  apply bind_io_Ok in Hrun as (good & w3 & [Hfilter ->]%liftR_Ok & Hrun).
  apply bind_io_Ok in Hrun as (i & w4 & Hchoice & Hrun).
  pose proof (np_random_choice_lt _ _ _ _ Hchoice) as Hlt.
  apply np_random_choice_Ok in Hchoice as (_ & -> & ->).
  apply bind_io_Ok in Hrun as (cfg & w5 & [Hget%getitem_Ok ->]%liftR_Ok & Hrun).
  apply mret_io_Ok in Hrun as [[= -> ->] ->].
  exists ag, cfgs, good, (rng w (draws w) `mod` length good).
  split_and!; done.
Qed.

(** [choose_surface_pkl] run forwards, on an entry that can be tiled and
    tagged. *)
Lemma choose_surface_pkl_run bulk_atoms index w surfaces_info
    surface_struct millers shift top tiled surface :
  let path := adsorptions.precomputed_path +:+ str index +:+ ".pkl" in
  let i := rng w (draws w) `mod` length surfaces_info in
  files w !! path = Some (PklSurfaces surfaces_info) ->
  surfaces_info !! i = Some (surface_struct, millers, shift, top) ->
  adsorptions.tile_atoms (AseAtomsAdaptor_get_atoms surface_struct) = Ok tiled ->
  adsorptions.tag_surface_atoms bulk_atoms tiled = Ok surface ->
  adsorptions.choose_surface_pkl bulk_atoms index w
  = (Ok (surface, millers, shift, top,
         str (Z.of_nat i) +:+ "/" +:+ str (Z.of_nat (length surfaces_info))),
     advance w 1 [EvCall "read_from_precomputed_enumerations"; EvOpen path;
                  EvRandom (length surfaces_info);
                  EvCall "tile_atoms"; EvCall "tag_surface_atoms"]).
Proof.
  intros path i Hfile Hget Htile Htag.
  assert (length surfaces_info ≠ 0) as Hne.
  { intros Hlen. apply nil_length_inv in Hlen. subst surfaces_info. discriminate Hget. }
  unfold adsorptions.choose_surface_pkl.
  rewrite bind_io_run with (a := surfaces_info)
    (w1 := advance w 0 [EvCall "read_from_precomputed_enumerations"; EvOpen path]).
  2:{ rewrite call_run. unfold adsorptions.read_from_precomputed_enumerations.
      rewrite (bind_io_run _ _ _ _ _
                 (pickle_load_run path
                    (advance w 0 [EvCall "read_from_precomputed_enumerations"]) _ Hfile)).
      simpl.
      unfold mret, IO_ret, advance. simpl. by rewrite <- app_assoc. }
  rewrite (bind_io_run _ _ _ _ _ (np_random_choice_run _ _ Hne)). simpl.
  unfold mbind at 1, IO_bind, liftR, getitem. fold i.
  unfold SurfaceInfo in *. rewrite Hget. simpl.
  unfold mbind at 1, IO_bind. rewrite call_run. unfold liftR. rewrite Htile. simpl.
  unfold mbind at 1, IO_bind. rewrite call_run. unfold liftR. rewrite Htag. simpl.
  unfold mret, IO_ret, advance. simpl. by rewrite <- !app_assoc.
Qed.

(** Each entry that can be tiled and tagged is returned for one draw in
    [n], [n] the number of entries. *)
Lemma choose_surface_pkl_uniform bulk_atoms index w surfaces_info k j
    surface_struct millers shift top tiled surface :
  let path := adsorptions.precomputed_path +:+ str index +:+ ".pkl" in
  let n := length surfaces_info in
  files w !! path = Some (PklSurfaces surfaces_info) ->
  surfaces_info !! j = Some (surface_struct, millers, shift, top) ->
  adsorptions.tile_atoms (AseAtomsAdaptor_get_atoms surface_struct) = Ok tiled ->
  adsorptions.tag_surface_atoms bulk_atoms tiled = Ok surface ->
  count_draws
    (draw_returns_surface bulk_atoms index w
       (str (Z.of_nat j) +:+ "/" +:+ str (Z.of_nat n))) (k * n) = k.
Proof.
  intros path n Hfile Hget Htile Htag.
  pose proof (lookup_lt_Some _ _ _ Hget) as Hj. fold n in Hj.
  rewrite <- (count_draws_residue n j k Hj) at 2. unfold count_draws.
  f_equal. apply List.filter_ext. intros r. unfold draw_returns_surface.
  destruct (decide (r `mod` n = j)) as [Hr|Hr].
  - rewrite (choose_surface_pkl_run bulk_atoms index (with_draw w r) surfaces_info
               surface_struct millers shift top tiled surface); try done.
    + rewrite with_draw_rng. fold n. rewrite Hr. simpl.
      by rewrite !bool_decide_eq_true_2.
    + rewrite with_draw_rng. fold n. by rewrite Hr.
  - rewrite (bool_decide_eq_false_2 _ Hr).
    destruct (adsorptions.choose_surface_pkl bulk_atoms index (with_draw w r))
      as [[[[[[surface' millers'] shift'] top'] s']|e] w1] eqn:Hrun; [|done].
    simpl. apply bool_decide_eq_false_2. intros ->.
    apply choose_surface_pkl_Ok in Hrun
      as (infos & i & st & tiled' & Hfile' & Hi & _ & _ & _ & _ & Hs & _).
    simpl in Hfile'. fold path in Hfile'. rewrite Hfile in Hfile'.
    injection Hfile' as <-. rewrite with_draw_rng in Hi. fold n in Hi, Hs. subst i.
    apply sampling_string_inj in Hs. by apply Hr.
Qed.

End Steps.

Section Sampler.

Context `{constants : !Constants, libs : !Libs}.

(** A run of [sample_structures] that returns is a run of its five
    choosers, each from the world the one before it left, followed by the
    two calls of [constrain_surface] and the call of [find_sites]. *)
Lemma sample_structures_Ok bulk_database adsorbate_database weights w ad bd w' :
  adsorptions.sample_structures bulk_database adsorbate_database weights w
    = (Ok (ad, bd), w') ->
  exists n_elems elem_str bulk mpid index bulk_str surface millers shift top surface_str
         adsorbate smiles bond_indices adsorbate_str adsorbed adsorbed_str sites
         w1 w2 w3 w4 w5,
    adsorptions.choose_n_elems weights (advance w 0 [EvCall "choose_n_elems"])
      = (Ok (n_elems, elem_str), w1)
    /\ adsorptions.choose_bulk_pkl bulk_database n_elems (advance w1 0 [EvCall "choose_bulk_pkl"])
      = (Ok (bulk, mpid, index, bulk_str), w2)
    /\ adsorptions.choose_surface_pkl bulk index (advance w2 0 [EvCall "choose_surface_pkl"])
      = (Ok (surface, millers, shift, top, surface_str), w3)
    /\ adsorptions.choose_adsorbate_pkl adsorbate_database
         (advance w3 0 [EvCall "choose_adsorbate_pkl"])
      = (Ok (adsorbate, smiles, bond_indices, adsorbate_str), w4)
    /\ adsorptions.add_adsorbate_onto_surface surface adsorbate bond_indices
         (advance w4 0 [EvCall "add_adsorbate_onto_surface"])
      = (Ok (adsorbed, adsorbed_str), w5)
    /\ adsorptions.find_sites (adsorptions.constrain_surface surface)
         (adsorptions.constrain_surface adsorbed) bond_indices = Ok sites
    /\ ad = adsorptions.mk_adsorbed_bulk_dict (adsorptions.constrain_surface adsorbed)
              (mpid, millers, py_round shift 3, top, smiles, sites)
              ((elem_str +:+ "_" +:+ bulk_str +:+ "_" +:+ surface_str)
               +:+ "_" +:+ adsorbate_str +:+ "_" +:+ adsorbed_str)
    /\ bd = adsorptions.mk_bulk_dict (adsorptions.constrain_surface surface)
              (mpid, millers, py_round shift 3, top)
              (elem_str +:+ "_" +:+ bulk_str +:+ "_" +:+ surface_str)
    /\ w' = advance w5 0
              [EvCall "constrain_surface"; EvCall "constrain_surface"; EvCall "find_sites"].
Proof.
  unfold adsorptions.sample_structures. intros Hrun.
  apply bind_io_Ok in Hrun as ([n_elems es] & w1 & Hn%call_Ok & Hrun).
  apply bind_io_Ok in Hrun as ([[[bulk mpid] index] bs] & w2 & Hb%call_Ok & Hrun).
  apply bind_io_Ok in Hrun as ([[[[surface millers] shift] top] ss] & w3 & Hs%call_Ok & Hrun).
  apply bind_io_Ok in Hrun as ([[[adsorbate smiles] bonds] as_] & w4 & Ha%call_Ok & Hrun).
  apply bind_io_Ok in Hrun as ([adsorbed cs] & w5 & Hc%call_Ok & Hrun).
  apply bind_io_Ok in Hrun as (adsorbed' & w6 & [-> ->]%call_Ok%mret_io_Ok & Hrun).
  apply bind_io_Ok in Hrun as (surface' & w7 & [-> ->]%call_Ok%mret_io_Ok & Hrun).
  apply bind_io_Ok in Hrun as (sites & w8 & [Hsites ->]%call_Ok%liftR_Ok & Hrun).
  apply mret_io_Ok in Hrun as [[= -> ->] ->].
  exists n_elems, es, bulk, mpid, index, bs, surface, millers, shift, top, ss,
    adsorbate, smiles, bonds, as_, adsorbed, cs, sites, w1, w2, w3, w4, w5.
  split_and!; try done.
  unfold advance. simpl. by rewrite <- !app_assoc.
Qed.

Lemma for_each_Forall {A B} (f : A -> Result B) (P : B -> Prop) l ys :
  (forall x y, f x = Ok y -> P y) -> for_each f l = Ok ys -> Forall P ys.
Proof.
  intros Hf Hloop%for_each_Ok. induction Hloop; constructor; eauto.
Qed.

Lemma voronoi_tags_0_1 bulk_atoms surface_atoms tags :
  adsorptions._find_surface_atoms_with_voronoi bulk_atoms surface_atoms = Ok tags ->
  Forall (fun t => t = 0 \/ t = 1)%Z tags.
Proof.
  unfold adsorptions._find_surface_atoms_with_voronoi.
  intros (com & _ & (d & _ & Hloop)%bind_Ok)%bind_Ok.
  eapply for_each_Forall; [|exact Hloop].
  intros [idx site] t Htag%voronoi_tag_spec. tauto.
Qed.

Lemma height_tags_0_1 surface_atoms tags :
  adsorptions._find_surface_atoms_by_height surface_atoms = Ok tags ->
  Forall (fun t => t = 0 \/ t = 1)%Z tags.
Proof.
  unfold adsorptions._find_surface_atoms_by_height.
  destruct (cell surface_atoms) as [[c0 c1] c2].
  intros (m & _ & [= <-])%bind_Ok. apply Forall_fmap, Forall_forall.
  intros sp _. simpl. destruct (Float.ltb _ _); auto.
Qed.

Lemma retag_spec (l : list Atom) (tags : list Z) :
  length tags = length l ->
  let l' := zip_with (fun at_ t => mkAtom (symbol at_) (position at_) t) l tags in
  tag <$> l' = tags /\ length l' = length l
  /\ symbol <$> l' = symbol <$> l /\ position <$> l' = position <$> l.
Proof.
  revert tags. induction l as [|at_ l IH]; intros [|t tags] Hlen; csimpl in *; try done.
  injection Hlen as Hlen. destruct (IH tags Hlen) as (Ht & Hl & Hs & Hp).
  split_and!; by f_equal.
Qed.

Lemma set_tags_Ok a tags a' :
  set_tags a tags = Ok a' ->
  length tags = len a /\ get_tags a' = tags /\ len a' = len a
  /\ cell a' = cell a /\ symbol <$> atoms a' = symbol <$> atoms a
  /\ position <$> atoms a' = position <$> atoms a.
Proof.
  unfold set_tags, get_tags, len. case_decide as Hlen; [|discriminate]. intros [= <-]. simpl.
  destruct (retag_spec (atoms a) tags Hlen) as (Ht & Hl & Hs & Hp). done.
Qed.

(** [tag_surface_atoms] gives each atom the greater of its two tags. *)
Lemma tag_surface_atoms_Ok bulk_atoms surface_atoms tagged :
  adsorptions.tag_surface_atoms bulk_atoms surface_atoms = Ok tagged ->
  exists voronoi_tags height_tags,
    adsorptions._find_surface_atoms_with_voronoi bulk_atoms surface_atoms = Ok voronoi_tags
    /\ adsorptions._find_surface_atoms_by_height surface_atoms = Ok height_tags
    /\ get_tags tagged = zip_with py_max2 voronoi_tags height_tags
    /\ len tagged = len surface_atoms
    /\ length height_tags = len surface_atoms
    /\ forall i t,
         get_tags tagged !! i = Some t ->
         exists v_tag h_tag,
           voronoi_tags !! i = Some v_tag
           /\ height_tags !! i = Some h_tag
           /\ t = Z.max v_tag h_tag
           /\ (t = 0 \/ t = 1)%Z
           /\ (t = 1%Z <-> v_tag = 1%Z \/ h_tag = 1%Z).
Proof.
  unfold adsorptions.tag_surface_atoms.
  intros (v & Hv & (h & Hh & Hset)%bind_Ok)%bind_Ok.
  apply set_tags_Ok in Hset as (Hlen & Htags & Hlen' & _).
  exists v, h. split_and!; try done.
  - unfold adsorptions._find_surface_atoms_by_height in Hh.
    destruct (cell surface_atoms) as [[c0 c1] c2].
    apply bind_Ok in Hh as (m & _ & [= <-]).
    by rewrite !length_fmap, Atoms_get_scaled_positions_length.
  - intros i t. rewrite Htags.
    intros (vi & hi & -> & Hvi & Hhi)%lookup_zip_with_Some.
    exists vi, hi. rewrite py_max2_max. split_and!; try done.
    + pose proof (voronoi_tags_0_1 _ _ _ Hv) as Hv01.
      pose proof (height_tags_0_1 _ _ Hh) as Hh01.
      rewrite Forall_forall in Hv01, Hh01.
      specialize (Hv01 vi (list_elem_of_lookup_2 _ _ _ Hvi)).
      specialize (Hh01 hi (list_elem_of_lookup_2 _ _ _ Hhi)). lia.
    + pose proof (voronoi_tags_0_1 _ _ _ Hv) as Hv01.
      pose proof (height_tags_0_1 _ _ Hh) as Hh01.
      rewrite Forall_forall in Hv01, Hh01.
      specialize (Hv01 vi (list_elem_of_lookup_2 _ _ _ Hvi)).
      specialize (Hh01 hi (list_elem_of_lookup_2 _ _ _ Hhi)). lia.
Qed.

Lemma convert_adsorbate_atoms_to_gratoms_Ok adsorbate :
  exists adsorbate_gratoms,
    adsorptions.convert_adsorbate_atoms_to_gratoms adsorbate = Ok adsorbate_gratoms
    /\ get_tags adsorbate_gratoms = replicate (len adsorbate) 2%Z.
Proof.
  unfold adsorptions.convert_adsorbate_atoms_to_gratoms.
  destruct (set_tags _ _) as [g|e] eqn:Hset.
  - exists g. split; [done|]. by apply set_tags_Ok in Hset as (_ & -> & _).
  - unfold set_tags in Hset. rewrite decide_True in Hset; [done|].
    by rewrite length_replicate.
Qed.


(** [constrain_surface] adds one constraint, which fixes the atoms of tag 0,
    and leaves the atoms, the cell and the earlier constraints as they are. *)
Lemma constrain_surface_adds_mask (a : Atoms) :
  exists mask,
    constraints (adsorptions.constrain_surface a) = constraints a ++ [mask]
    /\ length mask = len a
    /\ forall i atom,
         atoms a !! i = Some atom -> mask !! i = Some (bool_decide (tag atom = 0%Z)).
Proof.
  eexists. split_and!; [done | by rewrite length_fmap |].
  intros i atom Hi. by rewrite list_lookup_fmap, Hi.
Qed.

End Sampler.

(** ** The sampler *)

Section Claims.

Context `{constants : !Constants, libs : !Libs}.


(** C5.  A call of [sample_structures] that returns has run, each from
    the world that the one before left: [choose_n_elems], [choose_bulk_pkl]
    on the chosen number of elements, [choose_surface_pkl] on the chosen
    bulk, [choose_adsorbate_pkl], [add_adsorbate_onto_surface] on the
    chosen surface and adsorbate, then [constrain_surface] on the adsorbed
    surface and on the surface, and [find_sites]; the log shows the calls
    in this order.  Constraining a structure adds one constraint to those
    it had, a mask with one entry for each atom that fixes the atoms of tag
    0, and changes neither the atoms nor the cell.  It returns the
    constrained adsorbed surface with (mpid, millers, shift rounded to 3
    digits, top, smiles, sites), and the constrained surface with (mpid,
    millers, the rounded shift, top). *)
Theorem sample_structures_steps bulk_database adsorbate_database weights w ad bd w' :
  adsorptions.sample_structures bulk_database adsorbate_database weights w
    = (Ok (ad, bd), w') ->
  exists n_elems elem_str bulk mpid index bulk_str surface millers shift top surface_str
         adsorbate smiles bond_indices adsorbate_str adsorbed adsorbed_str sites
         w1 w2 w3 w4 w5 k1 k2 k3 k4 k5,
    adsorptions.choose_n_elems weights (advance w 0 [EvCall "choose_n_elems"])
      = (Ok (n_elems, elem_str), w1)
    /\ adsorptions.choose_bulk_pkl bulk_database n_elems (advance w1 0 [EvCall "choose_bulk_pkl"])
      = (Ok (bulk, mpid, index, bulk_str), w2)
    /\ adsorptions.choose_surface_pkl bulk index (advance w2 0 [EvCall "choose_surface_pkl"])
      = (Ok (surface, millers, shift, top, surface_str), w3)
    /\ adsorptions.choose_adsorbate_pkl adsorbate_database
         (advance w3 0 [EvCall "choose_adsorbate_pkl"])
      = (Ok (adsorbate, smiles, bond_indices, adsorbate_str), w4)
    /\ adsorptions.add_adsorbate_onto_surface surface adsorbate bond_indices
         (advance w4 0 [EvCall "add_adsorbate_onto_surface"])
      = (Ok (adsorbed, adsorbed_str), w5)
    /\ adsorptions.find_sites (adsorptions.constrain_surface surface)
         (adsorptions.constrain_surface adsorbed) bond_indices = Ok sites
    /\ adsorptions.adsorbed_bulk_atomsobject ad = adsorptions.constrain_surface adsorbed
    /\ adsorptions.adsorbed_bulk_metadata ad
       = (mpid, millers, py_round shift 3, top, smiles, sites)
    /\ adsorptions.bulk_atomsobject bd = adsorptions.constrain_surface surface
    /\ adsorptions.bulk_metadata bd = (mpid, millers, py_round shift 3, top)
    /\ log w' = log w ++
         [EvCall "choose_n_elems"; EvRandom k1;
          EvCall "choose_bulk_pkl"; EvOpen bulk_database; EvRandom k2;
          EvCall "choose_surface_pkl"; EvCall "read_from_precomputed_enumerations";
          EvOpen (adsorptions.precomputed_path +:+ str index +:+ ".pkl"); EvRandom k3;
          EvCall "tile_atoms"; EvCall "tag_surface_atoms";
          EvCall "choose_adsorbate_pkl"; EvOpen adsorbate_database; EvRandom k4;
          EvCall "add_adsorbate_onto_surface"; EvRandom k5;
          EvCall "constrain_surface"; EvCall "constrain_surface"; EvCall "find_sites"]
    (* what constraining does to the two structures *)
    /\ (exists mask,
          constraints (adsorptions.adsorbed_bulk_atomsobject ad)
          = constraints adsorbed ++ [mask]
          /\ length mask = len adsorbed
          /\ forall i atom,
               atoms adsorbed !! i = Some atom ->
               mask !! i = Some (bool_decide (tag atom = 0%Z)))
    /\ atoms (adsorptions.adsorbed_bulk_atomsobject ad) = atoms adsorbed
    /\ cell (adsorptions.adsorbed_bulk_atomsobject ad) = cell adsorbed
    /\ (exists mask,
          constraints (adsorptions.bulk_atomsobject bd) = constraints surface ++ [mask]
          /\ length mask = len surface
          /\ forall i atom,
               atoms surface !! i = Some atom ->
               mask !! i = Some (bool_decide (tag atom = 0%Z)))
    /\ atoms (adsorptions.bulk_atomsobject bd) = atoms surface
    /\ cell (adsorptions.bulk_atomsobject bd) = cell surface.
Proof.
  intros Hrun. apply sample_structures_Ok in Hrun
    as (n_elems & es & bulk & mpid & index & bs & surface & millers & shift & top & ss
        & adsorbate & smiles & bonds & as_ & adsorbed & cs & sites
        & w1 & w2 & w3 & w4 & w5 & Hn & Hb & Hs & Ha & Hc & Hsites & -> & -> & ->).
  pose proof (choose_n_elems_Ok _ _ _ _ _ Hn) as (i1 & _ & _ & _ & Hw1).
  pose proof (choose_bulk_pkl_Ok _ _ _ _ _ _ _ _ Hb) as (inv & entries & row & _ & _ & _ & _ & Hw2).
  pose proof (choose_surface_pkl_Ok _ _ _ _ _ _ _ _ _ Hs)
    as (infos & i3 & st & tiled & _ & _ & _ & _ & _ & _ & _ & Hw3).
  pose proof (choose_adsorbate_pkl_Ok _ _ _ _ _ _ _ Ha) as (ainv & el & _ & _ & _ & _ & _ & Hw4).
  pose proof (add_adsorbate_onto_surface_Ok _ _ _ _ _ _ _ Hc)
    as (ag & cfgs & good & j & _ & _ & _ & _ & _ & _ & _ & Hw5).
  exists n_elems, es, bulk, mpid, index, bs, surface, millers, shift, top, ss,
    adsorbate, smiles, bonds, as_, adsorbed, cs, sites, w1, w2, w3, w4, w5.
  exists (length (default adsorptions.default_weights weights)), (length entries),
    (length infos), (size ainv), (length good).
  split_and!; try done.
  - rewrite Hw5, Hw4, Hw3, Hw2, Hw1. simpl. by rewrite <- !app_assoc.
  - apply constrain_surface_adds_mask.
  - apply constrain_surface_adds_mask.
Qed.

(** C6.  [choose_surface_pkl] reads its candidate surfaces from one file,
    the one named after the index of the bulk, and the only call it logs
    before the choice is [read_from_precomputed_enumerations]:
    [enumerate_surfaces] is not called.  The entry it takes is the one at
    the index that a single [np.random.choice] on the number of entries
    draws, and the choice is uniform: of [k * n] equally likely draws, [n]
    the number of entries, exactly [k] return a given entry (one that can be
    tiled and tagged).  The entry is tiled: its atoms are repeated [nx] times
    along x and [ny] times along y, [nx] and [ny] the ceilings of [MIN_XY]
    over the lengths of the first two cell vectors.  The tiled atoms are
    tagged: each gets the greater of its Voronoi tag and its height tag, and
    nothing else changes.  The function returns them with the Miller
    indices, the shift and the top flag of the entry, and the string of the
    drawn index over the number of entries. *)
Theorem choose_surface_pkl_spec bulk_atoms index w surface millers shift top s w' :
  adsorptions.choose_surface_pkl bulk_atoms index w
    = (Ok (surface, millers, shift, top, s), w') ->
  let path := adsorptions.precomputed_path +:+ str index +:+ ".pkl" in
  exists surfaces_info i surface_struct tiled evs nx ny voronoi_tags height_tags,
    files w !! path = Some (PklSurfaces surfaces_info)
    /\ np_random_choice (length surfaces_info)
         (advance w 0 [EvCall "read_from_precomputed_enumerations"; EvOpen path])
       = (Ok i, advance w 1 [EvCall "read_from_precomputed_enumerations"; EvOpen path;
                              EvRandom (length surfaces_info)])
    /\ i < length surfaces_info
    /\ surfaces_info !! i = Some (surface_struct, millers, shift, top)
    /\ adsorptions.tile_atoms (AseAtomsAdaptor_get_atoms surface_struct) = Ok tiled
    /\ adsorptions.tag_surface_atoms bulk_atoms tiled = Ok surface
    /\ s = str (Z.of_nat i) +:+ "/" +:+ str (Z.of_nat (length surfaces_info))
    /\ log w' = log w ++ evs
    /\ evs = [EvCall "read_from_precomputed_enumerations"; EvOpen path;
              EvRandom (length surfaces_info);
              EvCall "tile_atoms"; EvCall "tag_surface_atoms"]
    /\ (EvCall "enumerate_surfaces" ∉ evs)
    /\ draws w' = S (draws w)
    (* uniformly at random *)
    /\ i = rng w (draws w) `mod` length surfaces_info
    /\ (forall k j surface_struct_j millers_j shift_j top_j tiled_j surface_j,
          surfaces_info !! j = Some (surface_struct_j, millers_j, shift_j, top_j) ->
          adsorptions.tile_atoms (AseAtomsAdaptor_get_atoms surface_struct_j) = Ok tiled_j ->
          adsorptions.tag_surface_atoms bulk_atoms tiled_j = Ok surface_j ->
          count_draws
            (draw_returns_surface bulk_atoms index w
               (str (Z.of_nat j) +:+ "/" +:+ str (Z.of_nat (length surfaces_info))))
            (k * length surfaces_info) = k)
    (* tiled *)
    /\ (let unit_surface_atoms := AseAtomsAdaptor_get_atoms surface_struct in
        math_ceil (Float.div MIN_XY (np_linalg_norm (cell unit_surface_atoms).1.1)) = Ok nx
        /\ math_ceil (Float.div MIN_XY (np_linalg_norm (cell unit_surface_atoms).1.2)) = Ok ny
        /\ tiled = Atoms_repeat unit_surface_atoms (nx, ny, 1%Z))
    (* tagged *)
    /\ adsorptions._find_surface_atoms_with_voronoi bulk_atoms tiled = Ok voronoi_tags
    /\ adsorptions._find_surface_atoms_by_height tiled = Ok height_tags
    /\ get_tags surface = zip_with py_max2 voronoi_tags height_tags
    /\ (forall idx t,
          get_tags surface !! idx = Some t ->
          exists v_tag h_tag,
            voronoi_tags !! idx = Some v_tag
            /\ height_tags !! idx = Some h_tag
            /\ t = Z.max v_tag h_tag
            /\ (t = 0 \/ t = 1)%Z
            /\ (t = 1%Z <-> v_tag = 1%Z \/ h_tag = 1%Z))
    /\ len surface = len tiled
    /\ symbol <$> atoms surface = symbol <$> atoms tiled
    /\ position <$> atoms surface = position <$> atoms tiled
    /\ cell surface = cell tiled.
Proof.
  intros Hrun path. apply choose_surface_pkl_Ok in Hrun
    as (infos & i & st & tiled & Hfile & Hi & Hlt & Hget & Htile & Htag & Hs & Hw).
  fold path in Hfile, Hw.
  pose proof Htile as Htiled. unfold adsorptions.tile_atoms in Htiled.
  destruct (cell (AseAtomsAdaptor_get_atoms st)) as [[c0 c1] c2] eqn:Hcell.
  apply bind_Ok in Htiled as (nx & Hnx & (ny & Hny & [= Htiled])%bind_Ok).
  pose proof (tag_surface_atoms_Ok _ _ _ Htag) as (v & h & Hv & Hh & Htags & Hlen & _ & Hper).
  pose proof Htag as Hset. unfold adsorptions.tag_surface_atoms in Hset.
  apply bind_Ok in Hset as (v' & _ & (h' & _ & Hset)%bind_Ok).
  apply set_tags_Ok in Hset as (_ & _ & _ & Hcell' & Hsym & Hpos).
  exists infos, i, st, tiled. eexists. exists nx, ny, v, h.
  split_and!; try done.
  - apply np_random_choice_Ok. split_and!.
    + lia.
    + by rewrite Hi.
    + unfold advance. simpl. by rewrite <- app_assoc.
  - by rewrite Hw.
  - intros Hin. repeat (apply elem_of_cons in Hin as [Heq | Hin]; [discriminate|]).
    by apply elem_of_nil in Hin.
  - by rewrite Hw.
  - intros k j st_j mi_j sh_j tp_j tiled_j surface_j Hj Htile_j Htag_j.
    by eapply choose_surface_pkl_uniform.
  - cbv zeta. rewrite Hcell. simpl. by subst tiled.
Qed.

(** [choose_surface], the variant that does not read a file, does call
    [enumerate_surfaces]; it then stops at the name [random]. *)
Lemma choose_surface_enumerates bulk_atoms w surfaces_info :
  adsorptions.enumerate_surfaces bulk_atoms MAX_MILLER = Ok surfaces_info ->
  adsorptions.choose_surface bulk_atoms w
  = (Raise (NameError "random"), advance w 0 [EvCall "enumerate_surfaces"]).
Proof.
  intros Hall. unfold adsorptions.choose_surface, call, emit, liftR, raise, mbind, IO_bind.
  by rewrite Hall.
Qed.

End Claims.

Section MoreClaims.

Context `{constants : !Constants, libs : !Libs}.

(** C7, as amended.  The sampling string of the bare surface is
    [elem_bulk_surface] and that of the adsorbed surface is
    [elem_bulk_surface_adsorbate_configuration].  The components for the
    surface, the adsorbate and the configuration are
    [chosen index/number of choices]: the index is the one drawn, third,
    fourth and fifth draw of the run, in the entries of the file of
    surfaces of the chosen bulk, in the keys of the index of adsorbates, and
    in the reasonable configurations of the chosen adsorbate on the chosen
    surface, and the number is the number of these; the entry at the index is
    the one that the dictionaries return.  The component for the number of
    elements is [chosen number of elements/number of choices]; the
    component for the bulk is the string stored with the chosen bulk, the
    entry at the row of the second draw, in the inverted index. *)
Theorem sampling_strings bulk_database adsorbate_database weights w ad bd w' :
  adsorptions.sample_structures bulk_database adsorbate_database weights w
    = (Ok (ad, bd), w') ->
  exists n_elem n_choices inv_index entries bulk mpid index bulk_str
         i_surface n_surfaces i_adsorbate n_adsorbates i_config n_configs,
    n_elem ∈ (default adsorptions.default_weights weights).*1
    /\ n_choices = length (default adsorptions.default_weights weights)
    /\ files w !! bulk_database = Some (PklBulks inv_index)
    /\ inv_index !! n_elem = Some entries
    /\ (bulk, mpid, bulk_str, index) ∈ entries
    /\ i_surface < n_surfaces /\ i_adsorbate < n_adsorbates /\ i_config < n_configs
    /\ (let elem_str := str n_elem +:+ "/" +:+ str (Z.of_nat n_choices) in
        let surface_str := str (Z.of_nat i_surface) +:+ "/" +:+ str (Z.of_nat n_surfaces) in
        let adsorbate_str :=
          str (Z.of_nat i_adsorbate) +:+ "/" +:+ str (Z.of_nat n_adsorbates) in
        let config_str := str (Z.of_nat i_config) +:+ "/" +:+ str (Z.of_nat n_configs) in
        adsorptions.bulk_samplingstr bd
          = elem_str +:+ "_" +:+ bulk_str +:+ "_" +:+ surface_str
        /\ adsorptions.adsorbed_bulk_samplingstr ad
          = adsorptions.bulk_samplingstr bd +:+ "_" +:+ adsorbate_str +:+ "_" +:+ config_str)
    (* the number of elements: the key that the first draw picks *)
    /\ (exists i_elem,
          (default adsorptions.default_weights weights).*1 !! i_elem = Some n_elem
          /\ np_choice_index (default adsorptions.default_weights weights).*2
               (rng w (draws w)) = Ok i_elem)
    (* the bulk: the entry at the row of the second draw *)
    /\ entries !! (rng w (1 + draws w) `mod` length entries)
       = Some (bulk, mpid, bulk_str, index)
    /\ exists surfaces_info surface_struct millers shift top tiled surface
         ads_inv adsorbate smiles bond_indices
         adsorbate_gratoms adsorbed_surfaces reasonable_adsorbed_surfaces adsorbed sites,
         (* the surface: the entry at the index of the third draw *)
         files w !! (adsorptions.precomputed_path +:+ str index +:+ ".pkl")
           = Some (PklSurfaces surfaces_info)
         /\ n_surfaces = length surfaces_info
         /\ i_surface = rng w (2 + draws w) `mod` n_surfaces
         /\ surfaces_info !! i_surface = Some (surface_struct, millers, shift, top)
         /\ adsorptions.tile_atoms (AseAtomsAdaptor_get_atoms surface_struct) = Ok tiled
         /\ adsorptions.tag_surface_atoms bulk tiled = Ok surface
         (* the adsorbate: the entry at the key of the fourth draw *)
         /\ files w !! adsorbate_database = Some (PklAdsorbates ads_inv)
         /\ n_adsorbates = size ads_inv
         /\ i_adsorbate = rng w (3 + draws w) `mod` n_adsorbates
         /\ ads_inv !! i_adsorbate = Some (adsorbate, smiles, bond_indices)
         (* the configuration: the reasonable one at the index of the fifth draw *)
         /\ adsorptions.convert_adsorbate_atoms_to_gratoms adsorbate = Ok adsorbate_gratoms
         /\ Builder_add_adsorbate (surface_gratoms_of surface) adsorbate_gratoms bond_indices
            = Ok adsorbed_surfaces
         /\ filter_result
              (fun adslab =>
                 b ← adsorptions.is_config_reasonable adslab; Ok (bool_decide (b = true)))
              adsorbed_surfaces = Ok reasonable_adsorbed_surfaces
         /\ n_configs = length reasonable_adsorbed_surfaces
         /\ i_config = rng w (4 + draws w) `mod` n_configs
         /\ reasonable_adsorbed_surfaces !! i_config = Some adsorbed
         (* and these are what the two dictionaries hold *)
         /\ adsorptions.bulk_atomsobject bd = adsorptions.constrain_surface surface
         /\ adsorptions.bulk_metadata bd = (mpid, millers, py_round shift 3, top)
         /\ adsorptions.adsorbed_bulk_atomsobject ad = adsorptions.constrain_surface adsorbed
         /\ adsorptions.adsorbed_bulk_metadata ad
            = (mpid, millers, py_round shift 3, top, smiles, sites).
Proof.
  intros Hrun. apply sample_structures_Ok in Hrun
    as (n_elems & es & bulk & mpid & index & bs & surface & millers & shift & top & ss
        & adsorbate & smiles & bonds & as_ & adsorbed & cs & sites
        & w1 & w2 & w3 & w4 & w5 & Hn & Hb & Hs & Ha & Hc & Hsites & -> & -> & ->).
  apply choose_n_elems_Ok in Hn as (i1 & Hkey & Hpick & -> & ->).
  apply choose_bulk_pkl_Ok in Hb
    as (inv & entries & row & Hfile & Hentries & -> & Hrow & ->).
  apply choose_surface_pkl_Ok in Hs
    as (infos & i3 & st & tiled & Hfile3 & -> & Hlt3 & Hget3 & Htile & Htag & -> & ->).
  apply choose_adsorbate_pkl_Ok in Ha
    as (ainv & el & Hfile4 & -> & Hlt4 & Hget4 & -> & ->).
  apply add_adsorbate_onto_surface_Ok in Hc
    as (ag & cfgs & good & j & Hconv & Hbuild & Hfilter & -> & Hlt5 & Hget5 & -> & _).
  simpl in *.
  eexists n_elems, (length (default adsorptions.default_weights weights)), inv, entries,
    bulk, mpid, index, bs, _, (length infos), _, (size ainv), _, (length good).
  split_and!; try done.
  - by eapply list_elem_of_lookup_2.
  - by eapply list_elem_of_lookup_2.
  - by exists i1.
  - exists infos, st, millers, shift, top, tiled, surface, ainv, adsorbate, smiles, bonds,
      ag, cfgs, good, adsorbed, sites.
    split_and!; done.
Qed.

(** C8.  The result of [enumerate_surfaces] does not depend on its
    [max_miller] argument: the Miller indices it enumerates are those up to
    the constant [MAX_MILLER]. *)
Theorem enumerate_surfaces_ignores_max_miller (bulk_atoms : Atoms) (m1 m2 : Z) :
  adsorptions.enumerate_surfaces bulk_atoms m1 = adsorptions.enumerate_surfaces bulk_atoms m2
  /\ forall all_slabs_info struct millers shift top,
       adsorptions.enumerate_surfaces bulk_atoms m1 = Ok all_slabs_info ->
       (struct, millers, shift, top) ∈ all_slabs_info ->
       millers ∈ get_symmetrically_distinct_miller_indices
                   (adsorptions.standardize_bulk bulk_atoms) MAX_MILLER.
Proof.
  split; [reflexivity|].
  unfold adsorptions.enumerate_surfaces.
  intros infos struct millers shift top (all & Hall%for_each_Ok & [= <-])%bind_Ok Hin.
  apply list_elem_of_join in Hin as (l & Hin & Hl).
  apply list_elem_of_lookup in Hl as (i & Hi).
  destruct (Forall2_lookup_r _ _ _ _ _ Hall Hi) as (mi & Hmi & Hslabs).
  unfold adsorptions.slabs_info_of in Hslabs.
  apply bind_Ok in Hslabs as (ni & _ & [= <-]).
  assert (millers = mi) as ->; [|by eapply list_elem_of_lookup_2].
  apply elem_of_app in Hin as [Hin | Hin];
    apply list_elem_of_fmap in Hin as (slab & [= _ -> _ _] & _); done.
Qed.

(** C9.  When the inverted index maps the number of elements to an empty
    list, [choose_bulk_pkl] raises the [ValueError] of [np.random.choice],
    as it is, after opening the file; and the [try] block never raises
    [IndexError], so the handler that would announce the missing material
    is never entered. *)
Theorem choose_bulk_pkl_empty bulk_database n_elems inv_index w :
  files w !! bulk_database = Some (PklBulks inv_index) ->
  inv_index !! n_elems = Some [] ->
  adsorptions.choose_bulk_pkl bulk_database n_elems w
    = (Raise (ValueError "a must be greater than 0 unless no samples are taken"),
       advance w 0 [EvOpen bulk_database])
  /\ forall inv n w0 e w1,
       adsorptions.choose_bulk_pkl_try inv n w0 = (Raise e, w1) ->
       forall msg, e <> IndexError msg.
Proof.
  intros Hfile Hentries. split.
  - unfold adsorptions.choose_bulk_pkl, pickle_load, emit, read_file, mbind, IO_bind.
    simpl. rewrite Hfile. simpl. rewrite Hentries. simpl.
    unfold try_except_io, adsorptions.choose_bulk_pkl_try, mbind, IO_bind, liftR,
      adsorptions.dict_getitem.
    rewrite Hentries. simpl. reflexivity.
  - intros inv n w0 e w1.
    unfold adsorptions.choose_bulk_pkl_try, mbind, IO_bind, liftR, adsorptions.dict_getitem.
    destruct (inv !! n) as [entries|]; [|by intros [= <- _] msg].
    unfold np_random_choice. case_decide as Hlen; [by intros [= <- _] msg|].
    destruct (getitem_not_IndexError_in_range entries (rng w0 (draws w0) `mod` length entries))
      as [[[[b m] ss] ix] Hget]; [by apply Nat.mod_upper_bound|].
    unfold BulkEntry in *. simpl. rewrite Hget. discriminate.
Qed.

End MoreClaims.

(** ** The class [Combined] *)

Section CombinedClass.

Context `{constants : !Constants, libs : !Libs}.

Lemma filter_result_ext {A} (p q : A -> Result bool) l :
  (forall x, p x = q x) -> filter_result p l = filter_result q l.
Proof. intros Hpq. induction l as [|x l IH]; [done|]. simpl. by rewrite Hpq, IH. Qed.

Lemma all_result_ext {A} (f g : A -> Result bool) l :
  (forall x, f x = g x) -> all_result f l = all_result g l.
Proof. intros Hfg. induction l as [|x l IH]; [done|]. simpl. by rewrite Hfg, IH. Qed.

Lemma neighbor_far_enough_agree adslab structure idx nn :
  combined.neighbor_far_enough adslab structure idx nn
  = adsorptions.neighbor_far_enough adslab structure idx nn.
Proof.
  unfold combined.neighbor_far_enough, adsorptions.neighbor_far_enough,
    adsorptions.cov_bond_thres_of.
  destruct (getitem (structure_sites structure) idx) as [site|]; [|done]. simpl.
  destruct (getitem (structure_sites structure) nn) as [nn_site|]; [|done]. simpl.
  destruct (adsorptions.dict_getitem COVALENT_RADIUS (species_string site) _); [|done]. simpl.
  by destruct (adsorptions.dict_getitem COVALENT_RADIUS (species_string nn_site) _).
Qed.

Lemma is_config_reasonable_agree self adslab :
  combined.is_config_reasonable self adslab = adsorptions.is_config_reasonable adslab.
Proof.
  unfold combined.is_config_reasonable, adsorptions.is_config_reasonable.
  apply all_result_ext. intros idx. unfold adsorptions.adsorbate_atom_reasonable.
  destruct (getitem _ idx) as [site|]; [|done]. simpl.
  destruct (adsorptions.outside_unit_cell _); [done|].
  destruct (VoronoiNN_get_nn_info _ idx) as [nns|]; [|done]. simpl.
  apply all_result_ext. intros nn. apply neighbor_far_enough_agree.
Qed.

(** [r is True] and the truth value of [r] agree on a Boolean. *)
Lemma is_True_truthy (r : Result bool) : (b ← r; Ok (bool_decide (b = true))) = r.
Proof. by destruct r as [[]|]. Qed.

(** C10.  Each of the five methods of [Combined] computes what the
    function of the same name in [adsorptions] computes from the same
    arguments (the method takes the adsorbate before the surface, the
    function the surface before the adsorbate).
    [add_adsorbate_onto_surface] runs to the same world, raises the same
    exception, and leaves in two attributes the pair that the function
    returns. *)
Theorem Combined_methods_agree (self : combined.Combined) :
  (forall adsorbate,
     combined.get_connectivity self adsorbate = adsorptions.get_connectivity adsorbate)
  /\ (forall adsorbate,
        combined.convert_adsorbate_atoms_to_gratoms self adsorbate
        = adsorptions.convert_adsorbate_atoms_to_gratoms adsorbate)
  /\ (forall adslab,
        combined.is_config_reasonable self adslab = adsorptions.is_config_reasonable adslab)
  /\ (forall surface adsorbed_surface bond_indices,
        combined.find_sites self surface adsorbed_surface bond_indices
        = adsorptions.find_sites surface adsorbed_surface bond_indices)
  /\ (forall adsorbate surface bond_indices w,
        combined.add_adsorbate_onto_surface self adsorbate surface bond_indices w
        = match adsorptions.add_adsorbate_onto_surface surface adsorbate bond_indices w with
          | (Ok (adsorbed, s), w') => (Ok (with_adsorbed self adsorbed s), w')
          | (Raise e, w') => (Raise e, w')
          end).
Proof.
  pose proof (is_config_reasonable_agree self) as Hreasonable.
  split_and!; try reflexivity; [done|].
  intros adsorbate surface bond_indices w.
  unfold combined.add_adsorbate_onto_surface, adsorptions.add_adsorbate_onto_surface.
  change (combined.convert_adsorbate_atoms_to_gratoms self adsorbate)
    with (adsorptions.convert_adsorbate_atoms_to_gratoms adsorbate).
  unfold mbind at 1 6, IO_bind, liftR.
  destruct (adsorptions.convert_adsorbate_atoms_to_gratoms adsorbate) as [ag|]; [|done].
  unfold mbind at 1 5, IO_bind.
  destruct (Builder_add_adsorbate _ ag bond_indices) as [cfgs|]; [|done].
  rewrite (filter_result_ext
             (fun surface => b ← adsorptions.is_config_reasonable surface;
                             Ok (bool_decide (b = true)))
             (combined.is_config_reasonable self)).
  2:{ intros x. rewrite Hreasonable. apply is_True_truthy. }
  unfold mbind, IO_bind, mret, IO_ret.
  destruct (filter_result _ cfgs) as [good|]; [|done].
  destruct (np_random_choice (length good) w) as [[i|] w1]; [|done].
  by destruct (getitem good i).
Qed.

End CombinedClass.

(** * More properties of the sampler *)

Section Choosers.

Context `{constants : !Constants, libs : !Libs}.

(** X1.  [choose_surface] never returns a surface.  It enumerates the
    surfaces first; when the enumeration raises, that exception leaves the
    function, and when it returns, the name [random] is not defined. *)
Theorem choose_surface_never_returns (bulk_atoms : Atoms) (w : World) :
  adsorptions.choose_surface bulk_atoms w
  = (Raise match adsorptions.enumerate_surfaces bulk_atoms MAX_MILLER with
           | Ok _ => NameError "random"
           | Raise e => e
           end,
     advance w 0 [EvCall "enumerate_surfaces"])
  /\ forall r w', adsorptions.choose_surface bulk_atoms w <> (Ok r, w').
Proof.
  assert (adsorptions.choose_surface bulk_atoms w
          = (Raise match adsorptions.enumerate_surfaces bulk_atoms MAX_MILLER with
                   | Ok _ => NameError "random"
                   | Raise e => e
                   end,
             advance w 0 [EvCall "enumerate_surfaces"])) as Hrun.
  { unfold adsorptions.choose_surface, call, emit, liftR, raise, mbind, IO_bind.
    by destruct (adsorptions.enumerate_surfaces bulk_atoms MAX_MILLER). }
  split; [done|]. intros r w'. by rewrite Hrun.
Qed.

(** X3.  When the inverted index has a list that is not empty for the
    number of elements, [choose_bulk_pkl] returns: it takes the entry at the
    drawn row, hands back its bulk, MPID, index and sampling string (the
    last two in the other order than they are stored), and uses one draw. *)
Theorem choose_bulk_pkl_returns bulk_database n_elems inv_index entries w :
  files w !! bulk_database = Some (PklBulks inv_index) ->
  inv_index !! n_elems = Some entries ->
  entries ≠ [] ->
  exists bulk mpid s index,
    entries !! (rng w (draws w) `mod` length entries) = Some (bulk, mpid, s, index)
    /\ adsorptions.choose_bulk_pkl bulk_database n_elems w
       = (Ok (bulk, mpid, index, s),
          advance w 1 [EvOpen bulk_database; EvRandom (length entries)]).
Proof.
  intros Hfile Hentries Hne%length_nonempty.
  destruct (lookup_lt_is_Some_2 entries (rng w (draws w) `mod` length entries))
    as [[[[bulk mpid] s] index] Hrow]; [by apply Nat.mod_upper_bound|].
  exists bulk, mpid, s, index. split; [done|].
  unfold adsorptions.choose_bulk_pkl.
  rewrite (bind_io_run _ _ _ _ _ (pickle_load_run _ _ _ Hfile)). simpl.
  unfold mbind at 1, IO_bind, mret, IO_ret.
  unfold mbind at 1, IO_bind, assert. rewrite Hentries. simpl.
  unfold try_except_io, adsorptions.choose_bulk_pkl_try.
  unfold mbind at 1, IO_bind, liftR, adsorptions.dict_getitem. rewrite Hentries.
  rewrite (bind_io_run _ _ _ _ _ (np_random_choice_run _ _ Hne)). simpl.
  unfold mbind, IO_bind, getitem. unfold BulkEntry in *. rewrite Hrow. simpl.
  unfold advance. simpl. by rewrite <- app_assoc.
Qed.

Lemma choose_bulk_pkl_no_key bulk_database n_elems inv_index w :
  files w !! bulk_database = Some (PklBulks inv_index) ->
  inv_index !! n_elems = None ->
  adsorptions.choose_bulk_pkl bulk_database n_elems w
  = (Raise AssertionError, advance w 0 [EvOpen bulk_database]).
Proof.
  intros Hfile Hkey. unfold adsorptions.choose_bulk_pkl.
  rewrite (bind_io_run _ _ _ _ _ (pickle_load_run _ _ _ Hfile)). simpl.
  unfold mbind at 1, IO_bind, mret, IO_ret.
  unfold mbind at 1, IO_bind, assert. by rewrite Hkey.
Qed.

(** X4.  When the chosen number of elements is not a key of the inverted
    index of bulks, [sample_structures] stops with [AssertionError] right
    after opening the file of bulks: no surface file and no adsorbate file is
    opened, and no further draw is made. *)
Theorem sample_structures_no_bulk_for_n_elems bulk_database adsorbate_database weights
    inv_index w n_elems elem_str w1 :
  adsorptions.choose_n_elems weights (advance w 0 [EvCall "choose_n_elems"])
    = (Ok (n_elems, elem_str), w1) ->
  files w !! bulk_database = Some (PklBulks inv_index) ->
  inv_index !! n_elems = None ->
  adsorptions.sample_structures bulk_database adsorbate_database weights w
  = (Raise AssertionError,
     advance w1 0 [EvCall "choose_bulk_pkl"; EvOpen bulk_database]).
Proof.
  intros Hn Hfile Hkey. unfold adsorptions.sample_structures.
  assert (files w1 = files w) as Hfiles.
  { by apply choose_n_elems_Ok in Hn as (_ & _ & _ & _ & ->). }
  rewrite (bind_io_run _ _ _ _ _ (eq_trans (call_run _ _ _) Hn)).
  apply bind_io_raise. rewrite call_run.
  rewrite choose_bulk_pkl_no_key with (inv_index := inv_index);
    [|simpl; by rewrite Hfiles|done].
  unfold advance. simpl. by rewrite <- app_assoc.
Qed.

(** X5.  [choose_adsorbate_pkl] indexes the inverted index of adsorbates
    with a number below its size.  When the keys are [0 .. n-1] and there is
    at least one, it returns the entry of the drawn key with the string
    [key/size]. *)
Theorem choose_adsorbate_pkl_returns adsorbate_database inv_index w :
  files w !! adsorbate_database = Some (PklAdsorbates inv_index) ->
  size inv_index ≠ 0 ->
  (forall i, i < size inv_index -> is_Some (inv_index !! i)) ->
  exists atoms_ smiles bond_indices,
    let element := rng w (draws w) `mod` size inv_index in
    inv_index !! element = Some (atoms_, smiles, bond_indices)
    /\ adsorptions.choose_adsorbate_pkl adsorbate_database w
       = (Ok (atoms_, smiles, bond_indices,
              str (Z.of_nat element) +:+ "/" +:+ str (Z.of_nat (size inv_index))),
          advance w 1 [EvOpen adsorbate_database; EvRandom (size inv_index)]).
Proof.
  intros Hfile Hsize Hdense.
  destruct (Hdense (rng w (draws w) `mod` size inv_index))
    as [[[atoms_ smiles] bonds] Hget]; [by apply Nat.mod_upper_bound|].
  exists atoms_, smiles, bonds. split; [done|].
  unfold adsorptions.choose_adsorbate_pkl.
  rewrite (bind_io_run _ _ _ _ _ (pickle_load_run _ _ _ Hfile)). simpl.
  unfold mbind at 1, IO_bind, mret, IO_ret.
  rewrite (bind_io_run _ _ _ _ _ (np_random_choice_run _ _ Hsize)). simpl.
  unfold mbind, IO_bind, liftR, adsorptions.dict_getitem.
  unfold AdsorbateEntry in *. rewrite Hget. simpl.
  unfold advance. simpl. by rewrite <- app_assoc.
Qed.

(** X6.  When the file of precomputed surfaces of the bulk holds an empty
    list, [choose_surface_pkl] raises the [ValueError] of [np.random.choice]
    after reading the file; nothing is tiled or tagged. *)
Theorem choose_surface_pkl_no_surfaces bulk_atoms index w :
  let path := adsorptions.precomputed_path +:+ str index +:+ ".pkl" in
  files w !! path = Some (PklSurfaces []) ->
  adsorptions.choose_surface_pkl bulk_atoms index w
  = (Raise (ValueError "a must be greater than 0 unless no samples are taken"),
     advance w 0 [EvCall "read_from_precomputed_enumerations"; EvOpen path]).
Proof.
  intros path Hfile. unfold adsorptions.choose_surface_pkl.
  rewrite bind_io_run with (a := []) (w1 := advance w 0 [EvCall "read_from_precomputed_enumerations"; EvOpen path]).
  - simpl. apply bind_io_raise. apply np_random_choice_zero.
  - rewrite call_run. unfold adsorptions.read_from_precomputed_enumerations.
    rewrite (bind_io_run _ _ _ _ _
               (pickle_load_run path
                  (advance w 0 [EvCall "read_from_precomputed_enumerations"]) _ Hfile)).
    simpl.
    unfold mret, IO_ret, advance. simpl. by rewrite <- app_assoc.
Qed.

(** X7.  [choose_surface_pkl] returns whenever the entry at the drawn index
    can be tiled and tagged: the tagged surface, the Miller indices, shift
    and top flag of the entry, and the string [index/number of entries]. *)
Theorem choose_surface_pkl_returns bulk_atoms index w surfaces_info
    surface_struct millers shift top tiled surface :
  let path := adsorptions.precomputed_path +:+ str index +:+ ".pkl" in
  let i := rng w (draws w) `mod` length surfaces_info in
  files w !! path = Some (PklSurfaces surfaces_info) ->
  surfaces_info !! i = Some (surface_struct, millers, shift, top) ->
  adsorptions.tile_atoms (AseAtomsAdaptor_get_atoms surface_struct) = Ok tiled ->
  adsorptions.tag_surface_atoms bulk_atoms tiled = Ok surface ->
  adsorptions.choose_surface_pkl bulk_atoms index w
  = (Ok (surface, millers, shift, top,
         str (Z.of_nat i) +:+ "/" +:+ str (Z.of_nat (length surfaces_info))),
     advance w 1 [EvCall "read_from_precomputed_enumerations"; EvOpen path;
                  EvRandom (length surfaces_info);
                  EvCall "tile_atoms"; EvCall "tag_surface_atoms"]).
Proof.
  intros path i Hfile Hget Htile Htag.
  assert (length surfaces_info ≠ 0) as Hne.
  { intros Hlen. apply nil_length_inv in Hlen. subst surfaces_info. discriminate Hget. }
  unfold adsorptions.choose_surface_pkl.
  rewrite bind_io_run with (a := surfaces_info)
    (w1 := advance w 0 [EvCall "read_from_precomputed_enumerations"; EvOpen path]).
  2:{ rewrite call_run. unfold adsorptions.read_from_precomputed_enumerations.
      rewrite (bind_io_run _ _ _ _ _
                 (pickle_load_run path
                    (advance w 0 [EvCall "read_from_precomputed_enumerations"]) _ Hfile)).
      simpl.
      unfold mret, IO_ret, advance. simpl. by rewrite <- app_assoc. }
  rewrite (bind_io_run _ _ _ _ _ (np_random_choice_run _ _ Hne)). simpl.
  unfold mbind at 1, IO_bind, liftR, getitem. fold i.
  unfold SurfaceInfo in *. rewrite Hget. simpl.
  unfold mbind at 1, IO_bind. rewrite call_run. unfold liftR. rewrite Htile. simpl.
  unfold mbind at 1, IO_bind. rewrite call_run. unfold liftR. rewrite Htag. simpl.
  unfold mret, IO_ret, advance. simpl. by rewrite <- !app_assoc.
Qed.

End Choosers.

(** ** The database chooser, the files of surfaces, the enumeration *)

Section ChooseBulk.

Variable select : string -> Z -> Result (list ase_db.Row).

(** X2.  [choose_bulk] draws its row before the [try] block.  When the
    database has no row for the number of elements, the [ValueError] of
    [np.random.choice] on an empty sequence leaves the function as it is.
    Otherwise the row at the drawn index is returned as (atoms, MPID), or
    [AttributeError] when the row has no MPID.  The [try] block does not
    raise [IndexError] on an index within the rows, so the message about the
    missing material is never produced. *)
Theorem choose_bulk_spec bulk_database n_elems rows w :
  select bulk_database n_elems = Ok rows ->
  (rows = [] ->
   ase_db.choose_bulk select bulk_database n_elems w
   = (Raise (ValueError "'a' cannot be empty unless no samples are taken"),
      advance w 0 [EvOpen bulk_database]))
  /\ (rows ≠ [] ->
      exists row,
        rows !! (rng w (draws w) `mod` length rows) = Some row
        /\ ase_db.choose_bulk select bulk_database n_elems w
           = (match ase_db.mpid row with
              | Some m => Ok (ase_db.toatoms row, m)
              | None => Raise (AttributeError "mpid")
              end,
              advance w 1 [EvOpen bulk_database; EvRandom (length rows)]))
  /\ (forall row_index w0 e w1,
        row_index < length rows ->
        ase_db.choose_bulk_try rows row_index w0 = (Raise e, w1) ->
        forall msg, e <> IndexError msg).
Proof.
  intros Hselect. split_and!.
  - intros ->. unfold ase_db.choose_bulk, emit, liftR, mbind, IO_bind.
    by rewrite Hselect.
  - intros Hne%length_nonempty.
    destruct (lookup_lt_is_Some_2 rows (rng w (draws w) `mod` length rows))
      as [row Hrow]; [by apply Nat.mod_upper_bound|].
    exists row. split; [done|].
    unfold ase_db.choose_bulk, emit, liftR, mbind, IO_bind. rewrite Hselect.
    unfold np_random_choice_range. rewrite decide_False by done. simpl.
    unfold try_except_io, ase_db.choose_bulk_try, liftR, mbind, IO_bind, getitem.
    rewrite Hrow. unfold ase_db.row_mpid.
    destruct (ase_db.mpid row); simpl; unfold advance; simpl; by rewrite <- app_assoc.
  - intros row_index w0 e w1 Hlt.
    destruct (lookup_lt_is_Some_2 rows row_index Hlt) as [row Hrow].
    unfold ase_db.choose_bulk_try, liftR, mbind, IO_bind, getitem. rewrite Hrow.
    unfold ase_db.row_mpid. destruct (ase_db.mpid row); simpl; [discriminate|].
    by intros [= <- _] msg.
Qed.

End ChooseBulk.

(** X8.  The files of precomputed surfaces of two bulks are two files: the
    name of the file determines the index of the bulk. *)
Theorem precomputed_file_of_one_bulk (index1 index2 : Z) :
  index1 ≠ index2 ->
  adsorptions.precomputed_path +:+ str index1 +:+ ".pkl"
  ≠ adsorptions.precomputed_path +:+ str index2 +:+ ".pkl".
Proof.
  intros Hne Heq. apply Hne.
  apply String.app_inj in Heq. apply string_app_inv_tail in Heq.
  by apply (inj pretty).
Qed.

Section Enumeration.

Context `{constants : !Constants, libs : !Libs}.

Lemma filter_result_elem {A} (p : A -> Result bool) (l l' : list A) :
  filter_result p l = Ok l' ->
  forall x, x ∈ l -> p x = Ok true -> x ∈ l'.
Proof.
  revert l'. induction l as [|y l IH]; intros l'.
  - intros _ x Hx. by apply elem_of_nil in Hx.
  - cbn [filter_result]. rewrite bind_Ok. intros (b & Hb & Hrest).
    apply bind_Ok in Hrest as (ys & Hys & [= <-]).
    intros x [-> | Hx]%elem_of_cons Hp.
    + assert (b = true) as -> by congruence. left.
    + destruct b; [right|]; by eapply IH.
Qed.

Lemma filter_result_length {A} (p : A -> Result bool) (l l' : list A) :
  filter_result p l = Ok l' -> length l' <= length l.
Proof.
  revert l'. induction l as [|y l IH]; intros l'.
  - by intros [= <-].
  - cbn [filter_result]. rewrite bind_Ok. intros (b & Hb & Hrest).
    apply bind_Ok in Hrest as (ys & Hys & [= <-]).
    specialize (IH ys Hys). destruct b; simpl; lia.
Qed.

Lemma not_invertible_iff (slab : Slab) :
  (b ← adsorptions.is_structure_invertible (slab_structure slab); Ok (negb b)) = Ok true
  <-> adsorptions.is_structure_invertible (slab_structure slab) = Ok false.
Proof.
  destruct (adsorptions.is_structure_invertible _) as [[]|]; simpl; split; congruence.
Qed.

(** X9.  What [enumerate_surfaces] enumerates.  Each entry comes from a
    slab of its Miller index and has the shift of that slab; an entry with
    top flag [True] is the slab itself, an entry with [False] is the flip of
    a slab that [is_structure_invertible] found not invertible.  And each
    slab of each enumerated Miller index is there with [True], and flipped
    with [False] when it is not invertible. *)
Theorem enumerate_surfaces_entries (bulk_atoms : Atoms) (max_miller : Z)
    (all_slabs_info : list SurfaceInfo) :
  adsorptions.enumerate_surfaces bulk_atoms max_miller = Ok all_slabs_info ->
  let bulk_struct := adsorptions.standardize_bulk bulk_atoms in
  (forall struct millers shift top,
     (struct, millers, shift, top) ∈ all_slabs_info ->
     exists slab,
       slab ∈ SlabGenerator_get_slabs bulk_struct millers
       /\ shift = slab_shift slab
       /\ if top : bool then struct = slab_structure slab
          else struct = adsorptions.flip_struct (slab_structure slab)
               /\ adsorptions.is_structure_invertible (slab_structure slab) = Ok false)
  /\ (forall millers slab,
        millers ∈ get_symmetrically_distinct_miller_indices bulk_struct MAX_MILLER ->
        slab ∈ SlabGenerator_get_slabs bulk_struct millers ->
        (slab_structure slab, millers, slab_shift slab, true) ∈ all_slabs_info
        /\ (adsorptions.is_structure_invertible (slab_structure slab) = Ok false ->
            (adsorptions.flip_struct (slab_structure slab), millers, slab_shift slab, false)
              ∈ all_slabs_info)).
Proof.
  intros Hrun bulk_struct. unfold adsorptions.enumerate_surfaces in Hrun.
  cbv zeta in Hrun. apply bind_Ok in Hrun as (all & Hall%for_each_Ok & [= <-]).
  fold bulk_struct in Hall. split.
  - intros struct millers shift top (l & Hin & Hl)%list_elem_of_join.
    apply list_elem_of_lookup in Hl as (i & Hi).
    destruct (Forall2_lookup_r _ _ _ _ _ Hall Hi) as (mi & Hmi & Hslabs).
    unfold adsorptions.slabs_info_of in Hslabs.
    apply bind_Ok in Hslabs as (ni & Hni & [= <-]).
    apply elem_of_app in Hin as [Hin | Hin];
      apply list_elem_of_fmap in Hin as (slab & [= -> -> -> ->] & Hslab).
    + by exists slab.
    + destruct (filter_result_Ok _ _ _ Hni _ Hslab) as [Hslab' Hnot%not_invertible_iff].
      by exists slab.
  - intros millers slab (i & Hi)%list_elem_of_lookup Hslab.
    destruct (Forall2_lookup_l _ _ _ _ _ Hall Hi) as (l & Hl & Hslabs).
    unfold adsorptions.slabs_info_of in Hslabs.
    apply bind_Ok in Hslabs as (ni & Hni & [= <-]).
    apply list_elem_of_lookup_2 in Hl. split.
    + apply list_elem_of_join. eexists. split; [|exact Hl].
      apply elem_of_app. left. apply list_elem_of_fmap. by exists slab.
    + intros Hnot%not_invertible_iff.
      apply list_elem_of_join. eexists. split; [|exact Hl].
      apply elem_of_app. right. apply list_elem_of_fmap. exists slab. split; [done|].
      by eapply filter_result_elem.
Qed.

(** X10.  On symmetry operations whose matrices have an entry in row 2,
    column 2, [is_structure_invertible] returns, and it returns [True]
    exactly when that entry of some operation is equal to -1. *)
Theorem is_structure_invertible_spec (structure : Structure) :
  let operations := get_symmetry_operations structure in
  Forall (fun xform_matrix : list (list float) =>
            exists row z, xform_matrix !! 2 = Some row /\ row !! 2 = Some z) operations ->
  exists b,
    adsorptions.is_structure_invertible structure = Ok b
    /\ (b = true <->
        exists xform_matrix row z_xform,
          xform_matrix ∈ operations
          /\ xform_matrix !! 2 = Some row
          /\ row !! 2 = Some z_xform
          /\ Float.eqb z_xform Float.minus_one = true).
Proof.
  unfold adsorptions.is_structure_invertible.
  induction (get_symmetry_operations structure) as [|op ops IH]; intros Hwf.
  - exists false. split; [done|]. split; [done|].
    intros (op & ? & ? & Hin & _). by apply elem_of_nil in Hin.
  - inversion Hwf as [|? ? (row & z & Hrow & Hz) Hwf']; subst.
    cbn [adsorptions.any_z_xform_is_minus_one].
    rewrite (proj2 (getitem_Ok _ _ _) Hrow). simpl.
    rewrite (proj2 (getitem_Ok _ _ _) Hz). simpl.
    destruct (Float.eqb z Float.minus_one) eqn:Heq.
    + exists true. split; [done|]. split; [|done]. intros _.
      exists op, row, z. split_and!; try done. left.
    + destruct (IH Hwf') as (b & Hb & Hiff). exists b. split; [done|].
      rewrite Hiff. split.
      * intros (op' & row' & z' & Hin & Hr & Hz' & Heq').
        exists op', row', z'. split_and!; try done. by right.
      * intros (op' & row' & z' & [-> | Hin]%elem_of_cons & Hr & Hz' & Heq').
        -- congruence.
        -- by exists op', row', z'.
Qed.

End Enumeration.

(** ** More on the tags *)

Lemma leb_true_not_nan (x y : float) :
  Float.leb x y = true -> Float.is_nan x = false /\ Float.is_nan y = false.
Proof.
  unfold Float.leb, SFleb.
  destruct x as [sx|sx| |sx mx ex], y as [sy|sy| |sy my ey]; simpl; intros; try discriminate; done.
Qed.

Lemma leb_ltb_trans (x y z : float) :
  Float.leb x y = true -> Float.ltb y z = true -> Float.ltb x z = true.
Proof.
  intros Hxy Hyz.
  destruct (leb_true_not_nan _ _ Hxy) as [Hx Hy].
  destruct (FloatFacts.ltb_not_nan _ _ Hyz) as [_ Hz].
  apply FloatOrder.leb_key in Hxy; [|done..].
  apply FloatOrder.ltb_key in Hyz; [|done..].
  apply FloatOrder.ltb_key; [done..|].
  destruct (FloatOrder.lex_total (float_key x) (float_key y)) as [Hlt | [Hlt | Heq]].
  - by eapply FloatOrder.lex_lt_trans.
  - done.
  - by rewrite <- Heq.
Qed.

Lemma eqb_sym (x y : float) : Float.eqb x y = Float.eqb y x.
Proof.
  unfold Float.eqb, SFeqb. rewrite (FloatFacts.compare_antisym x y).
  by destruct (SFcompare x y) as [[]|].
Qed.

Section MoreTags.

Context `{constants : !Constants, libs : !Libs}.

(** X11.  The height tags are upward closed: when an atom is tagged 1 by
    [_find_surface_atoms_by_height], so is every atom whose scaled
    z-coordinate is at least as great. *)
Theorem height_tags_upward_closed (surface_atoms : Atoms) (tags : list Z)
    (i j : nat) (z_i z_j : float) :
  adsorptions._find_surface_atoms_by_height surface_atoms = Ok tags ->
  (vz <$> Atoms_get_scaled_positions surface_atoms) !! i = Some z_i ->
  (vz <$> Atoms_get_scaled_positions surface_atoms) !! j = Some z_j ->
  tags !! i = Some 1%Z ->
  Float.leb z_i z_j = true ->
  tags !! j = Some 1%Z.
Proof.
  unfold adsorptions._find_surface_atoms_by_height.
  destruct (cell surface_atoms) as [[c0 c1] c2].
  intros (m & _ & [= <-])%bind_Ok Hi Hj Hti Hle.
  rewrite list_lookup_fmap in Hi. rewrite list_lookup_fmap in Hj.
  rewrite list_lookup_fmap in Hti. rewrite list_lookup_fmap.
  destruct (Atoms_get_scaled_positions surface_atoms !! i) as [sp_i|]; [|done].
  destruct (Atoms_get_scaled_positions surface_atoms !! j) as [sp_j|]; [|done].
  simpl in *. injection Hi as <-. injection Hj as <-.
  destruct (Float.ltb (vz sp_j) _) eqn:Hlt; [|done].
  by rewrite (leb_ltb_trans _ _ _ Hle Hlt) in Hti.
Qed.

(** X12.  A site above the centre of mass whose element has no
    coordination number recorded from the bulk, and whose own coordination
    number can be computed, makes [_find_surface_atoms_with_voronoi] fail:
    [min] is called on an empty set, and the [ValueError] is not caught. *)
Theorem voronoi_unknown_element (bulk_atoms surface_atoms : Atoms)
    (center_of_mass : vec3) (bulk_cn_dict : gmap string (list float))
    (idx : nat) (site : Site) (cn : float) :
  let surface_struct := AseAtomsAdaptor_get_structure surface_atoms in
  adsorptions.calculate_center_of_mass surface_struct = Ok center_of_mass ->
  adsorptions.calculate_coordination_of_bulk_atoms bulk_atoms = Ok bulk_cn_dict ->
  structure_sites surface_struct !! idx = Some site ->
  Float.gtb (vz (frac_coords site)) (vz center_of_mass) = true ->
  VoronoiNN_get_cn adsorptions.tol_0_1 surface_struct idx = Ok cn ->
  bulk_cn_dict !! species_string site = None ->
  adsorptions.voronoi_tag surface_struct center_of_mass bulk_cn_dict idx site
    = Raise (ValueError "min() arg is an empty sequence")
  /\ forall tags,
       adsorptions._find_surface_atoms_with_voronoi bulk_atoms surface_atoms <> Ok tags.
Proof.
  intros surface_struct Hcom Hdict Hsite Hgt Hcn Hnone.
  assert (adsorptions.voronoi_tag surface_struct center_of_mass bulk_cn_dict idx site
          = Raise (ValueError "min() arg is an empty sequence")) as Htag.
  { unfold adsorptions.voronoi_tag. rewrite Hgt, Hcn, Hnone. done. }
  split; [done|]. intros tags Hrun.
  unfold adsorptions._find_surface_atoms_with_voronoi in Hrun.
  fold surface_struct in Hrun. rewrite Hcom, Hdict in Hrun. simpl in Hrun.
  apply for_each_Ok in Hrun.
  destruct (Forall2_lookup_l _ _ _ idx (idx, site) Hrun (enumerate_lookup _ _ _ Hsite))
    as (t & _ & Ht).
  simpl in Ht. congruence.
Qed.

Lemma existsb_eqb_false x (s : list float) y :
  existsb (Float.eqb x) s = false -> y ∈ s -> Float.eqb x y = false.
Proof.
  intros Hex Hin. destruct (Float.eqb x y) eqn:Heq; [|done].
  rewrite <- Hex. symmetry. apply existsb_exists. exists y.
  split; [by apply list_elem_of_In | done].
Qed.

Lemma set_add_distinct x s :
  distinct_members s -> distinct_members (set_add x s) /\ set_add x s ≠ [].
Proof.
  intros Hs. unfold set_add. destruct (existsb (Float.eqb x) s) eqn:Hex.
  - split; [done|]. intros ->. discriminate Hex.
  - split; [|by destruct s].
    intros i j a b Hij Ha Hb.
    destruct (decide (j < length s)) as [Hj | Hj].
    + rewrite lookup_app_l in Ha by lia. rewrite lookup_app_l in Hb by lia.
      exact (Hs i j a b Hij Ha Hb).
    + rewrite lookup_app_r in Hb by lia.
      apply list_lookup_singleton_Some in Hb as [Hj' <-].
      rewrite lookup_app_l in Ha by lia.
      rewrite eqb_sym. eapply existsb_eqb_false; [done|].
      by eapply list_elem_of_lookup_2.
Qed.

Lemma bulk_cn_loop_sets sym_struct equivalent_indices d d' :
  adsorptions.bulk_cn_loop sym_struct equivalent_indices d = Ok d' ->
  (forall el s, d !! el = Some s -> s ≠ [] /\ distinct_members s) ->
  forall el s, d' !! el = Some s -> s ≠ [] /\ distinct_members s.
Proof.
  revert d. induction equivalent_indices as [|idx rest IH]; intros d.
  - simpl. by intros [= <-].
  - cbn [adsorptions.bulk_cn_loop].
    intros (idx0 & _ & (site & _ & (cn & _ & Hloop)%bind_Ok)%bind_Ok)%bind_Ok Hinv.
    apply (IH _ Hloop). intros el s. unfold adsorptions.cn_dict_add.
    rewrite lookup_insert. case_decide as Hkey; [|by apply Hinv].
    intros [= <-].
    assert (distinct_members (default [] (d !! species_string site))) as Hd.
    { destruct (d !! species_string site) as [s0|] eqn:Hs0; simpl.
      - by apply (Hinv _ _ Hs0).
      - intros i j x y _ Hx. by rewrite lookup_nil in Hx. }
    destruct (set_add_distinct (py_round cn 5) _ Hd). done.
Qed.

(** X13.  In the dictionary that [calculate_coordination_of_bulk_atoms]
    returns, the set of each element has a member, so that [min] of it never
    fails, and no two members of a set are equal. *)
Theorem bulk_cn_dict_sets (bulk_atoms : Atoms) (bulk_cn_dict : gmap string (list float))
    (el : string) (s : list float) :
  adsorptions.calculate_coordination_of_bulk_atoms bulk_atoms = Ok bulk_cn_dict ->
  bulk_cn_dict !! el = Some s ->
  s ≠ []
  /\ (exists min_cn, py_min s = Ok min_cn /\ min_cn ∈ s)
  /\ forall i j x y, i ≠ j -> s !! i = Some x -> s !! j = Some y -> Float.eqb x y = false.
Proof.
  unfold adsorptions.calculate_coordination_of_bulk_atoms.
  destruct (get_symmetrized_structure _) as [sym_struct equivalent_indices].
  intros Hloop Hs.
  destruct (bulk_cn_loop_sets _ _ _ _ Hloop) with (el := el) (s := s) as [Hne Hdist];
    [intros el' s'; by rewrite lookup_empty | done |].
  split_and!; [done | |].
  - destruct s as [|x s']; [done|]. eexists. split; [done|]. by apply py_min_elem.
  - intros i j x y Hij Hx Hy. destruct (decide (i < j)) as [Hlt | Hge].
    + exact (Hdist i j x y Hlt Hx Hy).
    + rewrite eqb_sym. apply (Hdist j i y x); [lia | done..].
Qed.

(** X14.  [tag_surface_atoms] changes the tags and nothing else: the atoms
    keep their number, symbols and positions, and the cell, the periodic
    boundary conditions and the constraints are those of the surface. *)
Theorem tag_surface_atoms_changes_tags_only (bulk_atoms surface tagged : Atoms) :
  adsorptions.tag_surface_atoms bulk_atoms surface = Ok tagged ->
  len tagged = len surface
  /\ symbol <$> atoms tagged = symbol <$> atoms surface
  /\ position <$> atoms tagged = position <$> atoms surface
  /\ cell tagged = cell surface
  /\ pbc tagged = pbc surface
  /\ constraints tagged = constraints surface
  /\ edges tagged = edges surface
  /\ surface_atoms tagged = surface_atoms surface.
Proof.
  unfold adsorptions.tag_surface_atoms.
  intros (v & _ & (h & _ & Hset)%bind_Ok)%bind_Ok.
  pose proof (set_tags_Ok _ _ _ Hset) as (_ & _ & Hlen & Hcell & Hsym & Hpos).
  unfold set_tags in Hset. case_decide; [|discriminate]. injection Hset as <-.
  split_and!; done.
Qed.

(** X15.  [convert_adsorbate_atoms_to_gratoms] always returns.  Whatever
    tags the adsorbate had, every atom of the result has tag 2; the atoms
    keep their symbols and positions, and the edges are the connectivity
    matrix of the adsorbate. *)
Theorem convert_adsorbate_atoms_to_gratoms_spec (adsorbate : Atoms) :
  exists adsorbate_gratoms,
    adsorptions.convert_adsorbate_atoms_to_gratoms adsorbate = Ok adsorbate_gratoms
    /\ len adsorbate_gratoms = len adsorbate
    /\ (forall atom, atom ∈ atoms adsorbate_gratoms -> tag atom = 2%Z)
    /\ symbol <$> atoms adsorbate_gratoms = symbol <$> atoms adsorbate
    /\ position <$> atoms adsorbate_gratoms = position <$> atoms adsorbate
    /\ cell adsorbate_gratoms = cell adsorbate
    /\ edges adsorbate_gratoms = adsorptions.get_connectivity adsorbate.
Proof.
  destruct (convert_adsorbate_atoms_to_gratoms_Ok adsorbate) as (g & Hconv & Htags).
  exists g. split; [done|].
  unfold adsorptions.convert_adsorbate_atoms_to_gratoms in Hconv.
  pose proof (set_tags_Ok _ _ _ Hconv) as (_ & _ & Hlen & Hcell & Hsym & Hpos).
  split_and!; try done.
  - intros atom Hin.
    assert (tag atom ∈ get_tags g) as Htag by (unfold get_tags; by apply list_elem_of_fmap_2).
    rewrite Htags in Htag. by apply elem_of_replicate in Htag as [-> _].
  - unfold set_tags in Hconv. case_decide; [|discriminate]. by injection Hconv as <-.
Qed.

End MoreTags.

(** ** Placing the adsorbate, constraints and sites *)

Lemma all_result_false {A} (f : A -> Result bool) (l : list A) :
  all_result f l = Ok false -> exists x, x ∈ l /\ f x = Ok false.
Proof.
  induction l as [|x l IH]; [done|]. cbn [all_result]. rewrite bind_Ok.
  intros ([] & Hx & Hrest).
  - destruct (IH Hrest) as (y & Hy & Hfy). exists y. split; [by right | done].
  - exists x. split; [left | done].
Qed.

Lemma filter_result_none {A} (p : A -> Result bool) (l : list A) :
  (forall x, x ∈ l -> p x = Ok false) -> filter_result p l = Ok [].
Proof.
  induction l as [|x l IH]; intros Hall; [done|]. cbn [filter_result].
  rewrite (Hall x) by left. simpl. rewrite IH; [done|].
  intros y Hy. apply Hall. by right.
Qed.

Lemma filter_result_total {A} (p : A -> Result bool) (l : list A) :
  (forall x, x ∈ l -> exists b, p x = Ok b) -> exists l', filter_result p l = Ok l'.
Proof.
  induction l as [|x l IH]; intros Hall; [by eexists|]. cbn [filter_result].
  destruct (Hall x) as [b ->]; [left|]. simpl.
  destruct IH as [l' ->]; [intros y Hy; apply Hall; by right|]. simpl. by eexists.
Qed.

Section Placing.

Context `{constants : !Constants, libs : !Libs}.

(** X16.  A configuration that [is_config_reasonable] rejects is not
    reasonable, and the rejection has a cause: an atom of the adsorbate that
    is outside the unit cell, or that is closer to a Voronoi neighbour of the
    slab than 0.8 times the sum of their covalent radii, over 100. *)
Theorem is_config_reasonable_rejects (adslab : Atoms) :
  adsorptions.is_config_reasonable adslab = Ok false ->
  let structure := AseAtomsAdaptor_get_structure adslab in
  ~ reasonable adslab
  /\ exists idx site,
       is_adsorbate_atom adslab idx
       /\ structure_sites structure !! idx = Some site
       /\ (let coord := Lattice_get_fractional_coords (lattice structure) (coords site) in
           ~ (within_0_1 (vx coord) /\ within_0_1 (vy coord) /\ within_0_1 (vz coord))
           \/ exists nearneighbors nn nn_site r_ads r_nn actual_dist,
                VoronoiNN_get_nn_info structure idx = Ok nearneighbors
                /\ nn ∈ nearneighbors
                /\ ~ is_adsorbate_atom adslab nn
                /\ structure_sites structure !! nn = Some nn_site
                /\ COVALENT_RADIUS !! species_string site = Some r_ads
                /\ COVALENT_RADIUS !! species_string nn_site = Some r_nn
                /\ Atoms_get_distance_mic adslab idx nn = Ok actual_dist
                /\ Float.ltb actual_dist (bond_threshold r_ads r_nn) = true).
Proof.
  intros Hfalse structure. split.
  - intros Hr%is_config_reasonable_true. congruence.
  - unfold adsorptions.is_config_reasonable in Hfalse. fold structure in Hfalse.
    apply all_result_false in Hfalse as (idx & Hidx%adsorbate_indices_of_elem & Hatom).
    unfold adsorptions.adsorbate_atom_reasonable in Hatom.
    apply bind_Ok in Hatom as (site & Hsite%getitem_Ok & Hatom).
    exists idx, site. split_and!; [done..|].
    destruct (adsorptions.outside_unit_cell _) eqn:Hout.
    + left. intros Hin%outside_unit_cell_false. congruence.
    + right. apply bind_Ok in Hatom as (nns & Hnns & Hall).
      apply all_result_false in Hall as (nn & [Hslab Hnn]%list_elem_of_filter & Hfar).
      unfold adsorptions.neighbor_far_enough, adsorptions.cov_bond_thres_of in Hfar.
      rewrite (proj2 (getitem_Ok _ _ _) Hsite) in Hfar. simpl in Hfar.
      apply bind_Ok in Hfar as (nn_site & Hnns'%getitem_Ok & Hfar).
      apply bind_Ok in Hfar as (thres & Hthres & Hfar).
      apply bind_Ok in Hthres as (r_ads & Hads%dict_getitem_Ok & Hthres).
      apply bind_Ok in Hthres as (r_nn & Hrnn%dict_getitem_Ok & [= <-]).
      apply bind_Ok in Hfar as (dist & Hdist & [= Hlt%negb_false_iff]).
      exists nns, nn, nn_site, r_ads, r_nn, dist.
      split_and!; try done. by rewrite <- adsorbate_indices_of_elem.
Qed.

(** X17.  On a structure without an atom of tag 2, [is_config_reasonable]
    has no atom to examine, and it never returns [False]: whenever it
    returns, it returns [True].  (The conversion to a pymatgen structure
    comes before the loop, and is where the call can fail.)  Atoms with a
    tag above 2 are not looked at either. *)
Theorem is_config_reasonable_without_adsorbate (adslab : Atoms) (b : bool) :
  (forall atom, atom ∈ atoms adslab -> tag atom ≠ 2%Z) ->
  adsorptions.is_config_reasonable adslab = Ok b ->
  adsorptions.adsorbate_indices_of adslab = [] /\ b = true.
Proof.
  intros Hnone Hrun.
  assert (adsorptions.adsorbate_indices_of adslab = []) as Hnil.
  { apply elem_of_nil_inv. intros idx (atom & Hatom & Htag)%adsorbate_indices_of_elem.
    by apply (Hnone atom (list_elem_of_lookup_2 _ _ _ Hatom)). }
  split; [done|]. unfold adsorptions.is_config_reasonable in Hrun.
  rewrite Hnil in Hrun. simpl in Hrun. congruence.
Qed.

(** X18.  When the builder gives configurations and [is_config_reasonable]
    returns [False] on each of them (or when it gives none),
    [add_adsorbate_onto_surface] raises the [ValueError] of
    [np.random.choice] on 0, before any draw. *)
Theorem add_adsorbate_onto_surface_none_reasonable (surface adsorbate : Atoms)
    (bond_indices : list nat) (adsorbate_gratoms : Atoms) (adsorbed_surfaces : list Atoms)
    (w : World) :
  adsorptions.convert_adsorbate_atoms_to_gratoms adsorbate = Ok adsorbate_gratoms ->
  Builder_add_adsorbate (surface_gratoms_of surface) adsorbate_gratoms bond_indices
    = Ok adsorbed_surfaces ->
  (forall adslab, adslab ∈ adsorbed_surfaces ->
                  adsorptions.is_config_reasonable adslab = Ok false) ->
  adsorptions.add_adsorbate_onto_surface surface adsorbate bond_indices w
  = (Raise (ValueError "a must be greater than 0 unless no samples are taken"), w).
Proof.
  intros Hconv Hbuild Hall. unfold adsorptions.add_adsorbate_onto_surface.
  unfold mbind at 1, IO_bind, liftR. rewrite Hconv.
  unfold mbind at 1, IO_bind. fold (surface_gratoms_of surface). rewrite Hbuild.
  rewrite filter_result_none; [done|].
  intros adslab Hin. by rewrite (Hall adslab Hin).
Qed.

(** X19.  When [is_config_reasonable] returns on each configuration of the
    builder and returns [True] on one of them, [add_adsorbate_onto_surface]
    returns: one of the configurations of the builder, after one draw. *)
Theorem add_adsorbate_onto_surface_returns (surface adsorbate : Atoms)
    (bond_indices : list nat) (adsorbate_gratoms : Atoms) (adsorbed_surfaces : list Atoms)
    (good : Atoms) (w : World) :
  adsorptions.convert_adsorbate_atoms_to_gratoms adsorbate = Ok adsorbate_gratoms ->
  Builder_add_adsorbate (surface_gratoms_of surface) adsorbate_gratoms bond_indices
    = Ok adsorbed_surfaces ->
  (forall adslab, adslab ∈ adsorbed_surfaces ->
                  exists b, adsorptions.is_config_reasonable adslab = Ok b) ->
  good ∈ adsorbed_surfaces ->
  adsorptions.is_config_reasonable good = Ok true ->
  exists adsorbed_surface s n,
    adsorptions.add_adsorbate_onto_surface surface adsorbate bond_indices w
    = (Ok (adsorbed_surface, s), advance w 1 [EvRandom n])
    /\ adsorbed_surface ∈ adsorbed_surfaces
    /\ 0 < n <= length adsorbed_surfaces.
Proof.
  intros Hconv Hbuild Hall Hgood Htrue.
  destruct (filter_result_total
              (fun surface => b ← adsorptions.is_config_reasonable surface;
                              Ok (bool_decide (b = true)))
              adsorbed_surfaces) as [reasonable_list Hfilter].
  { intros adslab Hin. destruct (Hall adslab Hin) as [b ->]. by eexists. }
  assert (good ∈ reasonable_list) as Hin.
  { apply (filter_result_elem _ _ _ Hfilter good Hgood). by rewrite Htrue. }
  assert (length reasonable_list ≠ 0) as Hne.
  { intros Hlen%nil_length_inv. rewrite Hlen in Hin. by apply elem_of_nil in Hin. }
  destruct (lookup_lt_is_Some_2 reasonable_list
              (rng w (draws w) `mod` length reasonable_list)) as [cfg Hcfg];
    [by apply Nat.mod_upper_bound|].
  exists cfg. eexists. exists (length reasonable_list). split_and!.
  - unfold adsorptions.add_adsorbate_onto_surface.
    unfold mbind at 1, IO_bind, liftR. rewrite Hconv.
    unfold mbind at 1, IO_bind. fold (surface_gratoms_of surface). rewrite Hbuild.
    rewrite Hfilter. unfold mbind at 1, IO_bind.
    rewrite (bind_io_run _ _ _ _ _ (np_random_choice_run _ _ Hne)).
    unfold mbind, IO_bind, getitem. rewrite Hcfg. reflexivity.
  - apply list_elem_of_lookup_2 in Hcfg.
    by destruct (filter_result_Ok _ _ _ Hfilter _ Hcfg).
  - lia.
  - by eapply filter_result_length.
Qed.

(** X20.  In each of the two structures that [sample_structures] returns,
    the last constraint is a mask with one entry for each atom, and it fixes
    an atom exactly when the tag of the atom is 0. *)
Theorem sampled_structures_constraints bulk_database adsorbate_database weights w ad bd w'
    (structure : Atoms) :
  adsorptions.sample_structures bulk_database adsorbate_database weights w
    = (Ok (ad, bd), w') ->
  structure = adsorptions.adsorbed_bulk_atomsobject ad
  \/ structure = adsorptions.bulk_atomsobject bd ->
  exists earlier mask,
    constraints structure = earlier ++ [mask]
    /\ length mask = len structure
    /\ forall i atom,
         atoms structure !! i = Some atom ->
         mask !! i = Some (bool_decide (tag atom = 0%Z)).
Proof.
  intros Hrun Hwhich. apply sample_structures_Ok in Hrun
    as (n_elems & es & bulk & mpid & index & bs & surface & millers & shift & top & ss
        & adsorbate & smiles & bonds & as_ & adsorbed & cs & sites
        & w1 & w2 & w3 & w4 & w5 & _ & _ & _ & _ & _ & _ & -> & -> & _).
  simpl in Hwhich.
  assert (exists a, structure = adsorptions.constrain_surface a) as [a ->].
  { destruct Hwhich as [-> | ->]; by eexists. }
  exists (constraints a), ((fun atom => bool_decide (tag atom = 0%Z)) <$> atoms a).
  split_and!; [done | by rewrite length_fmap |].
  intros i atom Hatom. simpl in Hatom. by rewrite list_lookup_fmap, Hatom.
Qed.

(** X21.  [find_sites] returns exactly when each bond index, added to the
    number of atoms of the surface, is an index of the adsorbed surface; it
    then gives one site for each bond index, the position of that atom with
    each coordinate rounded to 2 digits.  Otherwise it raises [IndexError]. *)
Theorem find_sites_spec (surface adsorbed_surface : Atoms) (bond_indices : list nat) :
  ((forall idx, idx ∈ bond_indices -> len surface + idx < len adsorbed_surface) ->
   exists sites,
     adsorptions.find_sites surface adsorbed_surface bond_indices = Ok sites
     /\ length sites = length bond_indices
     /\ forall k idx,
          bond_indices !! k = Some idx ->
          exists atom,
            atoms adsorbed_surface !! (len surface + idx) = Some atom
            /\ sites !! k
               = Some (py_round (vx (position atom)) 2, py_round (vy (position atom)) 2,
                       py_round (vz (position atom)) 2))
  /\ ((exists idx, idx ∈ bond_indices /\ len adsorbed_surface <= len surface + idx) ->
      adsorptions.find_sites surface adsorbed_surface bond_indices
      = Raise (IndexError "list index out of range")).
Proof.
  unfold adsorptions.find_sites, len. split.
  - induction bond_indices as [|idx rest IH]; intros Hrange.
    + exists []. split_and!; [done..|]. intros k idx Hk. by rewrite lookup_nil in Hk.
    + destruct (lookup_lt_is_Some_2 (atoms adsorbed_surface)
                  (length (atoms surface) + idx)) as [atom Hatom]; [apply Hrange; left|].
      destruct IH as (sites & Hsites & Hlen & Hper); [intros i Hi; apply Hrange; by right|].
      destruct (position atom) as [[x y] z] eqn:Hpos.
      exists ((py_round x 2, py_round y 2, py_round z 2) :: sites).
      cbn [for_each]. rewrite (proj2 (getitem_Ok _ _ _) Hatom). simpl.
      rewrite Hpos. simpl. rewrite Hsites. simpl.
      split_and!; [done | by rewrite Hlen |].
      intros [|k] i Hk; simpl in Hk.
      * injection Hk as <-. exists atom. by rewrite Hpos.
      * by apply Hper.
  - set (f := fun idx : nat => getitem _ _ ≫= _).
    induction bond_indices as [|idx rest IH]; intros (bad & Hin & Hbad).
    + by apply elem_of_nil in Hin.
    + cbn [for_each].
      destruct (atoms adsorbed_surface !! (length (atoms surface) + idx)) as [atom|] eqn:Hatom.
      * apply elem_of_cons in Hin as [-> | Hin].
        { apply lookup_lt_Some in Hatom. lia. }
        assert (exists site, f idx = Ok site) as [site ->].
        { subst f. simpl. unfold getitem. rewrite Hatom. simpl.
          destruct (position atom) as [[x y] z]. by eexists. }
        unfold mbind at 1, Result_bind. rewrite IH; [done|]. by exists bad.
      * assert (f idx = Raise (IndexError "list index out of range")) as ->; [|done].
        subst f. simpl. unfold getitem. by rewrite Hatom.
Qed.

(** X22.  A call of [sample_structures] that returns has made exactly five
    draws from the random generator, one for each chooser, and has left the
    files as they were. *)
Theorem sample_structures_draws bulk_database adsorbate_database weights w ad bd w' :
  adsorptions.sample_structures bulk_database adsorbate_database weights w
    = (Ok (ad, bd), w') ->
  draws w' = 5 + draws w
  /\ files w' = files w
  /\ length (List.filter is_draw (log w')) = 5 + length (List.filter is_draw (log w)).
Proof.
  intros Hrun. apply sample_structures_Ok in Hrun
    as (n_elems & es & bulk & mpid & index & bs & surface & millers & shift & top & ss
        & adsorbate & smiles & bonds & as_ & adsorbed & cs & sites
        & w1 & w2 & w3 & w4 & w5 & Hn & Hb & Hs & Ha & Hc & Hsites & _ & _ & ->).
  apply choose_n_elems_Ok in Hn as (i1 & _ & _ & _ & ->).
  apply choose_bulk_pkl_Ok in Hb as (inv & entries & row & _ & _ & _ & _ & ->).
  apply choose_surface_pkl_Ok in Hs
    as (infos & i3 & st & tiled & _ & _ & _ & _ & _ & _ & _ & ->).
  apply choose_adsorbate_pkl_Ok in Ha as (ainv & el & _ & _ & _ & _ & _ & ->).
  apply add_adsorbate_onto_surface_Ok in Hc
    as (ag & cfgs & good & j & _ & _ & _ & _ & _ & _ & _ & ->).
  split_and!; [done..|]. simpl.
  rewrite !List.filter_app, !length_app. simpl. lia.
Qed.

End Placing.

(** ** Constructing a [Combined], and the default weights *)

Section Construction.

Context `{constants : !Constants, libs : !Libs}.

Lemma combined_add_adsorbate_onto_surface_Ok self adsorbate surface bond_indices w self' w' :
  combined.add_adsorbate_onto_surface self adsorbate surface bond_indices w = (Ok self', w') ->
  exists adsorbed s,
    adsorptions.add_adsorbate_onto_surface surface adsorbate bond_indices w
      = (Ok (adsorbed, s), w')
    /\ adsorptions.is_config_reasonable adsorbed = Ok true
    /\ self' = with_adsorbed self adsorbed s.
Proof.
  unfold combined.add_adsorbate_onto_surface, adsorptions.add_adsorbate_onto_surface.
  change (combined.convert_adsorbate_atoms_to_gratoms self adsorbate)
    with (adsorptions.convert_adsorbate_atoms_to_gratoms adsorbate).
  intros Hrun.
  apply bind_io_Ok in Hrun as (ag & w1 & [Hconv ->]%liftR_Ok & Hrun).
  apply bind_io_Ok in Hrun as (cfgs & w2 & [Hbuild ->]%liftR_Ok & Hrun).
  apply bind_io_Ok in Hrun as (good & w3 & [Hfilter ->]%liftR_Ok & Hrun).
  apply bind_io_Ok in Hrun as (i & w4 & Hchoice & Hrun).
  apply bind_io_Ok in Hrun as (cfg & w5 & [Hget ->]%liftR_Ok & Hrun).
  apply mret_io_Ok in Hrun as [-> ->].
  exists cfg. eexists. split_and!; [|  | reflexivity].
  - rewrite (bind_io_run _ _ _ _ _ (proj2 (liftR_Ok _ _ _ _) (conj Hconv eq_refl))).
    rewrite (bind_io_run _ _ _ _ _ (proj2 (liftR_Ok _ _ _ _) (conj Hbuild eq_refl))).
    rewrite (filter_result_ext
               (fun surface => b ← adsorptions.is_config_reasonable surface;
                               Ok (bool_decide (b = true)))
               (combined.is_config_reasonable self)).
    2:{ intros x. rewrite is_config_reasonable_agree. apply is_True_truthy. }
    rewrite (bind_io_run _ _ _ _ _ (proj2 (liftR_Ok _ _ _ _) (conj Hfilter eq_refl))).
    rewrite (bind_io_run _ _ _ _ _ Hchoice).
    rewrite (bind_io_run _ _ _ _ _ (proj2 (liftR_Ok _ _ _ _) (conj Hget eq_refl))).
    reflexivity.
  - apply getitem_Ok, list_elem_of_lookup_2 in Hget.
    destruct (filter_result_Ok _ _ _ Hfilter _ Hget) as [_ Hp].
    by rewrite is_config_reasonable_agree in Hp.
Qed.

(** X23.  An object that [Combined(adsorbate, surface)] constructs has its
    four attributes set: the adsorbed surface and its sampling string are
    what [add_adsorbate_onto_surface] of [adsorptions] returns for the atoms
    of the adsorbate and of the surface, the adsorbed surface passes
    [is_config_reasonable], the constrained surface is [constrain_surface]
    of it, and there is one site for each bond index. *)
Theorem Combined_init_invariant (surfaces_constrain_surface : Atoms -> Atoms)
    (adsorbate : combined.Adsorbate) (surface : combined.Surface)
    (w w' : World) (self : combined.Combined) :
  combined.__init__ surfaces_constrain_surface adsorbate surface w = (Ok self, w') ->
  exists adsorbed s the_sites,
    combined.adsorbate self = adsorbate
    /\ combined.surface self = surface
    /\ combined.adsorbed_surface_atoms self = Some adsorbed
    /\ combined.adsorbed_surface_sampling_str self = Some s
    /\ combined.constrained_adsorbed_surface self
       = Some (surfaces_constrain_surface adsorbed)
    /\ combined.sites self = Some the_sites
    /\ length the_sites = length (combined.adsorbate_bond_indices adsorbate)
    /\ adsorptions.is_config_reasonable adsorbed = Ok true
    /\ adsorptions.add_adsorbate_onto_surface (combined.surface_surface_atoms surface)
         (combined.adsorbate_atoms adsorbate) (combined.adsorbate_bond_indices adsorbate) w
       = (Ok (adsorbed, s), w').
Proof.
  unfold combined.__init__. intros Hrun.
  apply bind_io_Ok in Hrun as (self1 & w1 & Hadd & Hrun).
  apply combined_add_adsorbate_onto_surface_Ok in Hadd as (adsorbed & s & Hadd & Hok & ->).
  apply bind_io_Ok in Hrun as (a & w2 & [Hattr ->]%liftR_Ok & Hrun).
  simpl in Hattr. injection Hattr as <-.
  apply bind_io_Ok in Hrun as (the_sites & w3 & [Hsites ->]%liftR_Ok & Hrun).
  apply mret_io_Ok in Hrun as [-> ->].
  exists adsorbed, s, the_sites. simpl. split_and!; try done.
  unfold combined.find_sites in Hsites. apply for_each_Ok, Forall2_length in Hsites.
  by rewrite Hsites.
Qed.

(** X24.  With its default weights, [choose_n_elems] passes its assertion:
    for every index that [np.random.choice] picks it returns 1, 2 or 3, the
    number at that index, with the string of that number over 3. *)
Theorem choose_n_elems_default (w : World) (i : nat) :
  np_choice_index adsorptions.default_weights.*2 (rng w (draws w)) = Ok i ->
  exists n_elem,
    adsorptions.default_weights.*1 !! i = Some n_elem
    /\ (n_elem = 1 \/ n_elem = 2 \/ n_elem = 3)%Z
    /\ adsorptions.choose_n_elems None w
       = (Ok (n_elem, str n_elem +:+ "/3"), advance w 1 [EvRandom 3]).
Proof.
  intros Hi. pose proof (np_choice_index_bound _ _ _ Hi) as Hlt. simpl in Hlt.
  assert (math_isclose (py_sum adsorptions.default_weights.*2) Float.one = true) as Hclose
    by (vm_compute; reflexivity).
  assert (forall n, adsorptions.default_weights.*1 !! i = Some n ->
            adsorptions.choose_n_elems None w
            = (Ok (n, str n +:+ "/3"), advance w 1 [EvRandom 3])) as Hrun.
  { intros n Hn. unfold adsorptions.choose_n_elems.
    change (default adsorptions.default_weights None) with adsorptions.default_weights.
    rewrite Hclose. unfold assert.
    unfold mbind at 1, IO_bind, mret at 1, IO_ret at 1.
    unfold mbind, IO_bind, np_random_choice_p.
    rewrite decide_False by done. rewrite decide_True by done.
    rewrite Hi, Hn. reflexivity. }
  destruct i as [|[|[|i]]]; [| | |simpl in Hlt; lia].
  - exists 1%Z. split_and!; [done | by left | by apply Hrun].
  - exists 2%Z. split_and!; [done | by right; left | by apply Hrun].
  - exists 3%Z. split_and!; [done | by right; right | by apply Hrun].
Qed.

End Construction.

(** * The properties on the small world *)

Import Example.


(** A theorem with one hypothesis, at an instance: the hypothesis and the
    conclusion there. *)
Ltac instance_of thm :=
  lazymatch type of thm with
  | ?H1 -> ?H2 -> ?C => exact (H1 /\ H2 /\ C)
  | ?H1 -> ?C => exact (H1 /\ C)
  end.

(** C1 on the small world: the hydrogen atom placed 1.5 Angstrom above the
    column of copper is the one reasonable configuration. *)
Lemma add_adsorbate_onto_surface_reasonable_witness :
  ltac:(instance_of
          (@add_adsorbate_onto_surface_reasonable toy_constants toy_libs
             tagged_slab ads_H [0] world0 placed.2 placed_surface "0/1")).
Proof.
  split.
  - vm_compute. reflexivity.
  - apply (@add_adsorbate_onto_surface_reasonable toy_constants toy_libs
             tagged_slab ads_H [0] world0 placed.2 placed_surface "0/1").
    vm_compute. reflexivity.
Defined.


(** C3 on the small world: of the three copper atoms only the highest is
    above the centre of mass, and it has fewer neighbours than in the bulk. *)
Lemma find_surface_atoms_with_voronoi_spec_witness :
  ltac:(instance_of
          (@find_surface_atoms_with_voronoi_spec toy_libs bulk_Cu slab_Cu [0; 0; 1]%Z)).
Proof.
  split.
  - vm_compute. reflexivity.
  - apply (@find_surface_atoms_with_voronoi_spec toy_libs bulk_Cu slab_Cu [0; 0; 1]%Z).
    vm_compute. reflexivity.
Defined.

(** C4 on the small world: the two highest atoms are within 2 Angstrom of
    the top. *)
Lemma find_surface_atoms_by_height_spec_witness :
  ltac:(instance_of
          (@find_surface_atoms_by_height_spec toy_libs slab_Cu [0; 1; 1]%Z)).
Proof.
  split.
  - vm_compute. reflexivity.
  - apply (@find_surface_atoms_by_height_spec toy_libs slab_Cu [0; 1; 1]%Z).
    vm_compute. reflexivity.
Defined.

(** C5 on the small world. *)
Lemma sample_structures_steps_witness :
  ltac:(instance_of
          (@sample_structures_steps toy_constants toy_libs
             bulk_db ads_db weights_2 world0 sampled_ad sampled_bd sampled.2)).
Proof.
  split.
  - vm_compute. reflexivity.
  - apply (@sample_structures_steps toy_constants toy_libs
             bulk_db ads_db weights_2 world0 sampled_ad sampled_bd sampled.2).
    vm_compute. reflexivity.
Defined.

(** C6 on the small world: the one surface of the file [7.pkl]. *)
Lemma choose_surface_pkl_spec_witness :
  ltac:(instance_of
          (@choose_surface_pkl_spec toy_constants toy_libs bulk_Cu 7%Z world0
             tagged_slab (1, 1, 1)%Z (fl 12345 100000) true "0/1" chosen_surface.2)).
Proof.
  split.
  - vm_compute. reflexivity.
  - apply (@choose_surface_pkl_spec toy_constants toy_libs bulk_Cu 7%Z world0
             tagged_slab (1, 1, 1)%Z (fl 12345 100000) true "0/1" chosen_surface.2).
    vm_compute. reflexivity.
Defined.

(** C7, as stated, fails on the small world: with the weights [{2: 1.0}]
    the number 2 is chosen, at index 0 of one choice, and the string is
    ["2/1"], which is not the index over the number of choices. *)
Lemma sampling_string_of_n_elems_counterexample :
  adsorptions.choose_n_elems (libs := toy_libs) weights_2 world0
    = (Ok (2%Z, "2/1"), advance world0 1 [EvRandom 1])
  /\ ~ (exists i : nat,
          [2%Z] !! i = Some 2%Z
          /\ "2/1" = str (Z.of_nat i) +:+ "/" +:+ str (Z.of_nat (length [2%Z]))).
Proof.
  split.
  - vm_compute. reflexivity.
  - intros (i & Hi & Hs). destruct i as [|i]; [|destruct i; discriminate Hi].
    vm_compute in Hs. discriminate Hs.
Qed.

(** C7 as amended, on the small world. *)
Lemma sampling_strings_witness :
  ltac:(instance_of
          (@sampling_strings toy_constants toy_libs
             bulk_db ads_db weights_2 world0 sampled_ad sampled_bd sampled.2)).
Proof.
  split.
  - vm_compute. reflexivity.
  - apply (@sampling_strings toy_constants toy_libs
             bulk_db ads_db weights_2 world0 sampled_ad sampled_bd sampled.2).
    vm_compute. reflexivity.
Defined.

(** C9 on a world whose index has no material of three elements. *)
Lemma choose_bulk_pkl_empty_witness :
  ltac:(instance_of
          (choose_bulk_pkl_empty empty_db 3%Z {[ 3%Z := [] ]} world_empty)).
Proof.
  split; [|split].
  - vm_compute. reflexivity.
  - vm_compute. reflexivity.
  - apply (choose_bulk_pkl_empty empty_db 3%Z {[ 3%Z := [] ]} world_empty).
    + vm_compute. reflexivity.
    + vm_compute. reflexivity.
Defined.

(** ** More properties on the small world *)

(** A theorem with up to six hypotheses, at an instance. *)
Ltac instance_at thm :=
  let T := type of thm in
  let T := eval cbv zeta in T in
  lazymatch T with
  | ?H1 -> ?H2 -> ?H3 -> ?H4 -> ?H5 -> ?H6 -> ?C =>
      exact (H1 /\ H2 /\ H3 /\ H4 /\ H5 /\ H6 /\ C)
  | ?H1 -> ?H2 -> ?H3 -> ?H4 -> ?H5 -> ?C => exact (H1 /\ H2 /\ H3 /\ H4 /\ H5 /\ C)
  | ?H1 -> ?H2 -> ?H3 -> ?H4 -> ?C => exact (H1 /\ H2 /\ H3 /\ H4 /\ C)
  | ?H1 -> ?H2 -> ?H3 -> ?C => exact (H1 /\ H2 /\ H3 /\ C)
  | ?H1 -> ?H2 -> ?C => exact (H1 /\ H2 /\ C)
  | ?H1 -> ?C => exact (H1 /\ C)
  end.

(** Membership in an explicit list, one element at a time. *)
Ltac each_member Hin tac :=
  repeat (apply elem_of_cons in Hin as [-> | Hin]; [tac|]);
  try (by apply elem_of_nil in Hin).

(** X2 on a database with one row of two elements. *)
Lemma choose_bulk_spec_witness :
  ltac:(instance_at
          (choose_bulk_spec toy_select bulk_db 2%Z
             [ase_db.mkRow bulk_Cu (Some "mp-30")] world0)).
Proof.
  split.
  - vm_compute. reflexivity.
  - apply (choose_bulk_spec toy_select bulk_db 2%Z
             [ase_db.mkRow bulk_Cu (Some "mp-30")] world0).
    vm_compute. reflexivity.
Defined.

(** X3 on the small world. *)
Lemma choose_bulk_pkl_returns_witness :
  ltac:(instance_at
          (choose_bulk_pkl_returns bulk_db 2%Z
             {[ 2%Z := [(bulk_Cu, "mp-30", "0/1", 7%Z)] ]}
             [(bulk_Cu, "mp-30", "0/1", 7%Z)] world0)).
Proof.
  split; [|split; [|split]].
  - vm_compute. reflexivity.
  - vm_compute. reflexivity.
  - discriminate.
  - apply (choose_bulk_pkl_returns bulk_db 2%Z
             {[ 2%Z := [(bulk_Cu, "mp-30", "0/1", 7%Z)] ]}
             [(bulk_Cu, "mp-30", "0/1", 7%Z)] world0).
    + vm_compute. reflexivity.
    + vm_compute. reflexivity.
    + discriminate.
Defined.

(** X4 on the small world: with the default weights the first draw chooses
    one element, and the index of bulks has materials of two elements only. *)
Lemma sample_structures_no_bulk_for_n_elems_witness :
  ltac:(instance_at
          (@sample_structures_no_bulk_for_n_elems toy_constants toy_libs
             bulk_db ads_db None
             {[ 2%Z := [(bulk_Cu, "mp-30", "0/1", 7%Z)] ]} world0 1%Z "1/3"
             (advance world0 1 [EvCall "choose_n_elems"; EvRandom 3]))).
Proof.
  split; [|split; [|split]].
  - vm_compute. reflexivity.
  - vm_compute. reflexivity.
  - vm_compute. reflexivity.
  - apply (@sample_structures_no_bulk_for_n_elems toy_constants toy_libs
             bulk_db ads_db None
             {[ 2%Z := [(bulk_Cu, "mp-30", "0/1", 7%Z)] ]} world0 1%Z "1/3"
             (advance world0 1 [EvCall "choose_n_elems"; EvRandom 3])).
    + vm_compute. reflexivity.
    + vm_compute. reflexivity.
    + vm_compute. reflexivity.
Defined.

Lemma toy_adsorbates_dense (i : nat) :
  i < size ({[ 0 := (ads_H, "*H", [0]) ]} : gmap nat AdsorbateEntry) ->
  is_Some (({[ 0 := (ads_H, "*H", [0]) ]} : gmap nat AdsorbateEntry) !! i).
Proof.
  rewrite map_size_singleton. intros Hi. assert (i = 0) as -> by lia.
  rewrite lookup_singleton_eq. by eexists.
Qed.

(** X5 on the small world. *)
Lemma choose_adsorbate_pkl_returns_witness :
  ltac:(instance_at
          (choose_adsorbate_pkl_returns ads_db {[ 0 := (ads_H, "*H", [0]) ]} world0)).
Proof.
  split; [|split; [|split]].
  - vm_compute. reflexivity.
  - rewrite map_size_singleton. discriminate.
  - exact toy_adsorbates_dense.
  - apply (choose_adsorbate_pkl_returns ads_db {[ 0 := (ads_H, "*H", [0]) ]} world0).
    + vm_compute. reflexivity.
    + rewrite map_size_singleton. discriminate.
    + exact toy_adsorbates_dense.
Defined.

(** X6 on a world whose file of surfaces of bulk 9 is empty. *)
Lemma choose_surface_pkl_no_surfaces_witness :
  ltac:(instance_at
          (@choose_surface_pkl_no_surfaces toy_constants toy_libs bulk_Cu 9%Z
             world_no_surfaces)).
Proof.
  split.
  - vm_compute. reflexivity.
  - apply (@choose_surface_pkl_no_surfaces toy_constants toy_libs bulk_Cu 9%Z
             world_no_surfaces).
    vm_compute. reflexivity.
Defined.

(** X7 on the small world. *)
Lemma choose_surface_pkl_returns_witness :
  ltac:(instance_at
          (@choose_surface_pkl_returns toy_constants toy_libs bulk_Cu 7%Z world0
             [(to_structure slab_Cu, (1, 1, 1)%Z, fl 12345 100000, true)]
             (to_structure slab_Cu) (1, 1, 1)%Z (fl 12345 100000) true
             slab_Cu tagged_slab)).
Proof.
  split; [|split; [|split; [|split]]].
  - vm_compute. reflexivity.
  - vm_compute. reflexivity.
  - vm_compute. reflexivity.
  - vm_compute. reflexivity.
  - apply (@choose_surface_pkl_returns toy_constants toy_libs bulk_Cu 7%Z world0
             [(to_structure slab_Cu, (1, 1, 1)%Z, fl 12345 100000, true)]
             (to_structure slab_Cu) (1, 1, 1)%Z (fl 12345 100000) true
             slab_Cu tagged_slab).
    + vm_compute. reflexivity.
    + vm_compute. reflexivity.
    + vm_compute. reflexivity.
    + vm_compute. reflexivity.
Defined.

(** X8 for the bulks 7 and 8. *)
Lemma precomputed_file_of_one_bulk_witness :
  ltac:(instance_at (precomputed_file_of_one_bulk 7 8)).
Proof.
  split.
  - discriminate.
  - apply (precomputed_file_of_one_bulk 7 8). discriminate.
Defined.

(** X9 on the small world: two Miller indices, one slab each, and no
    symmetry operation, so that each slab is there flipped as well. *)
Lemma enumerate_surfaces_entries_witness :
  ltac:(instance_at
          (@enumerate_surfaces_entries toy_constants toy_libs bulk_Cu 5%Z enumerated)).
Proof.
  split.
  - vm_compute. reflexivity.
  - apply (@enumerate_surfaces_entries toy_constants toy_libs bulk_Cu 5%Z enumerated).
    vm_compute. reflexivity.
Defined.

Lemma mirror_operations_have_zz :
  Forall (fun xform_matrix : list (list float) =>
            exists row z, xform_matrix !! 2 = Some row /\ row !! 2 = Some z)
    [identity_matrix; mirror_matrix].
Proof. repeat constructor; eexists _, _; split; reflexivity. Qed.

(** X10 with the identity and a mirror plane as the operations. *)
Lemma is_structure_invertible_spec_witness :
  ltac:(instance_at (@is_structure_invertible_spec mirror_libs (to_structure slab_Cu))).
Proof.
  split.
  - exact mirror_operations_have_zz.
  - apply (@is_structure_invertible_spec mirror_libs (to_structure slab_Cu)).
    exact mirror_operations_have_zz.
Defined.

(** X11 on the small world: the atom at 3 Angstrom is tagged, and so is the
    one at 5 Angstrom. *)
Lemma height_tags_upward_closed_witness :
  ltac:(instance_at
          (@height_tags_upward_closed toy_libs slab_Cu [0; 1; 1]%Z 1 2 (fl 3 10) (fl 5 10))).
Proof.
  split; [|split; [|split; [|split; [|split]]]];
    [vm_compute; reflexivity..|].
  apply (@height_tags_upward_closed toy_libs slab_Cu [0; 1; 1]%Z 1 2 (fl 3 10) (fl 5 10));
    vm_compute; reflexivity.
Defined.

(** X12 on a slab of copper with a hydrogen atom on top, over a bulk of
    copper. *)
Lemma voronoi_unknown_element_witness :
  ltac:(instance_at
          (@voronoi_unknown_element toy_libs bulk_Cu slab_with_H com_with_H
             {[ "Cu" := [Float.of_Z 12] ]} 2
             (mkSite "H" Float.one (Float.of_Z 5, Float.of_Z 5, Float.of_Z 5)
                (fl 5 10, fl 5 10, fl 5 10))
             (Float.of_Z 6))).
Proof.
  split; [|split; [|split; [|split; [|split; [|split]]]]];
    [vm_compute; reflexivity..|].
  apply (@voronoi_unknown_element toy_libs bulk_Cu slab_with_H com_with_H
           {[ "Cu" := [Float.of_Z 12] ]} 2
           (mkSite "H" Float.one (Float.of_Z 5, Float.of_Z 5, Float.of_Z 5)
              (fl 5 10, fl 5 10, fl 5 10))
           (Float.of_Z 6));
    vm_compute; reflexivity.
Defined.

(** X13 on the bulk of copper. *)
Lemma bulk_cn_dict_sets_witness :
  ltac:(instance_at
          (@bulk_cn_dict_sets toy_libs bulk_Cu {[ "Cu" := [Float.of_Z 12] ]}
             "Cu" [Float.of_Z 12])).
Proof.
  split; [|split]; [vm_compute; reflexivity..|].
  apply (@bulk_cn_dict_sets toy_libs bulk_Cu {[ "Cu" := [Float.of_Z 12] ]}
           "Cu" [Float.of_Z 12]);
    vm_compute; reflexivity.
Defined.

(** X14 on the small world. *)
Lemma tag_surface_atoms_changes_tags_only_witness :
  ltac:(instance_at
          (@tag_surface_atoms_changes_tags_only toy_libs bulk_Cu slab_Cu tagged_slab)).
Proof.
  split.
  - vm_compute. reflexivity.
  - apply (@tag_surface_atoms_changes_tags_only toy_libs bulk_Cu slab_Cu tagged_slab).
    vm_compute. reflexivity.
Defined.

(** X16 on the configuration with the hydrogen atom 0.5 Angstrom above the
    copper. *)
Lemma is_config_reasonable_rejects_witness :
  ltac:(instance_at (@is_config_reasonable_rejects toy_constants toy_libs too_close)).
Proof.
  split.
  - vm_compute. reflexivity.
  - apply (@is_config_reasonable_rejects toy_constants toy_libs too_close).
    vm_compute. reflexivity.
Defined.

Lemma tagged_slab_has_no_adsorbate (atom : Atom) :
  atom ∈ atoms tagged_slab -> tag atom ≠ 2%Z.
Proof. intros Hin. each_member Hin ltac:(discriminate). Qed.

(** X17 on the slab without adsorbate. *)
Lemma is_config_reasonable_without_adsorbate_witness :
  ltac:(instance_at
          (@is_config_reasonable_without_adsorbate toy_constants toy_libs tagged_slab true)).
Proof.
  split; [|split].
  - exact tagged_slab_has_no_adsorbate.
  - vm_compute. reflexivity.
  - apply (@is_config_reasonable_without_adsorbate toy_constants toy_libs tagged_slab true).
    + exact tagged_slab_has_no_adsorbate.
    + vm_compute. reflexivity.
Defined.

Lemma high_slab_none_reasonable (adslab : Atoms) :
  adslab ∈ [place (surface_gratoms_of high_slab) ads_H_gratoms (fl 1 2);
            place (surface_gratoms_of high_slab) ads_H_gratoms (fl 3 2);
            place (surface_gratoms_of high_slab) ads_H_gratoms (Float.of_Z 6)] ->
  adsorptions.is_config_reasonable (constants := toy_constants) (libs := toy_libs) adslab
  = Ok false.
Proof. intros Hin. each_member Hin ltac:(vm_compute; reflexivity). Qed.

(** X18 on a slab that reaches the top of the cell: the adsorbate is too
    close or outside the cell at each of the three heights. *)
Lemma add_adsorbate_onto_surface_none_reasonable_witness :
  ltac:(instance_at
          (@add_adsorbate_onto_surface_none_reasonable toy_constants toy_libs
             high_slab ads_H [0] ads_H_gratoms
             [place (surface_gratoms_of high_slab) ads_H_gratoms (fl 1 2);
              place (surface_gratoms_of high_slab) ads_H_gratoms (fl 3 2);
              place (surface_gratoms_of high_slab) ads_H_gratoms (Float.of_Z 6)]
             world0)).
Proof.
  split; [|split; [|split]].
  - vm_compute. reflexivity.
  - vm_compute. reflexivity.
  - exact high_slab_none_reasonable.
  - apply (@add_adsorbate_onto_surface_none_reasonable toy_constants toy_libs
             high_slab ads_H [0] ads_H_gratoms
             [place (surface_gratoms_of high_slab) ads_H_gratoms (fl 1 2);
              place (surface_gratoms_of high_slab) ads_H_gratoms (fl 3 2);
              place (surface_gratoms_of high_slab) ads_H_gratoms (Float.of_Z 6)]
             world0).
    + vm_compute. reflexivity.
    + vm_compute. reflexivity.
    + exact high_slab_none_reasonable.
Defined.

Lemma tagged_slab_all_decided (adslab : Atoms) :
  adslab ∈ [place (surface_gratoms_of tagged_slab) ads_H_gratoms (fl 1 2);
            place (surface_gratoms_of tagged_slab) ads_H_gratoms (fl 3 2);
            place (surface_gratoms_of tagged_slab) ads_H_gratoms (Float.of_Z 6)] ->
  exists b,
    adsorptions.is_config_reasonable (constants := toy_constants) (libs := toy_libs) adslab
    = Ok b.
Proof. intros Hin. each_member Hin ltac:(eexists; vm_compute; reflexivity). Qed.

(** X19 on the small world: the configuration at 1.5 Angstrom is reasonable. *)
Lemma add_adsorbate_onto_surface_returns_witness :
  ltac:(instance_at
          (@add_adsorbate_onto_surface_returns toy_constants toy_libs
             tagged_slab ads_H [0] ads_H_gratoms
             [place (surface_gratoms_of tagged_slab) ads_H_gratoms (fl 1 2);
              place (surface_gratoms_of tagged_slab) ads_H_gratoms (fl 3 2);
              place (surface_gratoms_of tagged_slab) ads_H_gratoms (Float.of_Z 6)]
             (place (surface_gratoms_of tagged_slab) ads_H_gratoms (fl 3 2))
             world0)).
Proof.
  split; [|split; [|split; [|split; [|split]]]].
  - vm_compute. reflexivity.
  - vm_compute. reflexivity.
  - exact tagged_slab_all_decided.
  - right. left.
  - vm_compute. reflexivity.
  - apply (@add_adsorbate_onto_surface_returns toy_constants toy_libs
             tagged_slab ads_H [0] ads_H_gratoms
             [place (surface_gratoms_of tagged_slab) ads_H_gratoms (fl 1 2);
              place (surface_gratoms_of tagged_slab) ads_H_gratoms (fl 3 2);
              place (surface_gratoms_of tagged_slab) ads_H_gratoms (Float.of_Z 6)]
             (place (surface_gratoms_of tagged_slab) ads_H_gratoms (fl 3 2))
             world0).
    + vm_compute. reflexivity.
    + vm_compute. reflexivity.
    + exact tagged_slab_all_decided.
    + right. left.
    + vm_compute. reflexivity.
Defined.

(** X20 on the adsorbed structure of the small world. *)
Lemma sampled_structures_constraints_witness :
  ltac:(instance_at
          (@sampled_structures_constraints toy_constants toy_libs
             bulk_db ads_db weights_2 world0 sampled_ad sampled_bd sampled.2
             (adsorptions.adsorbed_bulk_atomsobject sampled_ad))).
Proof.
  split; [|split].
  - vm_compute. reflexivity.
  - left. reflexivity.
  - apply (@sampled_structures_constraints toy_constants toy_libs
             bulk_db ads_db weights_2 world0 sampled_ad sampled_bd sampled.2
             (adsorptions.adsorbed_bulk_atomsobject sampled_ad)).
    + vm_compute. reflexivity.
    + left. reflexivity.
Defined.

(** X22 on the small world. *)
Lemma sample_structures_draws_witness :
  ltac:(instance_at
          (@sample_structures_draws toy_constants toy_libs
             bulk_db ads_db weights_2 world0 sampled_ad sampled_bd sampled.2)).
Proof.
  split.
  - vm_compute. reflexivity.
  - apply (@sample_structures_draws toy_constants toy_libs
             bulk_db ads_db weights_2 world0 sampled_ad sampled_bd sampled.2).
    vm_compute. reflexivity.
Defined.

(** X23 on the small world. *)
Lemma Combined_init_invariant_witness :
  ltac:(instance_at
          (@Combined_init_invariant toy_constants toy_libs adsorptions.constrain_surface
             toy_adsorbate toy_surface world0 constructed.2 constructed_self)).
Proof.
  split.
  - vm_compute. reflexivity.
  - apply (@Combined_init_invariant toy_constants toy_libs adsorptions.constrain_surface
             toy_adsorbate toy_surface world0 constructed.2 constructed_self).
    vm_compute. reflexivity.
Defined.

(** X24 on the small world: the first draw picks index 0. *)
Lemma choose_n_elems_default_witness :
  ltac:(instance_at (@choose_n_elems_default toy_libs world0 0)).
Proof.
  split.
  - vm_compute. reflexivity.
  - apply (@choose_n_elems_default toy_libs world0 0). vm_compute. reflexivity.
Defined.
